(** * API monitor: a shallow embedding of [api-monitor-standalone.js]

    The development follows the [APIMonitor] class of the packaged monitor,
    the variant that closes over [self]. (The file holds an older variant
    that binds [this]; its [load] listener is an arrow function followed by
    [.bind(this)], which does not parse, so that variant defines nothing.)

    - JavaScript values are a tree type [jsval]. Numbers are the integers
      ([Z]), which is what the monitor itself produces (status codes, clock
      readings, durations), and the four values of the number type that
      JSON does not write as they are. Finite fractions, which JSON writes
      and reads back as it does integers, are left out, and so are the
      values on which [JSON.stringify] throws (a [BigInt], an object with a
      cycle).
    - Browser built-ins the monitor calls but does not define ([new URL],
      the text syntax of [JSON], [Math.random], [Date.toISOString]) are the
      members of the class [Browser]; [Module MiniBrowser] gives one concrete
      instance so that every definition can be run.
    - The monitor object ([this]) and the page globals ([window]) are two
      records threaded explicitly through every method. One monitor is
      followed per page: every wrapper on the page closes over it.
    - A method that can throw returns an [option]: [None] is the exception
      leaving the method.
    - What the page observes of the monitor is kept in the window as
      histories: the console lines, the events dispatched, the calls made
      to listeners, the files offered for download; and the timers the
      monitor has set are kept until they fire.
    - Outside the model: what the callbacks of the page do when they are
      called, the markup of the list and of the detail view, and the
      callbacks of the two performance observers, which only log. *)

From Stdlib Require Import ZArith String Ascii List Bool Lia.
From Stdlib Require Import DecimalString DecimalN.
From stdpp Require Import base option list gmap strings.

Local Open Scope string_scope.
Local Open Scope list_scope.
Local Open Scope Z_scope.

(** ** JavaScript strings *)

Module JsString.

(** [s.startsWith(p)] *)
Definition startsWith (s p : string) : bool := String.prefix p s.

(** [s.includes(p)] *)
Fixpoint includes (s p : string) : bool :=
  String.prefix p s ||
  match s with
  | EmptyString => false
  | String _ s' => includes s' p
  end.

(** [s.lastIndexOf(c)] for a one-character needle: the greatest index holding
    [c], or [-1]. [i] is the index of the head of [s], [found] the best so far. *)
Fixpoint lastIndexOf_from (i found : Z) (c : ascii) (s : string) : Z :=
  match s with
  | EmptyString => found
  | String a s' => lastIndexOf_from (i + 1) (if Ascii.eqb a c then i else found) c s'
  end.

Definition lastIndexOf (s : string) (c : ascii) : Z := lastIndexOf_from 0 (-1) c s.

(** [s.substring(a, b)]: both ends are clamped to [0, length] and swapped when
    out of order. *)
Definition substring (s : string) (a b : Z) : string :=
  let len := Z.of_nat (String.length s) in
  let a' := Z.min (Z.max a 0) len in
  let b' := Z.min (Z.max b 0) len in
  let lo := Z.min a' b' in
  let hi := Z.max a' b' in
  String.substring (Z.to_nat lo) (Z.to_nat (hi - lo)) s.

(** [s.replace(/c/g, d)] for single characters. *)
Fixpoint replaceAll (c d : ascii) (s : string) : string :=
  match s with
  | EmptyString => EmptyString
  | String a s' => String (if Ascii.eqb a c then d else a) (replaceAll c d s')
  end.

(** [n.toString()] for an integer. *)
Definition ofZ (n : Z) : string :=
  let digits := NilEmpty.string_of_uint (N.to_uint (Z.abs_N n)) in
  if n <? 0 then String "-" digits else digits.

(** A string is falsy exactly when it is empty. *)
Definition nonEmpty (s : string) : bool :=
  match s with EmptyString => false | String _ _ => true end.

End JsString.

(** ** JavaScript values and JSON *)

#[local] Unset Elimination Schemes.

(** The values of the number type beside the integers that behave in their
    own way: [NaN] and negative zero are falsy, and [JSON.stringify] writes
    [null] for [NaN] and the infinities and [0] for negative zero. *)
Inductive Special : Type := NaN | Infinity | NegInfinity | NegZero.

(** The values that reach the monitor. [VHost c] is a host object of class [c]
    without own enumerable properties ([FormData], [Blob], [Headers],
    [URLSearchParams], [ArrayBuffer], ...): the non-string bodies that
    [XMLHttpRequest.send] and [fetch] accept. *)
Inductive jsval : Type :=
| VUndefined
| VNull
| VBool (b : bool)
| VNum (n : Z)
| VSpecial (x : Special)
| VStr (s : string)
| VArr (items : list jsval)
| VObj (props : list (string * jsval))
| VHost (class : string).

(** The syntax trees of JSON text. *)
Inductive json : Type :=
| JNull
| JBool (b : bool)
| JNumber (n : Z)
| JString (s : string)
| JArray (items : list json)
| JObject (members : list (string * json)).

#[local] Set Elimination Schemes.

(** [!v] is [negb (truthy v)]. *)
Definition truthy (v : jsval) : bool :=
  match v with
  | VUndefined | VNull => false
  | VBool b => b
  | VNum n => negb (n =? 0)
  | VSpecial x => match x with Infinity | NegInfinity => true | NaN | NegZero => false end
  | VStr s => JsString.nonEmpty s
  | VArr _ | VObj _ | VHost _ => true
  end.

(** [JSON.stringify], value side (SerializeJSONProperty): [None] is the
    [undefined] result, which drops a property and becomes [null] in an array;
    a host object has no enumerable property to write. *)
Fixpoint to_json (v : jsval) : option json :=
  match v with
  | VUndefined => None
  | VNull => Some JNull
  | VBool b => Some (JBool b)
  | VNum n => Some (JNumber n)
  | VSpecial x => Some (match x with NegZero => JNumber 0 | _ => JNull end)
  | VStr s => Some (JString s)
  | VArr items =>
      Some (JArray (List.map (fun x => match to_json x with Some j => j | None => JNull end) items))
  | VObj props =>
      Some (JObject
        ((fix members (ps : list (string * jsval)) : list (string * json) :=
            match ps with
            | [] => []
            | (k, x) :: ps' =>
                match to_json x with
                | Some j => (k, j) :: members ps'
                | None => members ps'
                end
            end) props))
  | VHost _ => Some (JObject [])
  end.

(** [JSON.parse], value side: the value a syntax tree denotes. *)
Fixpoint of_json (j : json) : jsval :=
  match j with
  | JNull => VNull
  | JBool b => VBool b
  | JNumber n => VNum n
  | JString s => VStr s
  | JArray items => VArr (List.map of_json items)
  | JObject members =>
      VObj ((fix props (ms : list (string * json)) : list (string * jsval) :=
               match ms with
               | [] => []
               | (k, x) :: ms' => (k, of_json x) :: props ms'
               end) members)
  end.


(** The tree [JSON.stringify] writes for an array: [to_json (VArr items)] is
    [Some (array_to_json items)]. *)
Definition array_to_json (items : list jsval) : json :=
  JArray (List.map (fun x => match to_json x with Some j => j | None => JNull end) items).

(** ** Browser built-ins *)

(** What [new URL(s)] exposes to the monitor. *)
Record URL : Type := { URL_hostname : string; URL_pathname : string }.

(** The built-ins the monitor calls without defining them.
    - [URL_new s] is [new URL(s)]; [None] is the [TypeError] of a string that
      is not an absolute URL.
    - [JSON_print indent j] is the text [JSON.stringify] writes for the tree
      [j] with the given indentation, [JSON_read] the grammar [JSON.parse]
      reads with; [None] is a [SyntaxError]. Text written is read back, and
      is never the empty string.
    - [Math_random36 k] is [Math.random().toString(36)] at the [k]-th draw.
    - [Date_toISOString t] is [new Date(t).toISOString()]. *)
Class Browser : Type := {
  URL_new : string -> option URL;
  JSON_print : nat -> json -> string;
  JSON_read : string -> option json;
  JSON_read_print : forall indent j, JSON_read (JSON_print indent j) = Some j;
  JSON_print_nonEmpty : forall indent j, JsString.nonEmpty (JSON_print indent j) = true;
  Math_random36 : nat -> string;
  Date_toISOString : Z -> string
}.

(** ** Configuration *)

(** The toggles of [captureFields], group by group. *)
Inductive Field : Type :=
| request_url | request_method | request_headers | request_payload | request_queryParams
| response_status | response_headers | response_body | response_timing
| metadata_timestamp | metadata_domain | metadata_path | metadata_duration | metadata_initiator.

Record Config : Type := {
  targetPaths : list string;
  allowedDomains : list string;
  maxStoredRequests : Z;
  captureFields : Field -> bool;
  storageKey : string;
  enableUI : bool;
  enableLog : bool;
  autoStart : bool
}.

(** The caller's partial configuration: an absent key is [None]. *)
Record UserConfig : Type := {
  user_targetPaths : option (list string);
  user_allowedDomains : option (list string);
  user_maxStoredRequests : option Z;
  user_captureFields : Field -> option bool;
  user_storageKey : option string;
  user_enableUI : option bool;
  user_enableLog : option bool;
  user_autoStart : option bool
}.

Definition DEFAULT_CONFIG : Config := {|
  targetPaths := [];
  allowedDomains := [];
  maxStoredRequests := 100;
  captureFields := fun _ => true;
  storageKey := "api_monitor_requests";
  enableUI := true;
  enableLog := true;
  autoStart := true
|}.

Definition mergeConfig (defaultConfig : Config) (userConfig : UserConfig) : Config := {|
  targetPaths := default (targetPaths defaultConfig) (user_targetPaths userConfig);
  allowedDomains := default (allowedDomains defaultConfig) (user_allowedDomains userConfig);
  maxStoredRequests := default (maxStoredRequests defaultConfig) (user_maxStoredRequests userConfig);
  captureFields := fun f => default (captureFields defaultConfig f) (user_captureFields userConfig f);
  storageKey := default (storageKey defaultConfig) (user_storageKey userConfig);
  enableUI := default (enableUI defaultConfig) (user_enableUI userConfig);
  enableLog := default (enableLog defaultConfig) (user_enableLog userConfig);
  autoStart := default (autoStart defaultConfig) (user_autoStart userConfig)
|}.

(** ** The page *)

Record Location : Type := { hostname : string; pathname : string }.

(** [window.XMLHttpRequest]: the native constructor, or a closure installed
    over the constructor found at installation time. [InterceptedXHR] is the
    recording wrapper of [interceptXHR], [ListenedXHR] the logging wrapper of
    [interceptAllNetworkRequests]. *)
Inductive XHRConstructor : Type :=
| NativeXHR
| InterceptedXHR (origXHR : XHRConstructor)
| ListenedXHR (originalXHRConstructor : XHRConstructor).

(** [window.fetch], likewise. *)
Inductive FetchFunction : Type :=
| NativeFetch
| InterceptedFetch (origFetch : FetchFunction)
| ListenedFetch (originalFetch : FetchFunction).

(** [document.createElement], wrapped by [interceptJSONP]. *)
Inductive CreateElement : Type :=
| NativeCreateElement
| InterceptedCreateElement (originalCreateElement : CreateElement).

(** The observers the monitor keeps in [this.observers]. *)
Inductive Observer : Type :=
| TargetPerformanceObserver
| ScriptMutationObserver
| GlobalPerformanceObserver.

(** A listener on [window]: a function registered as it is, or the arrow
    function [on] creates around a callback. Functions are compared by
    identity, which is a number here. *)
Inductive Listener : Type :=
| Direct (fn : nat)
| Forwarding (fn : nat) (callback : nat).

Definition listener_fn (l : Listener) : nat :=
  match l with Direct fn => fn | Forwarding fn _ => fn end.

(** A call the event dispatch makes: a direct listener receives the event, a
    callback registered through [on] receives [event.detail]. *)
Inductive Call : Type :=
| CallWithEvent (fn : nat) (type : string) (detail : jsval)
| CallWithDetail (callback : nat) (detail : jsval).

(** The lines of [this.log], one constructor per call site. *)
Inductive LogLine : Type :=
| LogInit | LogTargetPaths (paths : list string) | LogAllowedDomains (domains : list string)
| LogAlreadyRunning | LogStarted | LogNotRunning | LogStopped
| LogInterceptXHR | LogInterceptFetch | LogPerformanceObserverSet
| LogInterceptJSONP | LogInterceptScriptTags | LogInterceptAll
| LogXHROpen (method url : string) | LogGlobalXHR (method url : string)
| LogXHRSend (method url : string)
| LogXHRCheck (url : string) (hasTargetPath hasAllowedDomain : bool)
| LogXHRMonitored (method url : string) | LogXHRMatch (hasTargetPath hasAllowedDomain : bool)
| LogXHRError
| LogFetch (method url : string) | LogGlobalFetch (method url : string)
| LogFetchCheck (url : string) (hasTargetPath hasAllowedDomain : bool)
| LogFetchMonitored (method url : string) | LogFetchMatch (hasTargetPath hasAllowedDomain : bool)
| LogFetchError
| LogBuild (type url : string)
| LogSave (data : jsval) | LogCaptured (count : nat) | LogSaved (count : nat)
| LogSaveFailed | LogLoadFailed
| LogNothingToDownload | LogDownloaded | LogDownloadFailed
| LogNoBody | LogNoBodyPanel | LogUIExists | LogPanelExists.

(** The part of the document the monitor reads and writes: whether
    [document.body] exists, the text of [#api-monitor-badge] when the button
    exists, and the entries of [#api-monitor-content] (newest first) when the
    panel exists. *)
Record Document : Type := {
  body : bool;
  badge : option nat;
  content : option (list jsval)
}.

(** What a timer of the monitor calls when it fires. *)
Inductive Timer : Type := RetryCreateUI | RetryCreatePanel.

(** The page: the globals the monitor reads and replaces, the counter that
    gives new functions their identity, the clock and the number of random
    draws made, and what has been observed of the page so far.
    [storageLimit] is [None] on a page that is denied the storage, where
    reading [localStorage] throws, and else the number of characters the
    store takes. [timers] holds the timers set and not yet fired, with
    the time each is due, in the order set. *)
Record Window : Type := {
  location : Location;
  XMLHttpRequest : XHRConstructor;
  fetch : FetchFunction;
  createElement : CreateElement;
  hasPerformanceObserver : bool;
  localStorage : gmap string string;
  listeners : list (string * Listener);
  next_fn : nat;
  clock : Z;
  draws : nat;
  console : list LogLine;
  document : Document;
  downloads : list (string * string);
  dispatched : list (string * jsval);
  called : list Call;
  storageLimit : option Z;
  timers : list (Z * Timer)
}.

(** The monitor object, [this]. *)
Record APIMonitor : Type := {
  config : Config;
  capturedRequests : list jsval;
  isMonitoring : bool;
  observers : list Observer
}.

(** Field updates of [window] and [this]. *)
Definition set_XMLHttpRequest (x : XHRConstructor) (w : Window) : Window :=
  Build_Window (location w) x (fetch w) (createElement w) (hasPerformanceObserver w)
    (localStorage w) (listeners w) (next_fn w) (clock w) (draws w) (console w)
    (document w) (downloads w) (dispatched w) (called w) (storageLimit w) (timers w).

Definition set_fetch (f : FetchFunction) (w : Window) : Window :=
  Build_Window (location w) (XMLHttpRequest w) f (createElement w) (hasPerformanceObserver w)
    (localStorage w) (listeners w) (next_fn w) (clock w) (draws w) (console w)
    (document w) (downloads w) (dispatched w) (called w) (storageLimit w) (timers w).

Definition set_createElement (c : CreateElement) (w : Window) : Window :=
  Build_Window (location w) (XMLHttpRequest w) (fetch w) c (hasPerformanceObserver w)
    (localStorage w) (listeners w) (next_fn w) (clock w) (draws w) (console w)
    (document w) (downloads w) (dispatched w) (called w) (storageLimit w) (timers w).

Definition set_localStorage (s : gmap string string) (w : Window) : Window :=
  Build_Window (location w) (XMLHttpRequest w) (fetch w) (createElement w)
    (hasPerformanceObserver w) s (listeners w) (next_fn w) (clock w) (draws w) (console w)
    (document w) (downloads w) (dispatched w) (called w) (storageLimit w) (timers w).

Definition set_listeners (l : list (string * Listener)) (n : nat) (w : Window) : Window :=
  Build_Window (location w) (XMLHttpRequest w) (fetch w) (createElement w)
    (hasPerformanceObserver w) (localStorage w) l n (clock w) (draws w) (console w)
    (document w) (downloads w) (dispatched w) (called w) (storageLimit w) (timers w).

Definition set_clock (t : Z) (w : Window) : Window :=
  Build_Window (location w) (XMLHttpRequest w) (fetch w) (createElement w)
    (hasPerformanceObserver w) (localStorage w) (listeners w) (next_fn w) t (draws w)
    (console w) (document w) (downloads w) (dispatched w) (called w) (storageLimit w) (timers w).

Definition set_draws (n : nat) (w : Window) : Window :=
  Build_Window (location w) (XMLHttpRequest w) (fetch w) (createElement w)
    (hasPerformanceObserver w) (localStorage w) (listeners w) (next_fn w) (clock w) n
    (console w) (document w) (downloads w) (dispatched w) (called w) (storageLimit w) (timers w).

Definition set_console (c : list LogLine) (w : Window) : Window :=
  Build_Window (location w) (XMLHttpRequest w) (fetch w) (createElement w)
    (hasPerformanceObserver w) (localStorage w) (listeners w) (next_fn w) (clock w) (draws w)
    c (document w) (downloads w) (dispatched w) (called w) (storageLimit w) (timers w).

Definition set_document (d : Document) (w : Window) : Window :=
  Build_Window (location w) (XMLHttpRequest w) (fetch w) (createElement w)
    (hasPerformanceObserver w) (localStorage w) (listeners w) (next_fn w) (clock w) (draws w)
    (console w) d (downloads w) (dispatched w) (called w) (storageLimit w) (timers w).

Definition set_downloads (d : list (string * string)) (w : Window) : Window :=
  Build_Window (location w) (XMLHttpRequest w) (fetch w) (createElement w)
    (hasPerformanceObserver w) (localStorage w) (listeners w) (next_fn w) (clock w) (draws w)
    (console w) (document w) d (dispatched w) (called w) (storageLimit w) (timers w).

Definition set_dispatched (d : list (string * jsval)) (c : list Call) (w : Window) : Window :=
  Build_Window (location w) (XMLHttpRequest w) (fetch w) (createElement w)
    (hasPerformanceObserver w) (localStorage w) (listeners w) (next_fn w) (clock w) (draws w)
    (console w) (document w) (downloads w) d c (storageLimit w) (timers w).

Definition set_timers (t : list (Z * Timer)) (w : Window) : Window :=
  Build_Window (location w) (XMLHttpRequest w) (fetch w) (createElement w)
    (hasPerformanceObserver w) (localStorage w) (listeners w) (next_fn w) (clock w) (draws w)
    (console w) (document w) (downloads w) (dispatched w) (called w) (storageLimit w) t.

Definition set_capturedRequests (l : list jsval) (m : APIMonitor) : APIMonitor :=
  Build_APIMonitor (config m) l (isMonitoring m) (observers m).

Definition set_isMonitoring (b : bool) (m : APIMonitor) : APIMonitor :=
  Build_APIMonitor (config m) (capturedRequests m) b (observers m).

Definition set_observers (o : list Observer) (m : APIMonitor) : APIMonitor :=
  Build_APIMonitor (config m) (capturedRequests m) (isMonitoring m) o.

(** ** Array helpers *)

(** [a.slice(start)]: a negative [start] counts from the end; the result is
    empty past the end. *)
Definition slice {A : Type} (a : list A) (start : Z) : list A :=
  let len := Z.of_nat (length a) in
  let k := if start <? 0 then Z.max (len + start) 0 else Z.min start len in
  drop (Z.to_nat k) a.

(** ** The monitor's methods *)

Section Monitor.

Context {browser : Browser}.

(** [JSON.stringify(v, null, indent)]; [None] is the [undefined] result. *)
Definition JSON_stringify (indent : nat) (v : jsval) : option string :=
  JSON_print indent <$> to_json v.

(** [JSON.parse(s)]; [None] is a [SyntaxError]. *)
Definition JSON_parse (s : string) : option jsval :=
  of_json <$> JSON_read s.

(** [this.log(...)] *)
Definition log (m : APIMonitor) (line : LogLine) (w : Window) : Window :=
  if enableLog (config m) then set_console (console w ++ [line]) w else w.

Record URLInfo : Type := { domain : string; path : string }.

(** [parseURL(url)]. The [catch] branch is reached from [new URL] only. *)
Definition parseURL (w : Window) (url : string) : URLInfo :=
  if JsString.startsWith url "http" then
    match URL_new url with
    | Some urlObj => {| domain := URL_hostname urlObj; path := URL_pathname urlObj |}
    | None =>
        {| domain := if JsString.nonEmpty (hostname (location w))
                     then hostname (location w) else "unknown";
           path := url |}
    end
  else
    {| domain := hostname (location w);
       path :=
         if JsString.startsWith url "/" then url
         else
           let currentPath := pathname (location w) in
           let basePath :=
             JsString.substring currentPath 0 (JsString.lastIndexOf currentPath "/" + 1) in
           basePath +:+ url |}.

(** [parseData(data)] *)
Definition parseData (data : jsval) : jsval :=
  if negb (truthy data) then VNull
  else
    match data with
    | VStr s =>
        match JSON_parse s with
        | Some v => v
        | None => data
        end
    | _ => data
    end.

(** [generateId()]: one clock reading and one random draw. *)
Definition generateId (w : Window) : string * Window :=
  (JsString.ofZ (clock w) +:+ JsString.substring (Math_random36 (draws w)) 2 9,
   set_draws (S (draws w)) w).

(** The [data] argument of [buildRequestData]; a key the caller leaves out is
    [VUndefined]. *)
Record Exchange : Type := {
  data_method : jsval;
  data_url : string;
  data_body : jsval;
  data_headers : jsval;
  data_status : jsval;
  data_responseText : jsval;
  data_responseHeaders : jsval;
  data_duration : jsval
}.

(** [buildRequestData(type, data)]: the properties are set in source order,
    each behind its toggle. *)
Definition buildRequestData (m : APIMonitor) (w : Window) (type : string) (data : Exchange)
  : jsval * Window :=
  let w := log m (LogBuild type (data_url data)) w in
  let '(id, w) := generateId w in
  let urlInfo := parseURL w (data_url data) in
  let on (f : Field) := captureFields (config m) f in
  let field (cond : bool) (k : string) (v : jsval) : list (string * jsval) :=
    if cond then [(k, v)] else [] in
  (VObj
     ([("id", VStr id); ("type", VStr type)]
      ++ field (on request_method) "method" (data_method data)
      ++ field (on request_url) "url" (VStr (data_url data))
      ++ field (on request_payload) "request" (parseData (data_body data))
      ++ field (on request_headers && truthy (data_headers data)) "requestHeaders" (data_headers data)
      ++ field (on response_status) "status" (data_status data)
      ++ field (on response_body) "response" (parseData (data_responseText data))
      ++ field (on response_headers && truthy (data_responseHeaders data))
           "responseHeaders" (data_responseHeaders data)
      ++ field (on metadata_timestamp) "timestamp" (VStr (Date_toISOString (clock w)))
      ++ field (on metadata_domain) "domain" (VStr (domain urlInfo))
      ++ field (on metadata_path) "path" (VStr (path urlInfo))
      ++ field (on metadata_duration) "duration" (data_duration data)
      ++ field (on metadata_initiator) "initiator" (VStr type)),
   w).

(** The characters a store holds, keys and values. *)
Definition storage_size (s : gmap string string) : Z :=
  map_fold (fun k v n => n + Z.of_nat (String.length k) + Z.of_nat (String.length v)) 0 s.

(** [localStorage.getItem(key)]; the outer [None] is the [SecurityError] of a
    page that is denied the storage, the inner one the [null] of a missing
    key. *)
Definition getItem (key : string) (w : Window) : option (option string) :=
  match storageLimit w with
  | Some _ => Some (localStorage w !! key)
  | None => None
  end.

(** [localStorage.setItem(key, value)]; [None] is the exception: the
    [SecurityError] as above, or the [QuotaExceededError] of a value that
    does not fit, which leaves the store as it was. *)
Definition setItem (key value : string) (w : Window) : option Window :=
  match storageLimit w with
  | Some limit =>
      let store := <[key := value]> (localStorage w) in
      if storage_size store <=? limit then Some (set_localStorage store w) else None
  | None => None
  end.

(** Whether the store of the page takes [value] under [key]. *)
Definition storage_takes (w : Window) (key value : string) : bool :=
  match setItem key value w with
  | Some _ => true
  | None => false
  end.

(** [saveToStorage()]: an exception of [setItem] is caught and logged.
    [setItem] would store an [undefined] value as the text [undefined],
    which an array never gives. *)
Definition saveToStorage (m : APIMonitor) (w : Window) : Window :=
  let text :=
    match JSON_stringify 0 (VArr (capturedRequests m)) with
    | Some text => text
    | None => "undefined"
    end in
  match setItem (storageKey (config m)) text w with
  | Some w => w
  | None => log m LogSaveFailed w
  end.

(** [loadFromStorage()]: a missing key and the empty string are falsy; text
    that does not parse, or a storage that cannot be read, empties the log.
    Stored JSON that is not an array would leave [capturedRequests] holding
    a non-array, on which the other methods are not defined: the model stops
    there ([None]). *)
Definition loadFromStorage (m : APIMonitor) (w : Window) : option (APIMonitor * Window) :=
  match getItem (storageKey (config m)) w with
  | Some (Some stored) =>
      if JsString.nonEmpty stored then
        match JSON_parse stored with
        | Some (VArr records) => Some (set_capturedRequests records m, w)
        | Some _ => None
        | None => Some (set_capturedRequests [] m, log m LogLoadFailed w)
        end
      else Some (m, w)
  | Some None => Some (m, w)
  | None => Some (set_capturedRequests [] m, log m LogLoadFailed w)
  end.

(** The event type [`apiMonitor:${eventName}`]. *)
Definition eventType (eventName : string) : string := "apiMonitor:" +:+ eventName.

(** [window.addEventListener(type, l)]: a function already registered for the
    type is not registered twice. *)
Definition addEventListener (type : string) (l : Listener) (w : Window) : Window :=
  if existsb (fun '(t, l') => String.eqb t type && Nat.eqb (listener_fn l') (listener_fn l))
       (listeners w)
  then w
  else set_listeners (listeners w ++ [(type, l)]) (next_fn w) w.

(** [window.removeEventListener(type, fn)]: removes the listener that IS [fn]. *)
Definition removeEventListener (type : string) (fn : nat) (w : Window) : Window :=
  set_listeners
    (List.filter (fun '(t, l) => negb (String.eqb t type && Nat.eqb (listener_fn l) fn))
       (listeners w))
    (next_fn w) w.

(** The calls one dispatch of [type] makes, in registration order. *)
Definition calls_of (type : string) (detail : jsval) (ls : list (string * Listener)) : list Call :=
  flat_map
    (fun '(t, l) =>
       if String.eqb t type then
         [match l with
          | Direct fn => CallWithEvent fn type detail
          | Forwarding _ callback => CallWithDetail callback detail
          end]
       else [])
    ls.

(** [window.dispatchEvent(new CustomEvent(type, {detail}))]; an [undefined]
    detail is the event's default, [null]. *)
Definition dispatchEvent (type : string) (detail : jsval) (w : Window) : Window :=
  let detail := match detail with VUndefined => VNull | _ => detail end in
  set_dispatched (dispatched w ++ [(type, detail)])
    (called w ++ calls_of type detail (listeners w)) w.

(** [triggerEvent(eventName, data)] *)
Definition triggerEvent (eventName : string) (data : jsval) (w : Window) : Window :=
  dispatchEvent (eventType eventName) data w.

(** [on(eventName, callback)]: registers a new arrow function that forwards
    [event.detail] to [callback]. *)
Definition on (eventName : string) (callback : nat) (w : Window) : Window :=
  let wrapper := Forwarding (next_fn w) callback in
  addEventListener (eventType eventName) wrapper
    (set_listeners (listeners w) (S (next_fn w)) w).

(** [off(eventName, callback)] *)
Definition off (eventName : string) (callback : nat) (w : Window) : Window :=
  removeEventListener (eventType eventName) callback w.

(** [updateBadgeCount()] *)
Definition updateBadgeCount (m : APIMonitor) (w : Window) : Window :=
  match badge (document w) with
  | Some _ =>
      set_document
        {| body := body (document w);
           badge := Some (length (capturedRequests m));
           content := content (document w) |} w
  | None => w
  end.

(** A record that cannot be drawn: [req.status] throws a [TypeError] on
    [null] and on [undefined], and reads [undefined] off every other value. *)
Definition unreadable (req : jsval) : bool :=
  match req with
  | VNull | VUndefined => true
  | _ => false
  end.

(** [renderRequestList()]: the entries newest first; none for an empty log.
    [None] is the [TypeError] of a record that cannot be drawn. *)
Definition renderRequestList (m : APIMonitor) (w : Window) : option Window :=
  match content (document w) with
  | Some _ =>
      if existsb unreadable (capturedRequests m) then None
      else
        Some (set_document
                {| body := body (document w);
                   badge := badge (document w);
                   content := Some (rev (capturedRequests m)) |} w)
  | None => Some w
  end.

(** The trimming step of [saveRequest]: [if (a.length > max) a = a.slice(-max)]. *)
Definition trim (max : Z) (a : list jsval) : list jsval :=
  if Z.of_nat (length a) >? max then slice a (- max) else a.

(** [saveRequest(data)] *)
Definition saveRequest (m : APIMonitor) (w : Window) (data : jsval) : APIMonitor * Window :=
  let w := log m (LogSave data) w in
  let w := log m (LogCaptured (length (capturedRequests m))) w in
  let m := set_capturedRequests (capturedRequests m ++ [data]) m in
  let m := set_capturedRequests (trim (maxStoredRequests (config m)) (capturedRequests m)) m in
  let w := saveToStorage m w in
  let w := if enableUI (config m) then updateBadgeCount m w else w in
  let w := triggerEvent "requestCaptured" data w in
  let w := log m (LogSaved (length (capturedRequests m))) w in
  (m, w).

(** [clear()]; [None] is the exception of [renderRequestList]. *)
Definition clear (m : APIMonitor) (w : Window) : option (APIMonitor * Window) :=
  let m := set_capturedRequests [] m in
  let w := saveToStorage m w in
  match (if enableUI (config m) then renderRequestList m (updateBadgeCount m w) else Some w) with
  | Some w => Some (m, triggerEvent "dataCleared" VUndefined w)
  | None => None
  end.

(** [getRequests()]: a copy of the log. *)
Definition getRequests (m : APIMonitor) : list jsval := capturedRequests m.

(** The name [download] falls back on. *)
Definition default_filename (w : Window) : string :=
  "api_monitor_data_"
  +:+ JsString.replaceAll ":" "-" (JsString.substring (Date_toISOString (clock w)) 0 19)
  +:+ ".json".

(** [download(filename)]: [None] is the default argument [null]. Appending
    the link throws without [document.body], which the [catch] logs. *)
Definition download (m : APIMonitor) (w : Window) (filename : option string) : Window :=
  if Nat.eqb (length (capturedRequests m)) 0 then log m LogNothingToDownload w
  else
    let dataStr :=
      match JSON_stringify 2 (VArr (capturedRequests m)) with
      | Some text => text
      | None => "undefined"
      end in
    if body (document w) then
      let name :=
        match filename with
        | Some f => if JsString.nonEmpty f then f else default_filename w
        | None => default_filename w
        end in
      log m LogDownloaded (set_downloads (downloads w ++ [(name, dataStr)]) w)
    else log m LogDownloadFailed w.

(** [setTimeout(callback, delay)] *)
Definition setTimeout (callback : Timer) (delay : Z) (w : Window) : Window :=
  set_timers (timers w ++ [(clock w + delay, callback)]) w.

(** [createPanel()] *)
Definition createPanel (m : APIMonitor) (w : Window) : Window :=
  if negb (body (document w)) then setTimeout RetryCreatePanel 100 (log m LogNoBodyPanel w)
  else
    match content (document w) with
    | Some _ => log m LogPanelExists w
    | None =>
        set_document
          {| body := body (document w); badge := badge (document w); content := Some [] |} w
    end.

(** [createUI()]: without [document.body] it logs and sets a timer to try
    again. [None] is the exception of [renderRequestList]. *)
Definition createUI (m : APIMonitor) (w : Window) : option Window :=
  if negb (body (document w)) then Some (setTimeout RetryCreateUI 100 (log m LogNoBody w))
  else
    match badge (document w) with
    | Some _ => Some (log m LogUIExists w)
    | None =>
        let w :=
          set_document
            {| body := body (document w);
               badge := Some (length (capturedRequests m));
               content := content (document w) |} w in
        renderRequestList m (createPanel m w)
    end.

(** Whether [createUI] has a list to draw: the document has a body and no
    button yet. *)
Definition draws_list (w : Window) : bool :=
  match badge (document w) with
  | Some _ => false
  | None => body (document w)
  end.

(** The timer first set fires, at the time it is due at the earliest, and
    calls its method on the monitor. Without a timer nothing happens. *)
Definition fire_timer (m : APIMonitor) (w : Window) : option Window :=
  match timers w with
  | [] => Some w
  | (due, callback) :: rest =>
      let w := set_timers rest (set_clock (Z.max (clock w) due) w) in
      match callback with
      | RetryCreateUI => createUI m w
      | RetryCreatePanel => Some (createPanel m w)
      end
  end.

(** *** Interception *)

(** [targetPaths.some(path => url.includes(path))] *)
Definition hasTargetPath (m : APIMonitor) (url : string) : bool :=
  existsb (fun path => JsString.includes url path) (targetPaths (config m)).

(** [allowedDomains.length === 0 || allowedDomains.some(domain =>
    urlInfo.domain.includes(domain))] *)
Definition hasAllowedDomain (m : APIMonitor) (w : Window) (url : string) : bool :=
  let urlInfo := parseURL w url in
  Nat.eqb (length (allowedDomains (config m))) 0
  || existsb (fun d => JsString.includes (domain urlInfo) d) (allowedDomains (config m)).

(** The condition under which a wrapper attaches its completion hook, for a
    URL that is a string: [url && typeof url === 'string' && hasTargetPath &&
    hasAllowedDomain]. *)
Definition gate (m : APIMonitor) (w : Window) (url : string) : bool :=
  JsString.nonEmpty url && hasTargetPath m url && hasAllowedDomain m w url.

(** The monitor's own properties on a request object, and the number of
    recording [load] listeners attached to it: a listener is never removed,
    and reads the properties when it is called. The model follows an object
    from its first [open] call on, with a string URL. *)
Record XHR : Type := {
  _url : string;
  _method : string;
  _startTime : Z;
  _body : jsval;
  onload : nat
}.

(** What the page reads once the request has loaded; [responseText] is [None]
    when reading it throws (a [responseType] other than text). *)
Record XHRResponse : Type := {
  status : Z;
  responseText : option string;
  getAllResponseHeaders : string
}.

(** [xhr.open(method, url)] on an object built by the constructor [c]: each
    wrapper runs its own code and then the [open] it found. *)
Fixpoint xhr_open (c : XHRConstructor) (m : APIMonitor) (w : Window) (xhr : XHR)
    (method url : string) : XHR * Window :=
  match c with
  | NativeXHR => (xhr, w)
  | InterceptedXHR origXHR =>
      let w := log m (LogXHROpen method url) w in
      let xhr :=
        {| _url := url; _method := method; _startTime := clock w;
           _body := _body xhr; onload := onload xhr |} in
      xhr_open origXHR m w xhr method url
  | ListenedXHR originalXHRConstructor =>
      let w := log m (LogGlobalXHR method url) w in
      xhr_open originalXHRConstructor m w xhr method url
  end.

(** [xhr.send(body)], likewise: a recording wrapper whose gate passes stores
    the body and adds a [load] listener. *)
Fixpoint xhr_send (c : XHRConstructor) (m : APIMonitor) (w : Window) (xhr : XHR)
    (body : jsval) : XHR * Window :=
  match c with
  | NativeXHR => (xhr, w)
  | InterceptedXHR origXHR =>
      let w := log m (LogXHRSend (_method xhr) (_url xhr)) w in
      let target := hasTargetPath m (_url xhr) in
      let allowed := hasAllowedDomain m w (_url xhr) in
      let w := log m (LogXHRCheck (_url xhr) target allowed) w in
      if JsString.nonEmpty (_url xhr) && target && allowed then
        let w := log m (LogXHRMonitored (_method xhr) (_url xhr)) w in
        let w := log m (LogXHRMatch target allowed) w in
        let xhr :=
          {| _url := _url xhr; _method := _method xhr; _startTime := _startTime xhr;
             _body := body; onload := S (onload xhr) |} in
        xhr_send origXHR m w xhr body
      else xhr_send origXHR m w xhr body
  | ListenedXHR originalXHRConstructor => xhr_send originalXHRConstructor m w xhr body
  end.

(** One recording [load] listener. *)
Definition xhr_onload (m : APIMonitor) (w : Window) (xhr : XHR) (r : XHRResponse)
  : APIMonitor * Window :=
  match responseText r with
  | Some text =>
      let duration := clock w - _startTime xhr in
      let '(requestData, w) :=
        buildRequestData m w "xhr"
          {| data_method := VStr (_method xhr);
             data_url := _url xhr;
             data_body := _body xhr;
             data_headers := VUndefined;
             data_status := VNum (status r);
             data_responseText := VStr text;
             data_responseHeaders := VStr (getAllResponseHeaders r);
             data_duration := VNum duration |} in
      saveRequest m w requestData
  | None => (m, log m LogXHRError w)
  end.

(** The [load] event: the listeners run one after the other. *)
Fixpoint xhr_load (n : nat) (m : APIMonitor) (w : Window) (xhr : XHR) (r : XHRResponse)
  : APIMonitor * Window :=
  match n with
  | O => (m, w)
  | S n' =>
      let '(m, w) := xhr_onload m w xhr r in
      xhr_load n' m w xhr r
  end.

(** A request object as its constructor returns it. *)
Definition new_XHR : XHR :=
  {| _url := ""; _method := ""; _startTime := 0; _body := VUndefined; onload := 0 |}.

(** One exchange on a request object that was built by the constructor [c],
    whose wrappers of [open] and [send] it carries: [open], [send], and, when
    the request completes at time [t] with a [load] event, every listener on
    the object, those of earlier exchanges included. [None] is a request
    that ends without [load]. *)
Definition xhr_exchange (c : XHRConstructor) (m : APIMonitor) (w : Window) (xhr : XHR)
    (method url : string) (body : jsval) (completion : option (Z * XHRResponse))
  : XHR * (APIMonitor * Window) :=
  let '(xhr, w) := xhr_open c m w xhr method url in
  let '(xhr, w) := xhr_send c m w xhr body in
  match completion with
  | Some (t, r) => (xhr, xhr_load (onload xhr) m (set_clock t w) xhr r)
  | None => (xhr, (m, w))
  end.

(** A request of the page on an object of its own: [new XMLHttpRequest()]
    and one exchange. *)
Definition xhr_request (m : APIMonitor) (w : Window) (method url : string) (body : jsval)
    (completion : option (Z * XHRResponse)) : APIMonitor * Window :=
  (xhr_exchange (XMLHttpRequest w) m w new_XHR method url body completion).2.

(** [props[k] = v] on a property there is, or a new one behind the others. *)
Fixpoint set_property (k : string) (v : jsval) (props : list (string * jsval))
  : list (string * jsval) :=
  match props with
  | [] => [(k, v)]
  | (k', v') :: props' =>
      if String.eqb k' k then (k, v) :: props' else (k', v') :: set_property k v props'
  end.

(** [result[key] = value] for a string [value] on an object whose prototype
    is [Object.prototype]: the name [__proto__] reaches the setter of the
    prototype, which ignores a string, and no property is made. *)
Definition assign (key value : string) (result : list (string * jsval))
  : list (string * jsval) :=
  if String.eqb key "__proto__" then result else set_property key (VStr value) result.

(** [parseHeaders(headers)] on the entries [headers.forEach] goes through;
    [None] is a falsy argument or one without [forEach]. A later entry of the
    same name replaces the value in place. *)
Definition parseHeaders (headers : option (list (string * string))) : jsval :=
  match headers with
  | Some entries => VObj (fold_left (fun result '(key, value) => assign key value result) entries [])
  | None => VObj []
  end.

(** The [init] argument of [fetch] and the response it resolves to, with the
    time at which it does, [response_time]: the text of the body arrives
    later. *)
Record FetchInit : Type := {
  init_method : option string;
  init_body : jsval;
  init_headers : jsval
}.

Record FetchResponse : Type := {
  response_time : Z;
  response_status_code : Z;
  response_text : string;
  response_headers_entries : list (string * string)
}.

(** [fetch(url, init)] through the wrappers: the number of recording
    continuations chained on the result, for a string [url]. *)
Fixpoint fetch_call (f : FetchFunction) (m : APIMonitor) (w : Window) (url : string)
    (init : FetchInit) : nat * Window :=
  let method := match init_method init with
                | Some s => if JsString.nonEmpty s then s else "GET"
                | None => "GET"
                end in
  match f with
  | NativeFetch => (O, w)
  | InterceptedFetch origFetch =>
      let w := log m (LogFetch method url) w in
      let target := hasTargetPath m url in
      let allowed := hasAllowedDomain m w url in
      let w := log m (LogFetchCheck url target allowed) w in
      if JsString.nonEmpty url && target && allowed then
        let w := log m (LogFetchMonitored method url) w in
        let w := log m (LogFetchMatch target allowed) w in
        let '(n, w) := fetch_call origFetch m w url init in
        (S n, w)
      else fetch_call origFetch m w url init
  | ListenedFetch originalFetch =>
      let w := log m (LogGlobalFetch method url) w in
      fetch_call originalFetch m w url init
  end.

(** One recording continuation: the duration was taken when the response
    arrived, and the record is built when its text has. *)
Definition fetch_then (m : APIMonitor) (w : Window) (url : string) (init : FetchInit)
    (startTime : Z) (r : FetchResponse) : APIMonitor * Window :=
  let method := match init_method init with
                | Some s => if JsString.nonEmpty s then s else "GET"
                | None => "GET"
                end in
  let '(requestData, w) :=
    buildRequestData m w "fetch"
      {| data_method := VStr method;
         data_url := url;
         data_body := init_body init;
         data_headers := init_headers init;
         data_status := VNum (response_status_code r);
         data_responseText := VStr (response_text r);
         data_responseHeaders := parseHeaders (Some (response_headers_entries r));
         data_duration := VNum (response_time r - startTime) |} in
  saveRequest m w requestData.

Fixpoint fetch_resolve (n : nat) (m : APIMonitor) (w : Window) (url : string) (init : FetchInit)
    (startTime : Z) (r : FetchResponse) : APIMonitor * Window :=
  match n with
  | O => (m, w)
  | S n' =>
      let '(m, w) := fetch_then m w url init startTime r in
      fetch_resolve n' m w url init startTime r
  end.

(** A [fetch] of the page whose response [r] has its text read at time [t];
    [None] is a call that never resolves, or whose text never arrives. *)
Definition fetch_request (m : APIMonitor) (w : Window) (url : string) (init : FetchInit)
    (completion : option (Z * FetchResponse)) : APIMonitor * Window :=
  let startTime := clock w in
  let '(n, w) := fetch_call (fetch w) m w url init in
  match completion with
  | Some (t, r) => fetch_resolve n m (set_clock t w) url init startTime r
  | None => (m, w)
  end.

(** [interceptXHR()]: a recording wrapper over the constructor as it stands. *)
Definition interceptXHR (m : APIMonitor) (w : Window) : Window :=
  let origXHR := XMLHttpRequest w in
  let w := log m LogInterceptXHR w in
  set_XMLHttpRequest (InterceptedXHR origXHR) w.

(** [interceptFetch()]: a recording wrapper over [fetch] as it stands. *)
Definition interceptFetch (m : APIMonitor) (w : Window) : Window :=
  let origFetch := fetch w in
  let w := log m LogInterceptFetch w in
  set_fetch (InterceptedFetch origFetch) w.

(** [setupPerformanceObserver()] *)
Definition setupPerformanceObserver (m : APIMonitor) (w : Window) : APIMonitor * Window :=
  if hasPerformanceObserver w then
    let m := set_observers (observers m ++ [TargetPerformanceObserver]) m in
    (m, log m LogPerformanceObserverSet w)
  else (m, w).

(** [interceptJSONP()]: wraps [document.createElement]. *)
Definition interceptJSONP (m : APIMonitor) (w : Window) : Window :=
  let w := log m LogInterceptJSONP w in
  set_createElement (InterceptedCreateElement (createElement w)) w.

(** [interceptScriptTags()]: a mutation observer on the document. *)
Definition interceptScriptTags (m : APIMonitor) (w : Window) : APIMonitor * Window :=
  let w := log m LogInterceptScriptTags w in
  (set_observers (observers m ++ [ScriptMutationObserver]) m, w).

(** [interceptAllNetworkRequests()]: a logging wrapper over each primitive as
    it stands, and a performance observer. *)
Definition interceptAllNetworkRequests (m : APIMonitor) (w : Window) : APIMonitor * Window :=
  let w := log m LogInterceptAll w in
  let originalFetch := fetch w in
  let w := set_fetch (ListenedFetch originalFetch) w in
  let originalXHRConstructor := XMLHttpRequest w in
  let w := set_XMLHttpRequest (ListenedXHR originalXHRConstructor) w in
  if hasPerformanceObserver w
  then (set_observers (observers m ++ [GlobalPerformanceObserver]) m, w)
  else (m, w).

(** [start()] *)
Definition start (m : APIMonitor) (w : Window) : APIMonitor * Window :=
  if isMonitoring m then (m, log m LogAlreadyRunning w)
  else
    let w := interceptXHR m w in
    let w := interceptFetch m w in
    let '(m, w) := setupPerformanceObserver m w in
    let w := interceptJSONP m w in
    let '(m, w) := interceptScriptTags m w in
    let '(m, w) := interceptAllNetworkRequests m w in
    let m := set_isMonitoring true m in
    (m, log m LogStarted w).

(** [stop()]: the observers are disconnected and dropped; the wrappers stay. *)
Definition stop (m : APIMonitor) (w : Window) : APIMonitor * Window :=
  if negb (isMonitoring m) then (m, log m LogNotRunning w)
  else
    let m := set_observers [] m in
    let m := set_isMonitoring false m in
    (m, log m LogStopped w).

(** [init()]; [None] is the exception of [createUI]. *)
Definition init (m : APIMonitor) (w : Window) : option (APIMonitor * Window) :=
  let w := log m LogInit w in
  let w := log m (LogTargetPaths (targetPaths (config m))) w in
  let w := log m (LogAllowedDomains (allowedDomains (config m))) w in
  let '(m, w) := if autoStart (config m) then start m w else (m, w) in
  if enableUI (config m) then
    match createUI m w with
    | Some w => Some (m, w)
    | None => None
    end
  else Some (m, w).

(** [new APIMonitor(config)]; [None] is the exception of [init], or stored
    JSON that is not an array. *)
Definition constructor (userConfig : UserConfig) (w : Window) : option (APIMonitor * Window) :=
  let m :=
    {| config := mergeConfig DEFAULT_CONFIG userConfig;
       capturedRequests := [];
       isMonitoring := false;
       observers := [] |} in
  match loadFromStorage m w with
  | Some (m, w) => init m w
  | None => None
  end.

End Monitor.

(** ** The script channels and the panel

    The two channels that watch scripts, and the method behind the button.
    The elements of the page are followed as far as the monitor touches
    them: the wrappers it has put on an element and the [load] listeners it
    has added to it. The lines these channels write through [this.log] are
    returned by the functions that write them, in the order written. *)

Section Scripts.

Context {browser : Browser}.

(** [s.toLowerCase()] on the letters of ASCII. *)
Fixpoint toLowerCase (s : string) : string :=
  match s with
  | EmptyString => EmptyString
  | String c s' =>
      let n := nat_of_ascii c in
      String (if (65 <=? n)%nat && (n <=? 90)%nat then ascii_of_nat (n + 32) else c)
        (toLowerCase s')
  end.

(** The lines of [this.log] in the script channels. *)
Inductive ScriptLine : Type :=
| LogJSONPSrc (value : string)
| LogJSONPMonitored (value : string)
| LogScriptDetected (src : string)
| LogScriptMonitored (src : string).

(** [this.log] on these lines. *)
Definition say (m : APIMonitor) (lines : list ScriptLine) : list ScriptLine :=
  if enableLog (config m) then lines else [].

(** A [load] listener of the monitor on a script element: the channel whose
    record it builds, and the URL and the clock reading it closed over. *)
Record LoadListener : Type := {
  listener_type : string;
  listener_url : string;
  listener_startTime : Z
}.

(** An element, as far as the monitor touches it: its name in lower case
    (an HTML element's [tagName] is that name in upper case), the [is] of
    the options it was created with ([is_value]), the number of wrappers around its
    [setAttribute], whether a wrapper has defined an accessor [src] on it,
    and the monitor's [load] listeners, oldest first. *)
Record Element : Type := {
  localName : string;
  is_value : option string;
  setAttribute_wrappers : nat;
  src_accessor : bool;
  load_listeners : list LoadListener
}.

Definition addLoadListener (l : LoadListener) (element : Element) : Element :=
  {| localName := localName element;
     is_value := is_value element;
     setAttribute_wrappers := setAttribute_wrappers element;
     src_accessor := src_accessor element;
     load_listeners := load_listeners element ++ [l] |}.

(** The first argument of [document.createElement]: a string, or a value
    that is no string and has no method [toLowerCase] ([null], a boolean, an
    object with a [toString] of its own), given with the string the platform
    converts it to. *)
Inductive TagName : Type :=
| TagString (s : string)
| TagOther (converted : string).

Definition tag_string (tagName : TagName) : string :=
  match tagName with
  | TagString s => s
  | TagOther converted => converted
  end.

(** [document.createElement(tagName, options)] through the wrappers of
    [interceptJSONP], for a name that is valid once converted; [options] is
    the [is] of the second argument, when there is one. A wrapper calls the
    function it wrapped with the name alone, calls [tagName.toLowerCase()],
    which throws a [TypeError] on a name that is no string, and, for a
    script, wraps [setAttribute] on the element and, when
    [HTMLScriptElement.prototype] has a [src] descriptor ([originalSrc]),
    defines an accessor [src] on it. [Object.defineProperty] makes that
    accessor non-configurable, so defining it again with another setter
    throws a [TypeError] too. [None] is the exception. *)
Fixpoint createElement_call (c : CreateElement) (originalSrc : bool) (tagName : TagName)
    (options : option string) : option Element :=
  match c with
  | NativeCreateElement =>
      Some {| localName := toLowerCase (tag_string tagName); is_value := options;
              setAttribute_wrappers := 0; src_accessor := false; load_listeners := [] |}
  | InterceptedCreateElement originalCreateElement =>
      match createElement_call originalCreateElement originalSrc tagName None with
      | Some element =>
          match tagName with
          | TagString s =>
              if String.eqb (toLowerCase s) "script" then
                let element :=
                  {| localName := localName element;
                     is_value := is_value element;
                     setAttribute_wrappers := S (setAttribute_wrappers element);
                     src_accessor := src_accessor element;
                     load_listeners := load_listeners element |} in
                if originalSrc then
                  if src_accessor element then None
                  else
                    Some {| localName := localName element;
                            is_value := is_value element;
                            setAttribute_wrappers := setAttribute_wrappers element;
                            src_accessor := true;
                            load_listeners := load_listeners element |}
                else Some element
              else Some element
          | TagOther _ => None
          end
      | None => None
      end
  end.

(** What both wrappers of a script do with a source [value], a string: the
    gate, here without the test that the URL is not empty, and one [load]
    listener when it passes. *)
Definition jsonp_src (m : APIMonitor) (w : Window) (element : Element) (value : string)
  : Element * list ScriptLine :=
  let target := hasTargetPath m value in
  let allowed := hasAllowedDomain m w value in
  if target && allowed then
    (addLoadListener
       {| listener_type := "jsonp"; listener_url := value; listener_startTime := clock w |}
       element,
     say m [LogJSONPSrc value; LogJSONPMonitored value])
  else (element, say m [LogJSONPSrc value]).

(** [element.setAttribute(name, value)] through [layers] wrappers: each runs
    its own code for the name [src] and then the [setAttribute] it found. *)
Fixpoint script_setAttribute (layers : nat) (m : APIMonitor) (w : Window) (element : Element)
    (name value : string) : Element * list ScriptLine :=
  match layers with
  | O => (element, [])
  | S inner =>
      let '(element, lines) :=
        if String.eqb name "src" then jsonp_src m w element value else (element, []) in
      let '(element, more) := script_setAttribute inner m w element name value in
      (element, lines ++ more)
  end.

(** [element.src = value]: the accessor a wrapper defined, which ends in the
    setter of the prototype; without it, the setter of the prototype alone. *)
Definition script_set_src (m : APIMonitor) (w : Window) (element : Element) (value : string)
  : Element * list ScriptLine :=
  if src_accessor element then jsonp_src m w element value else (element, []).

(** The callback of the mutation observer of [interceptScriptTags] on one
    added node, whose [src] property reads [src] (the resolved URL, empty
    without the attribute). *)
Definition script_added (m : APIMonitor) (w : Window) (node : Element) (src : string)
  : Element * list ScriptLine :=
  if String.eqb (localName node) "script" then
    if JsString.nonEmpty src then
      let target := hasTargetPath m src in
      let allowed := hasAllowedDomain m w src in
      if target && allowed then
        (addLoadListener
           {| listener_type := "script"; listener_url := src; listener_startTime := clock w |}
           node,
         say m [LogScriptDetected src; LogScriptMonitored src])
      else (node, say m [LogScriptDetected src])
    else (node, [])
  else (node, []).

(** A node added to the document: every mutation observer the monitor still
    keeps is one that has not been disconnected, and is called. *)
Fixpoint mutation (connected : list Observer) (m : APIMonitor) (w : Window) (node : Element)
    (src : string) : Element * list ScriptLine :=
  match connected with
  | [] => (node, [])
  | ScriptMutationObserver :: rest =>
      let '(node, lines) := script_added m w node src in
      let '(node, more) := mutation rest m w node src in
      (node, lines ++ more)
  | _ :: rest => mutation rest m w node src
  end.

(** One [load] listener of a script: the record has the method [GET] and
    the status 200, and no body, headers or response text. *)
Definition script_onload (m : APIMonitor) (w : Window) (l : LoadListener)
  : APIMonitor * Window :=
  let duration := clock w - listener_startTime l in
  let '(requestData, w) :=
    buildRequestData m w (listener_type l)
      {| data_method := VStr "GET";
         data_url := listener_url l;
         data_body := VUndefined;
         data_headers := VUndefined;
         data_status := VNum 200;
         data_responseText := VUndefined;
         data_responseHeaders := VUndefined;
         data_duration := VNum duration |} in
  saveRequest m w requestData.

(** The [load] event of a script: the listeners run in the order added. *)
Fixpoint script_load (ls : list LoadListener) (m : APIMonitor) (w : Window)
  : APIMonitor * Window :=
  match ls with
  | [] => (m, w)
  | l :: rest =>
      let '(m, w) := script_onload m w l in
      script_load rest m w
  end.

(** How the page gives a script its source. *)
Inductive SrcWrite : Type := BySetAttribute | ByProperty.

(** A script the page loads: [document.createElement('script')], the source
    given as [value], the element appended to the document, where its [src]
    property reads [src], and, when the script arrives at time [t], its
    [load] event. [None] is the [TypeError] of [createElement]; a script
    that never arrives has the completion [None]. *)
Definition script_request (m : APIMonitor) (w : Window) (originalSrc : bool) (how : SrcWrite)
    (value src : string) (completion : option Z)
  : option (APIMonitor * Window * list ScriptLine) :=
  match createElement_call (createElement w) originalSrc (TagString "script") None with
  | Some element =>
      let '(element, lines) :=
        match how with
        | BySetAttribute =>
            script_setAttribute (setAttribute_wrappers element) m w element "src" value
        | ByProperty => script_set_src m w element value
        end in
      let '(element, more) := mutation (observers m) m w element src in
      match completion with
      | Some t =>
          let '(m, w) := script_load (load_listeners element) m (set_clock t w) in
          Some (m, w, lines ++ more)
      | None => Some (m, w, lines ++ more)
      end
  | None => None
  end.


End Scripts.

(** ** The global interface *)

(** The argument of [monitorAPI.updateConfig], for an object without the key
    [captureFields]: a key left out is [None]. *)
Record ConfigUpdate : Type := {
  new_targetPaths : option (list string);
  new_allowedDomains : option (list string);
  new_maxStoredRequests : option Z;
  new_storageKey : option string;
  new_enableUI : option bool;
  new_enableLog : option bool;
  new_autoStart : option bool
}.

(** [updateConfig(newConfig)]: [Object.assign(monitor.config, newConfig)].
    The configuration object is the one the wrappers read through [self]. *)
Definition updateConfig (newConfig : ConfigUpdate) (m : APIMonitor) : APIMonitor :=
  {| config :=
       {| targetPaths := default (targetPaths (config m)) (new_targetPaths newConfig);
          allowedDomains := default (allowedDomains (config m)) (new_allowedDomains newConfig);
          maxStoredRequests :=
            default (maxStoredRequests (config m)) (new_maxStoredRequests newConfig);
          captureFields := captureFields (config m);
          storageKey := default (storageKey (config m)) (new_storageKey newConfig);
          enableUI := default (enableUI (config m)) (new_enableUI newConfig);
          enableLog := default (enableLog (config m)) (new_enableLog newConfig);
          autoStart := default (autoStart (config m)) (new_autoStart newConfig) |};
     capturedRequests := capturedRequests m;
     isMonitoring := isMonitoring m;
     observers := observers m |}.

(** ** URLs that are not strings

    [fetch] and [open] take objects for strings: a [Request], which has a
    [url], or an object such as a [URL], which has none and is written as
    its [href] where a string is built from it ([undefined] is written for
    the URL [fetch] does not find). The wrappers look for the
    target paths before they test that the URL is a string. [None] is the
    [TypeError] a wrapper throws out of the call; the function it wrapped is
    then not reached. *)

Section Objects.

Context {browser : Browser}.

(** The first argument of [fetch]. *)
Inductive FetchInput : Type :=
| InputString (url : string)
| InputRequest (url : string)
| InputObject.

(** [typeof input === 'string' ? input : input?.url]; [None] is [undefined]. *)
Definition input_url (input : FetchInput) : option string :=
  match input with
  | InputString url | InputRequest url => Some url
  | InputObject => None
  end.

(** [parseURL(url)] on a value without [startsWith]: the call throws inside
    the [try], and the [catch] falls back on the page. *)
Definition parseURL_domain_fallback (w : Window) : string :=
  if JsString.nonEmpty (hostname (location w)) then hostname (location w) else "unknown".

(** [allowedDomains.length === 0 || allowedDomains.some(...)] on that domain. *)
Definition hasAllowedDomain_fallback (m : APIMonitor) (w : Window) : bool :=
  Nat.eqb (length (allowedDomains (config m))) 0
  || existsb (fun d => JsString.includes (parseURL_domain_fallback w) d)
       (allowedDomains (config m)).

(** [fetch(input, init)] through the wrappers. With a URL, the wrappers do
    as [fetch_call] has them. Without one, the template strings read
    [undefined], [targetPaths.some] calls [url.includes] on [undefined] for
    its first path, and throws; with no path to try, the condition fails on
    the URL and the call goes on. *)
Fixpoint fetch_call_input (f : FetchFunction) (m : APIMonitor) (w : Window) (input : FetchInput)
    (init : FetchInit) : option (nat * Window) :=
  let method := match init_method init with
                | Some s => if JsString.nonEmpty s then s else "GET"
                | None => "GET"
                end in
  match input_url input with
  | Some url => Some (fetch_call f m w url init)
  | None =>
      match f with
      | NativeFetch => Some (O, w)
      | InterceptedFetch origFetch =>
          let w := log m (LogFetch method "undefined") w in
          match targetPaths (config m) with
          | [] =>
              let allowed := hasAllowedDomain_fallback m w in
              let w := log m (LogFetchCheck "undefined" false allowed) w in
              fetch_call_input origFetch m w input init
          | _ :: _ => None
          end
      | ListenedFetch originalFetch =>
          let w := log m (LogGlobalFetch method "undefined") w in
          fetch_call_input originalFetch m w input init
      end
  end.

(** [xhr.open(method, url)] with an object for [url], written [href]: the
    wrappers log it and keep the object in [_url]. *)
Fixpoint xhr_open_object (c : XHRConstructor) (m : APIMonitor) (w : Window)
    (method href : string) : Window :=
  match c with
  | NativeXHR => w
  | InterceptedXHR origXHR =>
      xhr_open_object origXHR m (log m (LogXHROpen method href) w) method href
  | ListenedXHR originalXHRConstructor =>
      xhr_open_object originalXHRConstructor m (log m (LogGlobalXHR method href) w) method href
  end.

(** [xhr.send(body)] after such an [open]: [xhr._url.includes] is not a
    function. *)
Fixpoint xhr_send_object (c : XHRConstructor) (m : APIMonitor) (w : Window)
    (method href : string) : option Window :=
  match c with
  | NativeXHR => Some w
  | InterceptedXHR origXHR =>
      let w := log m (LogXHRSend method href) w in
      match targetPaths (config m) with
      | [] =>
          let allowed := hasAllowedDomain_fallback m w in
          let w := log m (LogXHRCheck href false allowed) w in
          xhr_send_object origXHR m w method href
      | _ :: _ => None
      end
  | ListenedXHR originalXHRConstructor =>
      xhr_send_object originalXHRConstructor m w method href
  end.

End Objects.

(** ** A concrete browser

    One instance of [Browser], so that the model runs: a JSON printer and
    reader for the trees of [json] (integers for numbers; the escapes are
    those of the quote, the backslash and the line feed), a reader of plain
    [scheme://host/path] URLs, and fixed stand-ins for the clock format and
    the random source. *)
Module MiniBrowser.

(** *** Reading JSON text *)

Definition dquote : ascii := "034"%char.
Definition backslash : ascii := "092"%char.
Definition newline : ascii := "010"%char.

(** White space between tokens: space, line feed, carriage return, tab. *)
Definition is_ws (c : ascii) : bool :=
  Ascii.eqb c " " || Ascii.eqb c newline || Ascii.eqb c "013" || Ascii.eqb c "009".

Fixpoint skip_ws (s : string) : string :=
  match s with
  | String c r => if is_ws c then skip_ws r else s
  | EmptyString => EmptyString
  end.

(** The characters of a string literal, escaped. *)
Fixpoint print_chars (s : string) : string :=
  match s with
  | EmptyString => EmptyString
  | String c r =>
      if Ascii.eqb c dquote || Ascii.eqb c backslash then String backslash (String c (print_chars r))
      else if Ascii.eqb c newline then String backslash (String "n" (print_chars r))
      else String c (print_chars r)
  end.

Definition print_string (s : string) : string :=
  String dquote (print_chars s +:+ String dquote EmptyString).

(** The character an escape stands for. *)
Definition unescape (e : ascii) : option ascii :=
  if Ascii.eqb e dquote || Ascii.eqb e backslash then Some e
  else if Ascii.eqb e "n" then Some newline
  else None.

(** A string literal from behind its opening quote: the string, and the text
    behind the closing quote. *)
Fixpoint read_chars (s : string) : option (string * string) :=
  match s with
  | EmptyString => None
  | String c r =>
      if Ascii.eqb c dquote then Some (EmptyString, r)
      else if Ascii.eqb c backslash then
        match r with
        | String e r' =>
            match unescape e, read_chars r' with
            | Some d, Some (str, rest) => Some (String d str, rest)
            | _, _ => None
            end
        | EmptyString => None
        end
      else
        match read_chars r with
        | Some (str, rest) => Some (String c str, rest)
        | None => None
        end
  end.

(** A decimal digit, as the constructor it contributes. *)
Definition digit (c : ascii) : option (Decimal.uint -> Decimal.uint) :=
  if Ascii.eqb c "0" then Some Decimal.D0 else if Ascii.eqb c "1" then Some Decimal.D1
  else if Ascii.eqb c "2" then Some Decimal.D2 else if Ascii.eqb c "3" then Some Decimal.D3
  else if Ascii.eqb c "4" then Some Decimal.D4 else if Ascii.eqb c "5" then Some Decimal.D5
  else if Ascii.eqb c "6" then Some Decimal.D6 else if Ascii.eqb c "7" then Some Decimal.D7
  else if Ascii.eqb c "8" then Some Decimal.D8 else if Ascii.eqb c "9" then Some Decimal.D9
  else None.

(** The longest run of digits at the head of the text. *)
Fixpoint read_digits (s : string) : Decimal.uint * string :=
  match s with
  | String c r =>
      match digit c with
      | Some d => let '(u, rest) := read_digits r in (d u, rest)
      | None => (Decimal.Nil, s)
      end
  | EmptyString => (Decimal.Nil, EmptyString)
  end.

Definition read_natural (s : string) : option (Z * string) :=
  match read_digits s with
  | (Decimal.Nil, _) => None
  | (u, rest) => Some (Z.of_N (N.of_uint u), rest)
  end.

(** An integer, with its sign. *)
Definition read_number (s : string) : option (Z * string) :=
  match s with
  | String c r =>
      if Ascii.eqb c "-" then
        match read_natural r with
        | Some (n, rest) => Some (- n, rest)
        | None => None
        end
      else read_natural s
  | EmptyString => None
  end.

(** The text behind the prefix [p], when [s] starts with it. *)
Fixpoint strip (p s : string) : option string :=
  match p, s with
  | EmptyString, _ => Some s
  | String a p', String b s' => if Ascii.eqb a b then strip p' s' else None
  | String _ _, EmptyString => None
  end.

(** The elements of a non-empty array and the members of a non-empty object,
    from behind the opening bracket, given the reader of values; [k] bounds
    the number of elements. *)
Section Readers.

Variable read_value : string -> option (json * string).

Fixpoint read_items (k : nat) (s : string) : option (list json * string) :=
  match k with
  | O => None
  | S k' =>
      match read_value s with
      | Some (v, r) =>
          match skip_ws r with
          | String c r' =>
              if Ascii.eqb c "," then
                match read_items k' r' with
                | Some (vs, r'') => Some (v :: vs, r'')
                | None => None
                end
              else if Ascii.eqb c "]" then Some ([v], r')
              else None
          | EmptyString => None
          end
      | None => None
      end
  end.

Fixpoint read_members (k : nat) (s : string) : option (list (string * json) * string) :=
  match k with
  | O => None
  | S k' =>
      match skip_ws s with
      | String q r =>
          if Ascii.eqb q dquote then
            match read_chars r with
            | Some (key, r) =>
                match skip_ws r with
                | String c r =>
                    if Ascii.eqb c ":" then
                      match read_value r with
                      | Some (v, r) =>
                          match skip_ws r with
                          | String c r' =>
                              if Ascii.eqb c "," then
                                match read_members k' r' with
                                | Some (ms, r'') => Some ((key, v) :: ms, r'')
                                | None => None
                                end
                              else if Ascii.eqb c "}" then Some ([(key, v)], r')
                              else None
                          | EmptyString => None
                          end
                      | None => None
                      end
                    else None
                | EmptyString => None
                end
            | None => None
            end
          else None
      | EmptyString => None
      end
  end.
End Readers.

(** A value, and the text behind it; [fuel] bounds the nesting. *)
Fixpoint read_value (fuel : nat) (s : string) : option (json * string) :=
  match fuel with
  | O => None
  | S fuel' =>
      match skip_ws s with
      | String c r =>
          if Ascii.eqb c "n" then
            match strip "ull" r with Some rest => Some (JNull, rest) | None => None end
          else if Ascii.eqb c "t" then
            match strip "rue" r with Some rest => Some (JBool true, rest) | None => None end
          else if Ascii.eqb c "f" then
            match strip "alse" r with Some rest => Some (JBool false, rest) | None => None end
          else if Ascii.eqb c dquote then
            match read_chars r with Some (str, rest) => Some (JString str, rest) | None => None end
          else if Ascii.eqb c "[" then
            match skip_ws r with
            | String c' r' =>
                if Ascii.eqb c' "]" then Some (JArray [], r')
                else
                  match read_items (read_value fuel') fuel' r with
                  | Some (items, rest) => Some (JArray items, rest)
                  | None => None
                  end
            | EmptyString => None
            end
          else if Ascii.eqb c "{" then
            match skip_ws r with
            | String c' r' =>
                if Ascii.eqb c' "}" then Some (JObject [], r')
                else
                  match read_members (read_value fuel') fuel' r with
                  | Some (members, rest) => Some (JObject members, rest)
                  | None => None
                  end
            | EmptyString => None
            end
          else
            match read_number (String c r) with
            | Some (n, rest) => Some (JNumber n, rest)
            | None => None
            end
      | EmptyString => None
      end
  end.

(** A whole text: one value, and white space only behind it. *)
Definition read (s : string) : option json :=
  match read_value (S (String.length s)) s with
  | Some (j, rest) =>
      match skip_ws rest with
      | EmptyString => Some j
      | String _ _ => None
      end
  | None => None
  end.

(** *** Writing JSON text *)

Fixpoint spaces (n : nat) : string :=
  match n with O => EmptyString | S n' => String " " (spaces n') end.

Fixpoint zeros (n : nat) : string :=
  match n with O => EmptyString | S n' => String "0" (zeros n') end.

(** The line break before an element at the given depth; nothing when the
    text is not indented. *)
Definition line (indent depth : nat) : string :=
  match indent with
  | O => EmptyString
  | S _ => String newline (spaces (indent * depth))
  end.

Definition colon (indent : nat) : string :=
  match indent with O => ":" | S _ => ": " end.

(** The elements behind the first, and the closing bracket. *)
Section Printers.

Variable print_value : json -> string.
Variables indent depth : nat.

Fixpoint print_more_items (ys : list json) : string :=
  match ys with
  | [] => line indent depth +:+ "]"
  | y :: ys' => "," +:+ line indent (S depth) +:+ print_value y +:+ print_more_items ys'
  end.

Fixpoint print_more_members (ys : list (string * json)) : string :=
  match ys with
  | [] => line indent depth +:+ "}"
  | (k, y) :: ys' =>
      "," +:+ line indent (S depth) +:+ print_string k +:+ colon indent
      +:+ print_value y +:+ print_more_members ys'
  end.
End Printers.

Fixpoint print_value (indent depth : nat) (j : json) : string :=
  match j with
  | JNull => "null"
  | JBool true => "true"
  | JBool false => "false"
  | JNumber n => JsString.ofZ n
  | JString s => print_string s
  | JArray [] => "[]"
  | JArray (x :: xs) =>
      "[" +:+ line indent (S depth) +:+ print_value indent (S depth) x
      +:+ print_more_items (print_value indent (S depth)) indent depth xs
  | JObject [] => "{}"
  | JObject ((k, x) :: ms) =>
      "{" +:+ line indent (S depth) +:+ print_string k +:+ colon indent
      +:+ print_value indent (S depth) x
      +:+ print_more_members (print_value indent (S depth)) indent depth ms
  end.

Definition print (indent : nat) (j : json) : string := print_value indent 0 j.

(** *** Text written is read back *)

(** The number of nodes of a tree: the fuel that reads it. *)
Fixpoint size (j : json) : nat :=
  match j with
  | JArray items =>
      S ((fix sum (l : list json) : nat :=
            match l with [] => O | x :: l' => (size x + sum l')%nat end) items)
  | JObject members =>
      S ((fix sum (l : list (string * json)) : nat :=
            match l with [] => O | (_, x) :: l' => (size x + sum l')%nat end) members)
  | _ => 1%nat
  end.

(** No digit follows: a number that ends here is read whole. *)
Definition terminated (rest : string) : Prop :=
  match rest with
  | EmptyString => True
  | String c _ => digit c = None
  end.

#[local] Arguments String.append !_ _ / : simpl nomatch.

Lemma app_assoc_s (a b c : string) : (a +:+ b) +:+ c = a +:+ (b +:+ c).
Proof. induction a as [|x a IH]; simpl; [reflexivity | f_equal; exact IH]. Qed.

Lemma length_app_s (a b : string) :
  String.length (a +:+ b) = (String.length a + String.length b)%nat.
Proof. induction a as [|x a IH]; simpl; [reflexivity | f_equal; exact IH]. Qed.

Lemma skip_ws_spaces n s : skip_ws (spaces n +:+ s) = skip_ws s.
Proof. induction n as [|n IH]; simpl; [reflexivity | exact IH]. Qed.

Lemma skip_ws_line i d s : skip_ws (line i d +:+ s) = skip_ws s.
Proof. destruct i; simpl; [reflexivity | apply skip_ws_spaces]. Qed.

Lemma read_value_skip fuel s s' : skip_ws s = skip_ws s' -> read_value fuel s = read_value fuel s'.
Proof. intros E. destruct fuel; simpl; [reflexivity | now rewrite E]. Qed.

Lemma read_chars_print s rest :
  read_chars (print_chars s +:+ String dquote rest) = Some (s, rest).
Proof.
  induction s as [|c s IH]; simpl; [reflexivity |].
  destruct (Ascii.eqb c dquote) eqn:Eq.
  - apply Ascii.eqb_eq in Eq. subst c. simpl. now rewrite IH.
  - destruct (Ascii.eqb c backslash) eqn:Eb; simpl.
    + apply Ascii.eqb_eq in Eb. subst c. simpl. now rewrite IH.
    + destruct (Ascii.eqb c newline) eqn:En; simpl.
      * apply Ascii.eqb_eq in En. subst c. simpl. now rewrite IH.
      * rewrite Eq, Eb. now rewrite IH.
Qed.

Lemma read_digits_print u rest :
  terminated rest -> read_digits (NilEmpty.string_of_uint u +:+ rest) = (u, rest).
Proof.
  intros T. induction u; simpl; try (now rewrite IHu).
  destruct rest as [|c r]; simpl; [reflexivity |].
  simpl in T. now rewrite T.
Qed.

Lemma read_natural_print n rest :
  terminated rest ->
  read_natural (NilEmpty.string_of_uint (N.to_uint n) +:+ rest) = Some (Z.of_N n, rest).
Proof.
  intros T. unfold read_natural. rewrite read_digits_print by exact T.
  assert (N.to_uint n <> Decimal.Nil) as Hn.
  { destruct n; simpl; [discriminate | apply DecimalPos.Unsigned.to_uint_nonnil]. }
  rewrite <- (Unsigned.of_to n) at 2.
  destruct (N.to_uint n); try reflexivity. now elim Hn.
Qed.

Lemma digit_head_natural n :
  exists c r, NilEmpty.string_of_uint (N.to_uint n) = String c r /\ digit c <> None.
Proof.
  assert (N.to_uint n <> Decimal.Nil) as Hn.
  { destruct n; simpl; [discriminate | apply DecimalPos.Unsigned.to_uint_nonnil]. }
  destruct (N.to_uint n); try (now elim Hn); simpl; eexists _, _; (split; [reflexivity | discriminate]).
Qed.

Lemma read_number_print n rest :
  terminated rest -> read_number (JsString.ofZ n +:+ rest) = Some (n, rest).
Proof.
  intros T. unfold JsString.ofZ. destruct (n <? 0) eqn:E.
  - simpl. rewrite read_natural_print by exact T. f_equal. f_equal.
    apply Z.ltb_lt in E. rewrite N2Z.inj_abs_N. lia.
  - destruct (digit_head_natural (Z.abs_N n)) as (c & r & Hc & Hd).
    pose proof (read_natural_print (Z.abs_N n) rest T) as R.
    rewrite Hc in *. simpl.
    destruct (Ascii.eqb c "-") eqn:Em.
    + apply Ascii.eqb_eq in Em. subst c. now elim Hd.
    + simpl in R. rewrite R. f_equal. f_equal.
      apply Z.ltb_ge in E. rewrite N2Z.inj_abs_N. lia.
Qed.

Fixpoint json_ind2 (P : json -> Prop)
    (Hnull : P JNull) (Hbool : forall b, P (JBool b)) (Hnum : forall n, P (JNumber n))
    (Hstr : forall s, P (JString s))
    (Harr : forall items, Forall P items -> P (JArray items))
    (Hobj : forall members, Forall (fun kv => P (snd kv)) members -> P (JObject members))
    (j : json) {struct j} : P j :=
  match j with
  | JNull => Hnull
  | JBool b => Hbool b
  | JNumber n => Hnum n
  | JString s => Hstr s
  | JArray items =>
      Harr items
        ((fix all (l : list json) : Forall P l :=
            match l with
            | [] => List.Forall_nil P
            | x :: l' =>
                List.Forall_cons P x l' (json_ind2 P Hnull Hbool Hnum Hstr Harr Hobj x) (all l')
            end) items)
  | JObject members =>
      Hobj members
        ((fix all (l : list (string * json)) : Forall (fun kv => P (snd kv)) l :=
            match l with
            | [] => List.Forall_nil _
            | kv :: l' =>
                List.Forall_cons _ kv l' (json_ind2 P Hnull Hbool Hnum Hstr Harr Hobj (snd kv)) (all l')
            end) members)
  end.

Fixpoint sum_sizes (l : list json) : nat :=
  match l with [] => O | x :: l' => (size x + sum_sizes l')%nat end.

Fixpoint sum_member_sizes (l : list (string * json)) : nat :=
  match l with [] => O | (_, x) :: l' => (size x + sum_member_sizes l')%nat end.

Lemma size_array items : size (JArray items) = S (sum_sizes items).
Proof. reflexivity. Qed.

Lemma size_object members : size (JObject members) = S (sum_member_sizes members).
Proof. reflexivity. Qed.

Lemma size_pos j : (1 <= size j)%nat.
Proof. destruct j; simpl; lia. Qed.

Lemma print_array_cons i d x xs :
  print_value i d (JArray (x :: xs)) =
  "[" +:+ line i (S d) +:+ print_value i (S d) x +:+ print_more_items (print_value i (S d)) i d xs.
Proof. reflexivity. Qed.

Lemma print_object_cons i d k x ms :
  print_value i d (JObject ((k, x) :: ms)) =
  "{" +:+ line i (S d) +:+ print_string k +:+ colon i +:+ print_value i (S d) x
  +:+ print_more_members (print_value i (S d)) i d ms.
Proof. reflexivity. Qed.

Lemma print_string_app k t :
  print_string k +:+ t = String dquote (print_chars k +:+ String dquote t).
Proof. unfold print_string. simpl. f_equal. now rewrite app_assoc_s. Qed.

Lemma digit_head c :
  digit c <> None ->
  is_ws c = false /\ Ascii.eqb c "]" = false /\ Ascii.eqb c "}" = false /\
  Ascii.eqb c "n" = false /\ Ascii.eqb c "t" = false /\ Ascii.eqb c "f" = false /\
  Ascii.eqb c dquote = false /\ Ascii.eqb c "[" = false /\ Ascii.eqb c "{" = false.
Proof.
  unfold digit.
  repeat match goal with
         | |- context [Ascii.eqb c ?x] =>
             let E := fresh in
             destruct (Ascii.eqb_spec c x) as [E|E]; [subst c; intros _; now vm_compute |]
         end.
  intros Hd; now elim Hd.
Qed.

(** The first character of a printed value starts no whitespace and closes
    no bracket. *)
Lemma print_value_head i d j t :
  exists c r, print_value i d j +:+ t = String c r /\
    is_ws c = false /\ Ascii.eqb c "]" = false /\ Ascii.eqb c "}" = false.
Proof.
  destruct j as [| [|] | n | s | [|x xs] | [|[k x] ms]];
    try (simpl; eexists _, _; split; [reflexivity | now vm_compute]).
  - cbn [print_value]. unfold JsString.ofZ. destruct (n <? 0).
    + simpl. eexists _, _; split; [reflexivity | now vm_compute].
    + destruct (digit_head_natural (Z.abs_N n)) as (c & r & Hc & Hd).
      rewrite Hc. simpl. eexists _, _; split; [reflexivity |].
      destruct (digit_head c Hd) as (? & ? & ? & _). auto.
Qed.

Lemma terminated_more_items i d xs rest :
  terminated (print_more_items (print_value i (S d)) i d xs +:+ rest).
Proof.
  destruct xs as [|y ys]; simpl; [destruct i |]; reflexivity.
Qed.

Lemma terminated_more_members i d ms rest :
  terminated (print_more_members (print_value i (S d)) i d ms +:+ rest).
Proof.
  destruct ms as [|[k y] ys]; simpl; [destruct i |]; reflexivity.
Qed.

Definition reads_back (j : json) : Prop :=
  forall i d fuel rest,
    (size j <= fuel)%nat -> terminated rest ->
    read_value fuel (print_value i d j +:+ rest) = Some (j, rest).

Lemma read_items_print xs : forall x i d f k rest,
  Forall reads_back (x :: xs) ->
  (sum_sizes (x :: xs) <= f)%nat -> (length (x :: xs) <= k)%nat ->
  read_items (read_value f) k
    (line i (S d) +:+ print_value i (S d) x +:+ print_more_items (print_value i (S d)) i d xs +:+ rest)
  = Some (x :: xs, rest).
Proof.
  induction xs as [|y ys IH]; intros x i d f k rest HF Hf Hk;
    (destruct k as [|k]; [simpl in Hk; lia |]);
    inversion HF as [|? ? Hx HF']; subst;
    cbn [read_items];
    rewrite (read_value_skip f _ (print_value i (S d) x +:+ print_more_items (print_value i (S d)) i d _ +:+ rest))
      by apply skip_ws_line;
    rewrite Hx by (try apply terminated_more_items; simpl in Hf; lia).
  - cbn [print_more_items]. rewrite app_assoc_s, skip_ws_line. reflexivity.
  - cbn [print_more_items]. rewrite !app_assoc_s.
    change (skip_ws ("," +:+ ?s)) with ("," +:+ s). 
    cbn [String.append]. 
    replace (Ascii.eqb "," ",") with true by reflexivity.
    rewrite IH; [reflexivity | assumption | simpl in *; lia | simpl in *; lia].
Qed.

Lemma skip_ws_colon i s :
  exists r, skip_ws (colon i +:+ s) = String ":" r /\ skip_ws r = skip_ws s.
Proof. destruct i; simpl; eexists; split; reflexivity. Qed.

Lemma read_members_print ms : forall key x i d f k rest,
  Forall (fun kv => reads_back (snd kv)) ((key, x) :: ms) ->
  (sum_member_sizes ((key, x) :: ms) <= f)%nat -> (length ((key, x) :: ms) <= k)%nat ->
  read_members (read_value f) k
    (line i (S d) +:+ print_string key +:+ colon i +:+ print_value i (S d) x
     +:+ print_more_members (print_value i (S d)) i d ms +:+ rest)
  = Some ((key, x) :: ms, rest).
Proof.
  induction ms as [|[key' y] ys IH]; intros key x i d f k rest HF Hf Hk;
    (destruct k as [|k]; [simpl in Hk; lia |]);
    inversion HF as [|? ? Hx HF']; subst; simpl in Hx;
    cbn [read_members];
    rewrite skip_ws_line, print_string_app;
    cbn [skip_ws]; change (is_ws dquote) with false; cbn iota;
    change (Ascii.eqb dquote dquote) with true; cbn iota;
    rewrite read_chars_print;
    match goal with
    | |- context [colon i +:+ ?s] => destruct (skip_ws_colon i s) as (r & -> & Hr)
    end;
    change (Ascii.eqb ":" ":") with true; cbn iota;
    rewrite (read_value_skip f _ _ Hr);
    rewrite Hx by (try apply terminated_more_members; simpl in Hf; lia).
  - cbn [print_more_members]. rewrite app_assoc_s, skip_ws_line. reflexivity.
  - cbn [print_more_members]. rewrite !app_assoc_s.
    cbn [String.append skip_ws]. change (is_ws ",") with false. cbn iota.
    change (Ascii.eqb "," ",") with true. cbn iota.
    rewrite IH; [reflexivity | assumption | simpl in *; lia | simpl in *; lia].
Qed.

Lemma read_print_value j : reads_back j.
Proof.
  induction j as [| b | n | s | items IH | members IH] using json_ind2;
    intros i d fuel rest Hsize T;
    (destruct fuel as [|f]; [simpl in Hsize; lia |]).
  - reflexivity.
  - destruct b; reflexivity.
  - cbn [print_value].
    pose proof (read_number_print n rest T) as R.
    destruct (print_value_head 0 0 (JNumber n) rest) as (c & r & Hc & Hw & _).
    cbn [print_value] in Hc. rewrite Hc in *.
    cbn [read_value skip_ws]. rewrite Hw.
    assert (Ascii.eqb c "n" = false /\ Ascii.eqb c "t" = false /\ Ascii.eqb c "f" = false /\
            Ascii.eqb c dquote = false /\ Ascii.eqb c "[" = false /\ Ascii.eqb c "{" = false)
      as (E1 & E2 & E3 & E4 & E5 & E6).
    { unfold JsString.ofZ in Hc. destruct (n <? 0).
      - simpl in Hc. injection Hc as <- _. now vm_compute.
      - destruct (digit_head_natural (Z.abs_N n)) as (c' & r' & Hc' & Hd).
        rewrite Hc' in Hc. simpl in Hc. injection Hc as <- _.
        destruct (digit_head c' Hd) as (_ & _ & _ & ? & ? & ? & ? & ? & ?).
        repeat split; assumption. }
    rewrite E1, E2, E3, E4, E5, E6, R. reflexivity.
  - cbn [print_value]. rewrite print_string_app.
    cbn [read_value skip_ws]. change (is_ws dquote) with false. cbn iota.
    change (Ascii.eqb dquote "n") with false. change (Ascii.eqb dquote "t") with false.
    change (Ascii.eqb dquote "f") with false. change (Ascii.eqb dquote dquote) with true.
    cbn iota. now rewrite read_chars_print.
  - destruct items as [|x xs]; [reflexivity |].
    rewrite print_array_cons, !app_assoc_s.
    cbn [read_value String.append skip_ws]. change (is_ws "[") with false. cbn iota.
    change (Ascii.eqb "[" "n") with false. change (Ascii.eqb "[" "t") with false.
    change (Ascii.eqb "[" "f") with false. change (Ascii.eqb "[" dquote) with false.
    change (Ascii.eqb "[" "[") with true. cbn iota.
    rewrite skip_ws_line.
    destruct (print_value_head i (S d) x
                (print_more_items (print_value i (S d)) i d xs +:+ rest)) as (c & r & Hc & Hw & Hb & _).
    rewrite Hc. cbn [skip_ws]. rewrite Hw, Hb. rewrite <- Hc.
    rewrite size_array in Hsize.
    rewrite read_items_print; [reflexivity | assumption | lia |].
    clear -Hsize. assert (forall l, (length l <= sum_sizes l)%nat) as Hl.
    { induction l as [|y l IHl]; simpl; [lia | pose proof (size_pos y); lia]. }
    specialize (Hl (x :: xs)). lia.
  - destruct members as [|[k x] ms]; [reflexivity |].
    rewrite print_object_cons, !app_assoc_s.
    cbn [read_value String.append skip_ws]. change (is_ws "{") with false. cbn iota.
    change (Ascii.eqb "{" "n") with false. change (Ascii.eqb "{" "t") with false.
    change (Ascii.eqb "{" "f") with false. change (Ascii.eqb "{" dquote) with false.
    change (Ascii.eqb "{" "[") with false. change (Ascii.eqb "{" "{") with true. cbn iota.
    rewrite skip_ws_line, print_string_app. cbn [skip_ws]. change (is_ws dquote) with false.
    cbn iota. change (Ascii.eqb dquote "}") with false. cbn iota.
    rewrite <- print_string_app.
    rewrite size_object in Hsize.
    rewrite read_members_print; [reflexivity | assumption | lia |].
    clear -Hsize. assert (forall l, (length l <= sum_member_sizes l)%nat) as Hl.
    { induction l as [|[k' y] l IHl]; simpl; [lia | pose proof (size_pos y); lia]. }
    specialize (Hl ((k, x) :: ms)). lia.
Qed.

Lemma app_nil_r_s (a : string) : a +:+ "" = a.
Proof. induction a as [|x a IH]; simpl; [reflexivity | f_equal; exact IH]. Qed.

Lemma size_le_length j : forall i d, (size j <= String.length (print_value i d j))%nat.
Proof.
  induction j as [| b | n | s | items IH | members IH] using json_ind2; intros i d.
  - simpl. lia.
  - destruct b; simpl; lia.
  - destruct (print_value_head i d (JNumber n) "") as (c & r & Hc & _).
    rewrite app_nil_r_s in Hc. rewrite Hc. simpl. lia.
  - simpl. lia.
  - destruct items as [|x xs]; [simpl; lia |].
    rewrite print_array_cons, size_array, !length_app_s.
    inversion IH as [|? ? Hx Hxs]; subst. specialize (Hx i (S d)).
    assert (sum_sizes xs <= String.length (print_more_items (print_value i (S d)) i d xs))%nat.
    { clear -Hxs. induction Hxs as [|y ys Hy _ IHys]; [simpl; lia |].
      cbn [print_more_items sum_sizes].
      rewrite !length_app_s. specialize (Hy i (S d)). lia. }
    change (String.length "[") with 1%nat. cbn [sum_sizes]. lia.
  - destruct members as [|[k x] ms]; [simpl; lia |].
    rewrite print_object_cons, size_object, !length_app_s.
    inversion IH as [|? ? Hx Hxs]; subst. simpl in Hx. specialize (Hx i (S d)).
    assert (sum_member_sizes ms
            <= String.length (print_more_members (print_value i (S d)) i d ms))%nat.
    { clear -Hxs. induction Hxs as [|[k' y] ys Hy _ IHys]; [simpl; lia |].
      cbn [print_more_members sum_member_sizes].
      rewrite !length_app_s. simpl in Hy. specialize (Hy i (S d)). lia. }
    change (String.length "{") with 1%nat. cbn [sum_member_sizes]. lia.
Qed.

(** Text the printer writes is read back as the tree it was written from. *)
Lemma read_print indent j : read (print indent j) = Some j.
Proof.
  unfold read, print.
  pose proof (read_print_value j indent 0%nat
                (S (String.length (print_value indent 0 j))) "") as R.
  rewrite app_nil_r_s in R. rewrite R; [reflexivity | | exact I].
  pose proof (size_le_length j indent 0%nat). lia.
Qed.

Lemma print_nonEmpty indent j : JsString.nonEmpty (print indent j) = true.
Proof.
  unfold print. destruct (print_value_head indent 0 j "") as (c & r & Hc & _).
  rewrite app_nil_r_s in Hc. now rewrite Hc.
Qed.

(** [new URL(s)] for URLs of the form [scheme://host:port/path?query#fragment]
    without user information: the scheme is a non-empty run of lower-case
    letters, the host runs up to the first of [:], [/], [?] and [#], the path
    from the first [/] up to [?] or [#], and is [/] when missing. *)
Fixpoint take_until (stop : ascii -> bool) (s : string) : string * string :=
  match s with
  | EmptyString => (EmptyString, EmptyString)
  | String c r =>
      if stop c then (EmptyString, s)
      else let '(a, b) := take_until stop r in (String c a, b)
  end.

Definition ends_authority (c : ascii) : bool :=
  Ascii.eqb c "/" || Ascii.eqb c "?" || Ascii.eqb c "#".

Definition ends_path (c : ascii) : bool := Ascii.eqb c "?" || Ascii.eqb c "#".

Definition is_lower (c : ascii) : bool :=
  (97 <=? nat_of_ascii c)%nat && (nat_of_ascii c <=? 122)%nat.

Definition new_URL (s : string) : option URL :=
  let '(scheme, after) := take_until (fun c => negb (is_lower c)) s in
  let after_scheme :=
    match scheme with
    | EmptyString => None
    | String _ _ => strip "://" after
    end in
  match after_scheme with
  | Some r =>
      let '(authority, rest) := take_until ends_authority r in
      let '(host, _) := take_until (fun c => Ascii.eqb c ":") authority in
      match host with
      | EmptyString => None
      | String _ _ =>
          let '(p, _) := take_until ends_path rest in
          Some {| URL_hostname := host;
                  URL_pathname := match p with EmptyString => "/" | String _ _ => p end |}
      end
  | None => None
  end.

(** The draws of the random source, told apart by their rank. *)
Definition random36 (k : nat) : string :=
  "0.r" +:+ JsString.ofZ (Z.of_nat k) +:+ "zzzzzzz".

(** The ISO form of a clock reading within the first day of the epoch. *)
Definition pad (width : nat) (n : Z) : string :=
  let s := JsString.ofZ n in
  zeros (width - String.length s) +:+ s.

Definition toISOString (t : Z) : string :=
  let ms := t mod 86400000 in
  "1970-01-01T" +:+ pad 2 (ms / 3600000) +:+ ":" +:+ pad 2 (ms / 60000 mod 60) +:+ ":"
  +:+ pad 2 (ms / 1000 mod 60) +:+ "." +:+ pad 3 (ms mod 1000) +:+ "Z".

#[export] Instance browser : Browser := {|
  URL_new := new_URL;
  JSON_print := print;
  JSON_read := read;
  JSON_read_print := read_print;
  JSON_print_nonEmpty := print_nonEmpty;
  Math_random36 := random36;
  Date_toISOString := toISOString
|}.

End MiniBrowser.

(** ** The specification's reading

    Definitions that follow the words of the specification where the code
    differs from them, to be compared with the code's. *)
Module Spec.

Section Monitor.

Context {browser : Browser}.

(** "Non-string bodies pass through unchanged; attempt JSON-decode of string
    bodies; on failure, keep the original string." *)
Definition parseData (data : jsval) : jsval :=
  match data with
  | VStr s =>
      match JSON_parse s with
      | Some v => v
      | None => data
      end
  | _ => data
  end.

(** "Some entry of targetPaths is a substring of the request URL's path AND
    (allowedDomains is empty OR some entry of allowedDomains is a substring
    of the resolved domain)", path and domain as the monitor resolves them. *)
Definition gate (m : APIMonitor) (w : Window) (url : string) : bool :=
  let urlInfo := parseURL w url in
  existsb (fun p => JsString.includes (path urlInfo) p) (targetPaths (config m))
  && (Nat.eqb (length (allowedDomains (config m))) 0
      || existsb (fun d => JsString.includes (domain urlInfo) d) (allowedDomains (config m))).

(** A URL "has a scheme" when it starts with a letter, goes on with letters,
    digits, [+], [-] or [.], and reaches a colon. *)
Definition is_alpha (c : ascii) : bool :=
  let n := nat_of_ascii c in
  ((97 <=? n) && (n <=? 122) || (65 <=? n) && (n <=? 90))%nat.

Definition is_scheme_char (c : ascii) : bool :=
  let n := nat_of_ascii c in
  is_alpha c || ((48 <=? n) && (n <=? 57))%nat
  || Ascii.eqb c "+" || Ascii.eqb c "-" || Ascii.eqb c ".".

Fixpoint reaches_colon (s : string) : bool :=
  match s with
  | EmptyString => false
  | String c r => Ascii.eqb c ":" || (is_scheme_char c && reaches_colon r)
  end.

Definition has_scheme (url : string) : bool :=
  match url with
  | EmptyString => false
  | String c r => is_alpha c && reaches_colon r
  end.

(** "If [url] is absolute (has a scheme), parse it as a standard URL; if it is
    relative and starts with [/], path = url as-is; if it is relative and does
    not start with [/], strip the filename from the current path and
    concatenate; on any parse failure, fall back to the current page host (or
    "unknown") and the raw input." *)
Definition parseURL (w : Window) (url : string) : URLInfo :=
  if has_scheme url then
    match URL_new url with
    | Some urlObj => {| domain := URL_hostname urlObj; path := URL_pathname urlObj |}
    | None =>
        {| domain := if JsString.nonEmpty (hostname (location w))
                     then hostname (location w) else "unknown";
           path := url |}
    end
  else
    {| domain := hostname (location w);
       path :=
         if JsString.startsWith url "/" then url
         else
           let currentPath := pathname (location w) in
           JsString.substring currentPath 0 (JsString.lastIndexOf currentPath "/" + 1)
           +:+ url |}.

End Monitor.

End Spec.

(** * Properties *)

(** ** Strings and values *)

Lemma prefix_app (p s : string) :
  String.prefix p s = true <-> exists b, s = p +:+ b.
Proof.
  revert s. induction p as [|c p IH]; intros s.
  - split; [intros _; now exists s | now destruct s].
  - destruct s as [|d s]; simpl.
    + split; [discriminate | intros [b Hb]; discriminate].
    + destruct (ascii_dec c d) as [->|Hne].
      * rewrite IH. split; intros [b Hb]; exists b.
        -- cbn. now rewrite Hb.
        -- cbn in Hb. now injection Hb.
      * split; [discriminate |]. intros [b Hb]. cbn in Hb. injection Hb as Hc _.
        now elim Hne.
Qed.

(** [includes] is the substring test. *)
Lemma includes_substring (s p : string) :
  JsString.includes s p = true <-> exists a b, s = a +:+ p +:+ b.
Proof.
  induction s as [|c s IH]; cbn [JsString.includes].
  - rewrite orb_false_r, prefix_app. split.
    + intros [b Hb]. now exists "", b.
    + intros (a & b & Hab). destruct a as [|x a]; [now exists b | discriminate].
  - rewrite orb_true_iff, prefix_app, IH. split.
    + intros [[b Hb] | (a & b & Hab)].
      * now exists "", b.
      * exists (String c a), b. cbn. now rewrite Hab.
    + intros (a & b & Hab). destruct a as [|x a].
      * left. now exists b.
      * right. cbn in Hab. injection Hab as _ Hs. now exists a, b.
Qed.



(** What one element of an array becomes on the way through JSON. *)
Definition json_image (v : jsval) : jsval :=
  of_json (match to_json v with Some j => j | None => JNull end).


Lemma of_json_array (items : list jsval) :
  of_json (array_to_json items) = VArr (List.map json_image items).
Proof.
  unfold array_to_json. cbn [of_json]. f_equal. now rewrite List.map_map.
Qed.


Section Properties.

Context {browser : Browser}.

(** ** The log and its storage *)

Lemma JSON_stringify_array (indent : nat) (items : list jsval) :
  JSON_stringify indent (VArr items) = Some (JSON_print indent (array_to_json items)).
Proof. reflexivity. Qed.

Lemma JSON_parse_print_array (indent : nat) (items : list jsval) :
  JSON_parse (JSON_print indent (array_to_json items)) = Some (VArr (List.map json_image items)).
Proof.
  unfold JSON_parse. rewrite JSON_read_print. cbn [fmap option_fmap option_map].
  now rewrite of_json_array.
Qed.

(** [log] touches the console only. *)
Ltac log_only :=
  unfold log;
  match goal with |- context [enableLog ?c] => destruct (enableLog c) end;
  reflexivity.

Lemma log_localStorage m line w : localStorage (log m line w) = localStorage w.
Proof. log_only. Qed.

Lemma log_dispatched m line w : dispatched (log m line w) = dispatched w.
Proof. log_only. Qed.


Lemma log_location m line w : location (log m line w) = location w.
Proof. log_only. Qed.

Lemma log_clock m line w : clock (log m line w) = clock w.
Proof. log_only. Qed.

Lemma log_XMLHttpRequest m line w : XMLHttpRequest (log m line w) = XMLHttpRequest w.
Proof. log_only. Qed.

Lemma log_fetch m line w : fetch (log m line w) = fetch w.
Proof. log_only. Qed.

Lemma log_listeners m line w : listeners (log m line w) = listeners w.
Proof. log_only. Qed.

Lemma updateBadgeCount_localStorage m w : localStorage (updateBadgeCount m w) = localStorage w.
Proof. unfold updateBadgeCount. now destruct (badge (document w)). Qed.

Lemma updateBadgeCount_dispatched m w : dispatched (updateBadgeCount m w) = dispatched w.
Proof. unfold updateBadgeCount. now destruct (badge (document w)). Qed.

Lemma log_storageLimit m line w : storageLimit (log m line w) = storageLimit w.
Proof. log_only. Qed.

Lemma log_console m line w :
  console (log m line w) = console w ++ (if enableLog (config m) then [line] else []).
Proof. unfold log. destruct (enableLog _); [reflexivity | now rewrite app_nil_r]. Qed.

(** [renderRequestList] throws exactly when there is a panel to draw in and
    a record that cannot be drawn; when it returns, it has changed the
    document at most. *)
Lemma renderRequestList_cases m w :
  match renderRequestList m w with
  | Some w' =>
      w' = set_document (document w') w
      /\ (content (document w) = None \/ existsb unreadable (capturedRequests m) = false)
  | None => content (document w) <> None /\ existsb unreadable (capturedRequests m) = true
  end.
Proof.
  unfold renderRequestList. destruct (content (document w)) as [entries|] eqn:E.
  - destruct (existsb unreadable (capturedRequests m)); [now split |].
    split; [now destruct w | now right].
  - split; [now destruct w | now left].
Qed.

Lemma renderRequestList_empty m w :
  capturedRequests m = [] ->
  exists w', renderRequestList m w = Some w' /\ w' = set_document (document w') w.
Proof.
  intros He. pose proof (renderRequestList_cases m w) as H.
  destruct (renderRequestList m w) as [w'|].
  - exists w'. now split.
  - destruct H as [_ H]. now rewrite He in H.
Qed.

(** The test of [setItem] looks at the store and its limit only. *)
Lemma storage_takes_page w w' key value :
  localStorage w' = localStorage w -> storageLimit w' = storageLimit w ->
  storage_takes w' key value = storage_takes w key value.
Proof.
  intros Hs Hl. unfold storage_takes, setItem. rewrite Hs, Hl.
  destruct (storageLimit w) as [limit|]; [| reflexivity]. now destruct (_ <=? limit).
Qed.

(** What [saveToStorage] does: the text of the log goes under the key when
    the store takes it; when it does not, the page stays as it was and the
    failure is logged. *)
Lemma saveToStorage_cases m w :
  saveToStorage m w
  = if storage_takes w (storageKey (config m)) (JSON_print 0 (array_to_json (capturedRequests m)))
    then set_localStorage
           (<[storageKey (config m) := JSON_print 0 (array_to_json (capturedRequests m))]>
              (localStorage w)) w
    else log m LogSaveFailed w.
Proof.
  unfold saveToStorage, storage_takes, setItem. rewrite JSON_stringify_array.
  destruct (storageLimit w) as [limit|]; [| reflexivity].
  now destruct (_ <=? limit).
Qed.

(** What [saveToStorage] leaves under the monitor's key. *)
Lemma saveToStorage_lookup m w :
  localStorage (saveToStorage m w) !! storageKey (config m)
  = if storage_takes w (storageKey (config m)) (JSON_print 0 (array_to_json (capturedRequests m)))
    then Some (JSON_print 0 (array_to_json (capturedRequests m)))
    else localStorage w !! storageKey (config m).
Proof.
  rewrite saveToStorage_cases. destruct (storage_takes _ _ _).
  - cbn [localStorage set_localStorage]. apply lookup_insert_eq.
  - now rewrite log_localStorage.
Qed.

(** A write that fails leaves the store as it was. *)
Lemma saveToStorage_refused m w :
  storage_takes w (storageKey (config m)) (JSON_print 0 (array_to_json (capturedRequests m)))
    = false ->
  saveToStorage m w = log m LogSaveFailed w.
Proof. intros H. now rewrite saveToStorage_cases, H. Qed.

(** [saveToStorage] touches the store and the console only. *)
Lemma saveToStorage_page m w :
  dispatched (saveToStorage m w) = dispatched w
  /\ called (saveToStorage m w) = called w
  /\ listeners (saveToStorage m w) = listeners w
  /\ document (saveToStorage m w) = document w
  /\ clock (saveToStorage m w) = clock w
  /\ storageLimit (saveToStorage m w) = storageLimit w.
Proof.
  rewrite saveToStorage_cases. destruct (storage_takes _ _ _); [now repeat split |].
  unfold log. now destruct (enableLog _).
Qed.

(** [clear()] returns: the log it draws is empty. *)
Lemma clear_returns m w :
  exists w1,
    clear m w = Some (set_capturedRequests [] m, triggerEvent "dataCleared" VUndefined w1)
    /\ w1 = set_document (document w1) (saveToStorage (set_capturedRequests [] m) w).
Proof.
  unfold clear. cbn [config set_capturedRequests]. destruct (enableUI (config m)).
  - match goal with |- context [renderRequestList ?m1 ?w1] =>
      destruct (renderRequestList_empty m1 w1 eq_refl) as (w' & -> & Hw') end.
    exists w'. split; [reflexivity |]. rewrite Hw' at 1. unfold updateBadgeCount.
    now destruct (badge (document (saveToStorage _ w))).
  - eexists. split; [reflexivity |]. now destruct (saveToStorage _ w).
Qed.

(** C8, as the code has it. [clear()] returns, from every state, a non-empty
    log included: the log is then empty, so that [getRequests()] returns the
    empty list, and [dataCleared] has been dispatched once, with no payload.
    The text of the empty array, which reads back as the empty array, is
    under the storage key when the store took it; when [setItem] threw, the
    store is as it was and the failure is on the console. *)
Theorem clear_empties_persists_notifies (m : APIMonitor) (w : Window) :
  let empty := JSON_print 0 (JArray []) in
  exists m' w',
    clear m w = Some (m', w')
    /\ capturedRequests m' = []
    /\ getRequests m' = []
    /\ dispatched w' = dispatched w ++ [(eventType "dataCleared", VNull)]
    /\ localStorage w' !! storageKey (config m)
       = (if storage_takes w (storageKey (config m)) empty then Some empty
          else localStorage w !! storageKey (config m))
    /\ (storage_takes w (storageKey (config m)) empty = false ->
        localStorage w' = localStorage w
        /\ console w' = console w ++ (if enableLog (config m) then [LogSaveFailed] else []))
    /\ JSON_parse empty = Some (VArr []).
Proof.
  intros empty. destruct (clear_returns m w) as (w1 & E & Hw1).
  eexists _, _. split; [exact E |].
  unfold triggerEvent, dispatchEvent. cbn [localStorage dispatched console set_dispatched].
  rewrite Hw1. cbn [localStorage dispatched console set_document capturedRequests
                    set_capturedRequests].
  split; [reflexivity |]. split; [reflexivity |]. split.
  - f_equal. rewrite saveToStorage_cases. destruct (storage_takes _ _ _); [reflexivity |].
    apply log_dispatched.
  - split; [apply (saveToStorage_lookup (set_capturedRequests [] m)) |]. split.
    + intros Hno. rewrite (saveToStorage_refused (set_capturedRequests [] m)) by exact Hno.
      split; [apply log_localStorage | apply (log_console (set_capturedRequests [] m))].
    + apply (JSON_parse_print_array 0 []).
Qed.

(** ** Payloads and URLs *)

(** C5, as the code has it: a falsy payload ([undefined], [null], [false],
    [0], the empty string) yields [null]; a non-empty string that parses as
    JSON yields the parsed value; a non-empty string that does not parse is
    returned unchanged; every other truthy value is returned unchanged. *)
Theorem parseData_cases :
  (forall data, truthy data = false -> parseData data = VNull)
  /\ (forall s v, JsString.nonEmpty s = true -> JSON_parse s = Some v -> parseData (VStr s) = v)
  /\ (forall s, JsString.nonEmpty s = true -> JSON_parse s = None -> parseData (VStr s) = VStr s)
  /\ (forall data, truthy data = true -> (forall s, data <> VStr s) -> parseData data = data).
Proof.
  unfold parseData. repeat split.
  - intros data ->. reflexivity.
  - intros s v Hs ->. cbn [truthy]. now rewrite Hs.
  - intros s Hs ->. cbn [truthy]. now rewrite Hs.
  - intros data -> Hns. cbn [negb]. destruct data; try reflexivity. now elim (Hns s).
Qed.

(** On truthy payloads the code and the specification's reading agree. *)
Lemma parseData_truthy (data : jsval) :
  truthy data = true -> parseData data = Spec.parseData data.
Proof. unfold parseData, Spec.parseData. now intros ->. Qed.

(** C4, as the code has it. The test for an absolute URL is the prefix
    [http]; behind it the URL is parsed, and a failure of the parser falls
    back on the page's host name (or [unknown] when that is empty) and the
    raw input; every other string is resolved against the page: unchanged
    when it starts with a slash, else appended to the page's path up to its
    last slash. [parseURL] is total: it returns a pair for every string. *)
Theorem parseURL_cases (w : Window) (url : string) :
  (forall urlObj, JsString.startsWith url "http" = true -> URL_new url = Some urlObj ->
     parseURL w url = {| domain := URL_hostname urlObj; path := URL_pathname urlObj |})
  /\ (JsString.startsWith url "http" = true -> URL_new url = None ->
      parseURL w url =
        {| domain := if JsString.nonEmpty (hostname (location w))
                     then hostname (location w) else "unknown";
           path := url |})
  /\ (JsString.startsWith url "http" = false -> JsString.startsWith url "/" = true ->
      parseURL w url = {| domain := hostname (location w); path := url |})
  /\ (JsString.startsWith url "http" = false -> JsString.startsWith url "/" = false ->
      parseURL w url =
        {| domain := hostname (location w);
           path :=
             JsString.substring (pathname (location w)) 0
               (JsString.lastIndexOf (pathname (location w)) "/" + 1) +:+ url |}).
Proof.
  unfold parseURL. repeat split.
  - intros urlObj -> ->. reflexivity.
  - intros -> ->. reflexivity.
  - intros -> ->. reflexivity.
  - intros -> ->. reflexivity.
Qed.

(** ** Construction and persistence *)

Lemma start_log_config m w :
  capturedRequests (start m w).1 = capturedRequests m /\ config (start m w).1 = config m.
Proof.
  destruct m as [[tp ad mx cf sk ui lg au] l mon obs].
  unfold start, setupPerformanceObserver, interceptScriptTags, interceptAllNetworkRequests,
    interceptXHR, interceptFetch, interceptJSONP, log.
  destruct mon, lg; cbn; try (now split);
    destruct (hasPerformanceObserver w) eqn:E; cbn; rewrite ?E; cbn; now split.
Qed.

Lemma start_document m w : document (start m w).2 = document w.
Proof.
  destruct m as [[tp ad mx cf sk ui lg au] l mon obs].
  unfold start, setupPerformanceObserver, interceptScriptTags, interceptAllNetworkRequests,
    interceptXHR, interceptFetch, interceptJSONP, log.
  destruct mon, lg; cbn; try reflexivity;
    destruct (hasPerformanceObserver w) eqn:E; cbn; rewrite ?E; reflexivity.
Qed.

(** [createUI] throws exactly when it has a list to draw with a record in it
    that cannot be drawn. *)
Lemma createUI_None m w :
  createUI m w = None
  <-> draws_list w = true /\ existsb unreadable (capturedRequests m) = true.
Proof.
  unfold createUI, draws_list. destruct (body (document w)) eqn:Hb; cbn [negb].
  - destruct (badge (document w)) eqn:Hn; [split; [discriminate | now intros [? _]] |].
    match goal with |- context [renderRequestList m ?w1] =>
      pose proof (renderRequestList_cases m w1) as H;
      assert (content (document w1) <> None) as Hc
    end.
    { unfold createPanel. cbn [document set_document body negb content].
      rewrite ?Hb. cbn [negb]. destruct (content (document w)) eqn:Ec.
      - unfold log. destruct (enableLog _); cbn [document set_console set_document content];
          now rewrite ?Ec.
      - cbn [document set_document content]. discriminate. }
    destruct (renderRequestList m _) as [w'|].
    + destruct H as [_ [H|H]]; [contradiction |].
      split; [discriminate | intros [_ H']; congruence].
    + now destruct H.
  - destruct (badge (document w)); split; first [discriminate | now intros [? _]].
Qed.

Lemma init_cases m w :
  match init m w with
  | Some (m', w') => capturedRequests m' = capturedRequests m /\ config m' = config m
  | None =>
      enableUI (config m) = true /\ draws_list w = true
      /\ existsb unreadable (capturedRequests m) = true
  end.
Proof.
  unfold init.
  set (w3 := log m (LogAllowedDomains _) (log m (LogTargetPaths _) (log m LogInit w))).
  assert (document w3 = document w) as Hd3.
  { subst w3. unfold log. now destruct (enableLog _). }
  assert (exists m1 w4,
            (if autoStart (config m) then start m w3 else (m, w3)) = (m1, w4)
            /\ capturedRequests m1 = capturedRequests m /\ config m1 = config m
            /\ document w4 = document w) as (m1 & w4 & -> & Hl & Hc & Hd).
  { destruct (autoStart (config m)).
    - destruct (start_log_config m w3) as [Hl Hc]. pose proof (start_document m w3) as Hd.
      destruct (start m w3) as [m1 w4]. exists m1, w4. cbn [fst snd] in *.
      now rewrite Hd, Hd3.
    - now exists m, w3. }
  rewrite Hc. destruct (enableUI (config m)); [| now split].
  pose proof (createUI_None m1 w4) as H. destruct (createUI m1 w4) as [w5|].
  - now split.
  - destruct (proj1 H eq_refl) as [H1 H2]. unfold draws_list in *.
    rewrite Hd in H1. rewrite Hl in H2. now repeat split.
Qed.



Lemma saveRequest_log m w data :
  capturedRequests (saveRequest m w data).1
  = trim (maxStoredRequests (config m)) (capturedRequests m ++ [data]).
Proof. reflexivity. Qed.

Lemma saveRequest_config m w data : config (saveRequest m w data).1 = config m.
Proof. reflexivity. Qed.

Lemma updateBadgeCount_storageLimit m w : storageLimit (updateBadgeCount m w) = storageLimit w.
Proof. unfold updateBadgeCount. now destruct (badge (document w)). Qed.

(** What an insert leaves under the storage key: the text of the log when
    the store takes it, and else what was there. *)
Lemma saveRequest_mirrored m w data :
  localStorage (saveRequest m w data).2 !! storageKey (config m)
  = if storage_takes w (storageKey (config m))
         (JSON_print 0 (array_to_json (capturedRequests (saveRequest m w data).1)))
    then Some (JSON_print 0 (array_to_json (capturedRequests (saveRequest m w data).1)))
    else localStorage w !! storageKey (config m).
Proof.
  unfold saveRequest. cbn [fst snd]. rewrite log_localStorage.
  unfold triggerEvent, dispatchEvent. cbn [localStorage set_dispatched].
  match goal with |- context [saveToStorage ?m' ?w'] =>
    pose proof (saveToStorage_lookup m' w') as H;
    rewrite (storage_takes_page w w') in H
      by (now rewrite ?log_localStorage, ?log_storageLimit)
  end.
  cbn [config set_capturedRequests] in *. rewrite !log_localStorage in H.
  destruct (enableUI (config m)); rewrite ?updateBadgeCount_localStorage; exact H.
Qed.






(** ** The capacity bound *)

(** The last [n] elements of a list. *)
Definition lastN {A : Type} (n : nat) (l : list A) : list A := drop (length l - n) l.

Lemma length_lastN {A : Type} (n : nat) (l : list A) :
  length (lastN n l) = Nat.min n (length l).
Proof. unfold lastN. rewrite length_drop. lia. Qed.

Lemma lastN_app_lastN {A : Type} (n : nat) (a b : list A) :
  lastN n (lastN n a ++ b) = lastN n (a ++ b).
Proof.
  unfold lastN. rewrite !length_app, length_drop.
  destruct (Nat.le_gt_cases (length a) n) as [Hle|Hgt].
  - replace (length a - n)%nat with 0%nat by lia. cbn [drop]. f_equal. lia.
  - replace (length a - (length a - n) + length b - n)%nat with (length b) by lia.
    replace (length a + length b - n)%nat with ((length a - n) + length b)%nat by lia.
    rewrite <- drop_drop. f_equal. rewrite drop_app_le by lia. reflexivity.
Qed.

(** From capacity one on, the trimming step keeps the last [max] records. *)
Lemma trim_lastN (max : Z) (a : list jsval) :
  1 <= max -> trim max a = lastN (Z.to_nat max) a.
Proof.
  intros Hmax. unfold trim, slice, lastN.
  destruct (Z.of_nat (length a) >? max) eqn:E.
  - replace (- max <? 0) with true by (symmetry; apply Z.ltb_lt; lia).
    f_equal. apply Z.gtb_lt in E. lia.
  - assert (Z.of_nat (length a) <= max) as Hle.
    { destruct (Z.gtb_spec (Z.of_nat (length a)) max); [discriminate | lia]. }
    replace (length a - Z.to_nat max)%nat with 0%nat by lia. reflexivity.
Qed.

(** At capacity zero [slice(-0)] is [slice(0)]: the trimming step keeps all. *)
Lemma trim_zero (a : list jsval) : trim 0 a = a.
Proof.
  unfold trim, slice. destruct (Z.of_nat (length a) >? 0); [| reflexivity].
  change (- 0 <? 0) with false. cbn iota.
  replace (Z.to_nat (Z.min (- 0) (Z.of_nat (length a)))) with 0%nat by lia. reflexivity.
Qed.

(** A run of inserts, in order of completion. *)
Fixpoint saveRequests (m : APIMonitor) (w : Window) (completions : list jsval)
  : APIMonitor * Window :=
  match completions with
  | [] => (m, w)
  | data :: rest =>
      let '(m', w') := saveRequest m w data in
      saveRequests m' w' rest
  end.

Lemma saveRequests_config m w ds : config (saveRequests m w ds).1 = config m.
Proof.
  revert m w. induction ds as [|d ds IH]; intros m w; [reflexivity |].
  cbn [saveRequests]. destruct (saveRequest m w d) as [m' w'] eqn:E.
  rewrite IH. now rewrite <- (saveRequest_config m w d), E.
Qed.

(** For a capacity of at least one: after a run of inserts the log holds the
    last [maxStoredRequests] records of what it held before followed by the
    inserted ones, oldest first; so its length is within the capacity after
    every insert, whatever the length was before the first one. *)
Theorem saveRequests_bounded_fifo (m : APIMonitor) (w : Window) (completions : list jsval) :
  1 <= maxStoredRequests (config m) -> completions <> [] ->
  capturedRequests (saveRequests m w completions).1
    = lastN (Z.to_nat (maxStoredRequests (config m))) (capturedRequests m ++ completions)
  /\ Z.of_nat (length (capturedRequests (saveRequests m w completions).1))
     <= maxStoredRequests (config m).
Proof.
  intros Hmax Hne.
  assert (capturedRequests (saveRequests m w completions).1
          = lastN (Z.to_nat (maxStoredRequests (config m))) (capturedRequests m ++ completions))
    as Hlog.
  { clear -Hmax Hne. revert m w Hmax Hne.
    induction completions as [|d ds IH]; intros m w Hmax Hne; [now elim Hne |].
    cbn [saveRequests]. destruct (saveRequest m w d) as [m' w'] eqn:E.
    pose proof (saveRequest_log m w d) as Hl. pose proof (saveRequest_config m w d) as Hc.
    rewrite E in Hl, Hc. cbn [fst] in Hl, Hc. rewrite trim_lastN in Hl by exact Hmax.
    destruct ds as [|d' ds'].
    - cbn [saveRequests fst]. exact Hl.
    - rewrite IH by (rewrite ?Hc; first [exact Hmax | discriminate]).
      rewrite Hc, Hl, lastN_app_lastN. now rewrite <- app_assoc. }
  split; [exact Hlog |]. rewrite Hlog, length_lastN. lia.
Qed.

(** C2 at capacity zero: every insert is kept, so the log outgrows the
    capacity at the first one. *)
Theorem saveRequests_unbounded_at_zero (m : APIMonitor) (w : Window) (completions : list jsval) :
  maxStoredRequests (config m) = 0 ->
  capturedRequests (saveRequests m w completions).1 = capturedRequests m ++ completions.
Proof.
  revert m w. induction completions as [|d ds IH]; intros m w H0.
  - cbn. now rewrite app_nil_r.
  - cbn [saveRequests]. destruct (saveRequest m w d) as [m' w'] eqn:E.
    pose proof (saveRequest_log m w d) as Hl. pose proof (saveRequest_config m w d) as Hc.
    rewrite E in Hl, Hc. cbn [fst] in Hl, Hc. rewrite H0, trim_zero in Hl.
    rewrite IH by (now rewrite Hc). rewrite Hl. now rewrite <- app_assoc.
Qed.



(** ** The event bus *)

(** A forwarding listener answers every dispatch of its type by calling its
    callback with the detail. *)
Lemma calls_of_forwarding (type : string) (detail : jsval) (fn callback : nat)
    (ls : list (string * Listener)) :
  In (type, Forwarding fn callback) ls ->
  In (CallWithDetail callback detail) (calls_of type detail ls).
Proof.
  intros Hin. unfold calls_of. apply in_flat_map.
  exists (type, Forwarding fn callback). split; [exact Hin |].
  rewrite String.eqb_refl. now left.
Qed.

(** [off] removes no listener that is another function than its argument. *)
Lemma off_keeps_other_functions (eventName : string) (callback : nat) (w : Window)
    (type : string) (l : Listener) :
  In (type, l) (listeners w) -> listener_fn l <> callback ->
  In (type, l) (listeners (off eventName callback w)).
Proof.
  intros Hin Hne. unfold off, removeEventListener. cbn [listeners set_listeners].
  apply filter_In. split; [exact Hin |].
  apply negb_true_iff, andb_false_iff. right. now apply Nat.eqb_neq.
Qed.

(** [off] does remove a function that was registered as it is. *)
Lemma off_removes_direct (eventName : string) (callback : nat) (w : Window) :
  ~ In (eventType eventName, Direct callback) (listeners (off eventName callback w)).
Proof.
  unfold off, removeEventListener. cbn [listeners set_listeners].
  intros [_ H]%filter_In. cbn [listener_fn] in H.
  rewrite String.eqb_refl, Nat.eqb_refl in H. discriminate.
Qed.

(** [on] registers its new arrow function, provided that function is new:
    no listener already carries the identity about to be given out. *)
Lemma on_registers (eventName : string) (callback : nat) (w : Window) :
  Forall (fun tl => (listener_fn tl.2 < next_fn w)%nat) (listeners w) ->
  In (eventType eventName, Forwarding (next_fn w) callback)
     (listeners (on eventName callback w)).
Proof.
  intros Hfresh. unfold on, addEventListener. cbn [listeners set_listeners next_fn listener_fn].
  destruct (existsb _ (listeners w)) eqn:E.
  - apply existsb_exists in E as ([t l] & Hin & Hx).
    apply andb_true_iff in Hx as [_ Hx]. apply Nat.eqb_eq in Hx.
    rewrite Forall_forall in Hfresh. apply list_elem_of_In, Hfresh in Hin.
    cbn in Hin. lia.
  - cbn [listeners set_listeners]. apply in_or_app. right. now left.
Qed.

(** A run of emissions, in order. *)
Definition triggerEvents (emissions : list (string * jsval)) (w : Window) : Window :=
  fold_left (fun w '(eventName, data) => triggerEvent eventName data w) emissions w.

(** The detail an emission carries. *)
Definition detail_of (data : jsval) : jsval :=
  match data with VUndefined => VNull | _ => data end.

Lemma triggerEvents_calls (emissions : list (string * jsval)) :
  forall w,
    listeners (triggerEvents emissions w) = listeners w
    /\ called (triggerEvents emissions w)
       = called w
         ++ flat_map (fun '(eventName, data) =>
                        calls_of (eventType eventName) (detail_of data) (listeners w))
              emissions.
Proof.
  induction emissions as [|[e d] l IH]; intros w.
  - cbn. now rewrite app_nil_r.
  - cbn [triggerEvents fold_left flat_map].
    destruct (IH (triggerEvent e d w)) as [Hl Hc].
    unfold triggerEvents in Hl, Hc. rewrite Hl, Hc.
    unfold triggerEvent, dispatchEvent. cbn [listeners called set_dispatched].
    split; [reflexivity |]. now rewrite <- app_assoc.
Qed.

(** C10: a handler registered with [on] stays registered after [off] is
    called with that same handler, and every emission of the event that
    follows calls it with the event's detail. The handler is a function the
    page already holds when it registers it; [on] wraps it in a function made
    on the spot, and [off] looks for the handler itself among the listeners. *)
Theorem off_does_not_unregister (w : Window) (eventName : string) (callback : nat)
    (emissions : list (string * jsval)) :
  (callback < next_fn w)%nat ->
  Forall (fun tl => (listener_fn tl.2 < next_fn w)%nat) (listeners w) ->
  In (eventType eventName, Forwarding (next_fn w) callback)
     (listeners (off eventName callback (on eventName callback w)))
  /\ exists calls,
       called (triggerEvents emissions (off eventName callback (on eventName callback w)))
         = called w ++ calls
       /\ forall data, In (eventName, data) emissions ->
            In (CallWithDetail callback (detail_of data)) calls.
Proof.
  intros Hold Hfresh.
  assert (In (eventType eventName, Forwarding (next_fn w) callback)
             (listeners (off eventName callback (on eventName callback w)))) as Hin.
  { apply off_keeps_other_functions; [now apply on_registers |]. cbn. lia. }
  split; [exact Hin |].
  destruct (triggerEvents_calls emissions (off eventName callback (on eventName callback w)))
    as [_ Hc].
  eexists. split.
  - rewrite Hc. f_equal. unfold off, removeEventListener, on, addEventListener.
    now destruct (existsb _ _).
  - intros data Hd. apply in_flat_map. exists (eventName, data). split; [exact Hd |].
    eapply calls_of_forwarding, Hin.
Qed.

(** ** Interception *)

(** The number of recording wrappers a constructor runs through. *)
Fixpoint recording (c : XHRConstructor) : nat :=
  match c with
  | NativeXHR => O
  | InterceptedXHR origXHR => S (recording origXHR)
  | ListenedXHR originalXHRConstructor => recording originalXHRConstructor
  end.

(** [w'] is [w] with more lines on the console. *)
Definition same_page (w w' : Window) : Prop := w' = set_console (console w') w.

Lemma same_page_refl w : same_page w w.
Proof. unfold same_page. now destruct w. Qed.

Lemma same_page_log m line w : same_page w (log m line w).
Proof. unfold log. destruct (enableLog (config m)); [reflexivity | apply same_page_refl]. Qed.

Lemma same_page_trans w1 w2 w3 : same_page w1 w2 -> same_page w2 w3 -> same_page w1 w3.
Proof. unfold same_page. intros H12 H23. rewrite H23, H12. reflexivity. Qed.

Lemma same_page_location w w' : same_page w w' -> location w' = location w.
Proof. intros ->. reflexivity. Qed.

Lemma same_page_clock w w' : same_page w w' -> clock w' = clock w.
Proof. intros ->. reflexivity. Qed.

Lemma same_page_dispatched w w' : same_page w w' -> dispatched w' = dispatched w.
Proof. intros ->. reflexivity. Qed.

Lemma parseURL_same_page w w' url : same_page w w' -> parseURL w' url = parseURL w url.
Proof. intros H. unfold parseURL. now rewrite (same_page_location _ _ H). Qed.

Lemma gate_same_page m w w' url : same_page w w' -> gate m w' url = gate m w url.
Proof. intros H. unfold gate, hasAllowedDomain. now rewrite (parseURL_same_page _ _ _ H). Qed.

Lemma gate_set_clock m w t url : gate m (set_clock t w) url = gate m w url.
Proof. reflexivity. Qed.

(** [open] records the URL on the object as soon as one recording wrapper is
    passed, and otherwise only logs. *)
Lemma xhr_open_spec (c : XHRConstructor) (m : APIMonitor) (method url : string) :
  forall w xhr, exists xhr' w',
    xhr_open c m w xhr method url = (xhr', w')
    /\ same_page w w'
    /\ onload xhr' = onload xhr
    /\ _url xhr' = match recording c with O => _url xhr | S _ => url end.
Proof.
  induction c as [| c IH | c IH]; intros w xhr; cbn [xhr_open recording].
  - exists xhr, w. repeat split. apply same_page_refl.
  - match goal with |- context [xhr_open c m ?w1 ?x1 _ _] =>
      destruct (IH w1 x1) as (x' & w' & E & Hp & Ho & Hu) end.
    exists x', w'. rewrite E. repeat split.
    + eapply same_page_trans; [apply same_page_log | exact Hp].
    + exact Ho.
    + rewrite Hu. now destruct (recording c).
  - destruct (IH (log m (LogGlobalXHR method url) w) xhr) as (x' & w' & E & Hp & Ho & Hu).
    exists x', w'. rewrite E. repeat split; try assumption.
    eapply same_page_trans; [apply same_page_log | exact Hp].
Qed.

(** [send] adds one [load] listener per recording wrapper when the gate
    passes, and none when it does not. *)
Lemma xhr_send_spec (c : XHRConstructor) (m : APIMonitor) (body : jsval) :
  forall w xhr, exists xhr' w',
    xhr_send c m w xhr body = (xhr', w')
    /\ same_page w w'
    /\ _url xhr' = _url xhr
    /\ onload xhr' = (onload xhr + if gate m w (_url xhr) then recording c else O)%nat.
Proof.
  induction c as [| c IH | c IH]; intros w xhr; cbn [xhr_send recording].
  - exists xhr, w. repeat split; [apply same_page_refl | destruct (gate _ _ _); lia].
  - set (w1 := log m (LogXHRSend (_method xhr) (_url xhr)) w).
    assert (same_page w w1) as H1 by apply same_page_log.
    assert (JsString.nonEmpty (_url xhr) && hasTargetPath m (_url xhr)
            && hasAllowedDomain m w1 (_url xhr) = gate m w (_url xhr)) as Hg.
    { rewrite <- (gate_same_page m w w1 _ H1). reflexivity. }
    rewrite Hg. destruct (gate m w (_url xhr)) eqn:G.
    + match goal with |- context [xhr_send c m ?w2 ?x2 _] =>
        destruct (IH w2 x2) as (x' & w' & E & Hp & Hu & Ho);
        assert (same_page w w2) as H2
          by (repeat (eapply same_page_trans; [| apply same_page_log]);
              first [exact H1 | apply same_page_refl])
      end.
      exists x', w'. rewrite E. cbn [_url onload] in *. repeat split.
      * eapply same_page_trans; [exact H2 | exact Hp].
      * exact Hu.
      * rewrite Ho, (gate_same_page _ _ _ _ H2), G. lia.
    + match goal with |- context [xhr_send c m ?w2 ?x2 _] =>
        destruct (IH w2 x2) as (x' & w' & E & Hp & Hu & Ho);
        assert (same_page w w2) as H2
          by (repeat (eapply same_page_trans; [| apply same_page_log]);
              first [exact H1 | apply same_page_refl])
      end.
      exists x', w'. rewrite E. repeat split.
      * eapply same_page_trans; [exact H2 | exact Hp].
      * exact Hu.
      * rewrite Ho, (gate_same_page _ _ _ _ H2), G. lia.
  - destruct (IH w xhr) as (x' & w' & E & Hp & Hu & Ho).
    exists x', w'. rewrite E. now repeat split.
Qed.

Lemma saveRequest_dispatched m w data :
  dispatched (saveRequest m w data).2
  = dispatched w
    ++ [(eventType "requestCaptured", match data with VUndefined => VNull | _ => data end)].
Proof.
  unfold saveRequest. cbn [snd]. rewrite log_dispatched.
  unfold triggerEvent, dispatchEvent. cbn [dispatched set_dispatched].
  destruct (enableUI _); rewrite ?updateBadgeCount_dispatched;
    rewrite (proj1 (saveToStorage_page _ _)); now rewrite !log_dispatched.
Qed.

Lemma buildRequestData_object m w type data :
  exists props, (buildRequestData m w type data).1 = VObj props
    /\ dispatched (buildRequestData m w type data).2 = dispatched w.
Proof.
  unfold buildRequestData, generateId. cbn [fst snd].
  eexists. split; [reflexivity |]. cbn [dispatched set_draws]. apply log_dispatched.
Qed.

(** One recording listener commits one record, when the response text can be
    read. *)
Lemma xhr_onload_commits m w xhr r text :
  responseText r = Some text ->
  exists record,
    config (xhr_onload m w xhr r).1 = config m
    /\ capturedRequests (xhr_onload m w xhr r).1
       = trim (maxStoredRequests (config m)) (capturedRequests m ++ [record])
    /\ dispatched (xhr_onload m w xhr r).2
       = dispatched w ++ [(eventType "requestCaptured", record)].
Proof.
  intros Ht. unfold xhr_onload. rewrite Ht.
  match goal with |- context [buildRequestData m w ?ty ?d] =>
    destruct (buildRequestData_object m w ty d) as (props & Hr & Hd);
    destruct (buildRequestData m w ty d) as [record w1] end.
  cbn [fst snd] in Hr, Hd. subst record.
  exists (VObj props). rewrite saveRequest_config, saveRequest_log, saveRequest_dispatched, Hd.
  now repeat split.
Qed.

(** The [load] event commits one record per listener, in turn. *)
Lemma xhr_load_commits xhr r text :
  responseText r = Some text ->
  forall n m w, exists records,
    length records = n
    /\ config (xhr_load n m w xhr r).1 = config m
    /\ capturedRequests (xhr_load n m w xhr r).1
       = fold_left (fun l record => trim (maxStoredRequests (config m)) (l ++ [record]))
           records (capturedRequests m)
    /\ dispatched (xhr_load n m w xhr r).2
       = dispatched w ++ List.map (fun record => (eventType "requestCaptured", record)) records.
Proof.
  intros Ht. induction n as [|n IH]; intros m w.
  - exists []. cbn. now rewrite app_nil_r.
  - cbn [xhr_load].
    destruct (xhr_onload_commits m w xhr r text Ht) as (record & Hc & Hl & Hd).
    destruct (xhr_onload m w xhr r) as [m1 w1]. cbn [fst snd] in Hc, Hl, Hd.
    destruct (IH m1 w1) as (records & Hn & Hc' & Hl' & Hd').
    exists (record :: records). cbn [length fold_left List.map].
    rewrite Hc', Hl', Hd', Hc, Hl, Hd, <- app_assoc. now rewrite Hn.
Qed.

(** One exchange that completes commits one record per listener on the
    object: those it carried, and one more per recording wrapper when the
    gate passes on the URL the wrappers read. *)
Lemma xhr_exchange_commits c m w xhr method url body t r text :
  responseText r = Some text ->
  exists records,
    length records
    = (onload xhr
       + if gate m w (match recording c with O => _url xhr | S _ => url end)
         then recording c else O)%nat
    /\ onload (xhr_exchange c m w xhr method url body (Some (t, r))).1 = length records
    /\ capturedRequests (xhr_exchange c m w xhr method url body (Some (t, r))).2.1
       = fold_left (fun l record => trim (maxStoredRequests (config m)) (l ++ [record]))
           records (capturedRequests m)
    /\ dispatched (xhr_exchange c m w xhr method url body (Some (t, r))).2.2
       = dispatched w ++ List.map (fun record => (eventType "requestCaptured", record)) records.
Proof.
  intros Ht. unfold xhr_exchange.
  destruct (xhr_open_spec c m method url w xhr) as (x1 & w1 & E1 & Hp1 & Ho1 & Hu1).
  rewrite E1.
  destruct (xhr_send_spec c m body w1 x1) as (x2 & w2 & E2 & Hp2 & Hu2 & Ho2).
  rewrite E2. cbn [fst snd].
  destruct (xhr_load_commits x2 r text Ht (onload x2) m (set_clock t w2))
    as (records & Hn & _ & Hl & Hd).
  exists records. split; [| split; [now rewrite Hn | split; [exact Hl |]]].
  - now rewrite Hn, Ho2, Ho1, Hu1, (gate_same_page _ _ _ _ Hp1).
  - rewrite Hd. cbn [dispatched set_clock].
    now rewrite (same_page_dispatched _ _ Hp2), (same_page_dispatched _ _ Hp1).
Qed.

(** A completed request on an object of its own commits as many records as
    the constructor has recording wrappers when the gate passes, and none
    when it does not. *)
Lemma xhr_request_commits m w method url body t r text :
  responseText r = Some text ->
  exists records,
    length records = (if gate m w url then recording (XMLHttpRequest w) else O)
    /\ capturedRequests (xhr_request m w method url body (Some (t, r))).1
       = fold_left (fun l record => trim (maxStoredRequests (config m)) (l ++ [record]))
           records (capturedRequests m)
    /\ dispatched (xhr_request m w method url body (Some (t, r))).2
       = dispatched w ++ List.map (fun record => (eventType "requestCaptured", record)) records.
Proof.
  intros Ht. unfold xhr_request.
  destruct (xhr_exchange_commits (XMLHttpRequest w) m w new_XHR method url body t r text Ht)
    as (records & Hn & _ & Hlog & Hd).
  exists records. split; [| split; [exact Hlog | exact Hd]].
  rewrite Hn. cbn [onload _url new_XHR Nat.add].
  destruct (recording (XMLHttpRequest w)) eqn:R; [| reflexivity].
  now destruct (gate m w url), (gate m w "").
Qed.

(** The same count for [fetch]. *)
Fixpoint recording_fetch (f : FetchFunction) : nat :=
  match f with
  | NativeFetch => O
  | InterceptedFetch origFetch => S (recording_fetch origFetch)
  | ListenedFetch originalFetch => recording_fetch originalFetch
  end.

Lemma fetch_call_spec (f : FetchFunction) (m : APIMonitor) (url : string) (init : FetchInit) :
  forall w, exists n w',
    fetch_call f m w url init = (n, w')
    /\ same_page w w'
    /\ n = if gate m w url then recording_fetch f else O.
Proof.
  induction f as [| f IH | f IH]; intros w; cbn [fetch_call recording_fetch].
  - exists O, w. repeat split; [apply same_page_refl | now destruct (gate _ _ _)].
  - match goal with |- context [hasAllowedDomain m ?w1 url] =>
      assert (same_page w w1) as H1 by apply same_page_log;
      assert (JsString.nonEmpty url && hasTargetPath m url && hasAllowedDomain m w1 url
              = gate m w url) as Hg
        by (rewrite <- (gate_same_page m w w1 _ H1); reflexivity)
    end.
    rewrite Hg. destruct (gate m w url) eqn:G;
      match goal with |- context [fetch_call f m ?w2 url init] =>
        destruct (IH w2) as (n & w' & E & Hp & Hn);
        assert (same_page w w2) as H2
          by (repeat (eapply same_page_trans; [| apply same_page_log]); apply same_page_refl)
      end;
      rewrite E, (gate_same_page _ _ _ _ H2), G in *;
      eexists _, w'; (split; [reflexivity |]);
      (split; [eapply same_page_trans; [exact H2 | exact Hp] | now rewrite Hn]).
  - destruct (IH (log m (LogGlobalFetch
                           match init_method init with
                           | Some s => if JsString.nonEmpty s then s else "GET"
                           | None => "GET"
                           end url) w)) as (n & w' & E & Hp & Hn).
    exists n, w'. rewrite E. repeat split.
    + eapply same_page_trans; [apply same_page_log | exact Hp].
    + now rewrite Hn, (gate_same_page _ _ _ _ (same_page_log _ _ _)).
Qed.

Lemma fetch_resolve_commits url init startTime r :
  forall n m w, exists records,
    length records = n
    /\ capturedRequests (fetch_resolve n m w url init startTime r).1
       = fold_left (fun l record => trim (maxStoredRequests (config m)) (l ++ [record]))
           records (capturedRequests m)
    /\ config (fetch_resolve n m w url init startTime r).1 = config m
    /\ dispatched (fetch_resolve n m w url init startTime r).2
       = dispatched w ++ List.map (fun record => (eventType "requestCaptured", record)) records.
Proof.
  induction n as [|n IH]; intros m w.
  - exists []. cbn. now rewrite app_nil_r.
  - cbn [fetch_resolve]. unfold fetch_then.
    match goal with |- context [buildRequestData m w ?ty ?d] =>
      destruct (buildRequestData_object m w ty d) as (props & Hr & Hd);
      destruct (buildRequestData m w ty d) as [record w1] end.
    cbn [fst snd] in Hr, Hd. subst record.
    pose proof (saveRequest_log m w1 (VObj props)) as Hl.
    pose proof (saveRequest_config m w1 (VObj props)) as Hc.
    pose proof (saveRequest_dispatched m w1 (VObj props)) as Hd1.
    destruct (saveRequest m w1 (VObj props)) as [m2 w2]. cbn [fst snd] in Hl, Hc, Hd1.
    destruct (IH m2 w2) as (records & Hn & Hl' & Hc' & Hd').
    exists (VObj props :: records). cbn [length fold_left List.map].
    rewrite Hl', Hc', Hd', Hc, Hl, Hd1, Hd, <- app_assoc. now rewrite Hn.
Qed.

(** A [fetch] that resolves commits as many records as [fetch] has recording
    wrappers when the gate passes, and none when it does not. *)
Lemma fetch_request_commits m w url init t r :
  exists records,
    length records = (if gate m w url then recording_fetch (fetch w) else O)
    /\ capturedRequests (fetch_request m w url init (Some (t, r))).1
       = fold_left (fun l record => trim (maxStoredRequests (config m)) (l ++ [record]))
           records (capturedRequests m)
    /\ dispatched (fetch_request m w url init (Some (t, r))).2
       = dispatched w ++ List.map (fun record => (eventType "requestCaptured", record)) records.
Proof.
  unfold fetch_request.
  destruct (fetch_call_spec (fetch w) m url init w) as (n & w' & E & Hp & Hn).
  rewrite E.
  destruct (fetch_resolve_commits url init (clock w) r n m (set_clock t w'))
    as (records & Hlen & Hl & _ & Hd).
  exists records. split; [now rewrite Hlen, Hn |]. split; [exact Hl |].
  rewrite Hd. cbn [dispatched set_clock]. now rewrite (same_page_dispatched _ _ Hp).
Qed.

Lemma start_spec m w :
  isMonitoring m = false ->
  config (start m w).1 = config m
  /\ capturedRequests (start m w).1 = capturedRequests m
  /\ isMonitoring (start m w).1 = true
  /\ XMLHttpRequest (start m w).2 = ListenedXHR (InterceptedXHR (XMLHttpRequest w))
  /\ fetch (start m w).2 = ListenedFetch (InterceptedFetch (fetch w))
  /\ createElement (start m w).2 = InterceptedCreateElement (createElement w)
  /\ location (start m w).2 = location w
  /\ dispatched (start m w).2 = dispatched w.
Proof.
  destruct m as [[tp ad mx cf sk ui lg au] l mon obs]. cbn [isMonitoring]. intros ->.
  unfold start, setupPerformanceObserver, interceptScriptTags, interceptAllNetworkRequests,
    interceptXHR, interceptFetch, interceptJSONP, log.
  destruct lg; cbn; destruct (hasPerformanceObserver w) eqn:E; cbn; rewrite ?E; cbn;
    now repeat split.
Qed.

Lemma stop_spec m w :
  isMonitoring m = true ->
  config (stop m w).1 = config m
  /\ capturedRequests (stop m w).1 = capturedRequests m
  /\ isMonitoring (stop m w).1 = false
  /\ observers (stop m w).1 = []
  /\ same_page w (stop m w).2.
Proof.
  intros Hm. unfold stop. rewrite Hm. cbn. repeat split. apply same_page_log.
Qed.

Lemma gate_config m m' w w' url :
  config m' = config m -> location w' = location w -> gate m' w' url = gate m w url.
Proof.
  intros Hc Hl. unfold gate, hasTargetPath, hasAllowedDomain, parseURL. now rewrite Hc, Hl.
Qed.

(** C1, as the code has it. On a page whose [XMLHttpRequest] is the native
    one, once a monitor has been started, a request made on a request object
    of its own ([new XMLHttpRequest()], one [open], one [send]) that
    completes with a readable response text commits one record, and
    dispatches [requestCaptured] once, exactly when the gate passes: the URL is a
    non-empty string, some entry of [targetPaths] is a substring of the URL as
    the page gave it, and [allowedDomains] is empty or has an entry that is a
    substring of the resolved domain. So empty [targetPaths] capture nothing,
    and neither does a domain that matches no entry of non-empty
    [allowedDomains]. *)
Theorem capture_iff_gate (m0 : APIMonitor) (w0 : Window) (method url : string) (body : jsval)
    (t : Z) (r : XHRResponse) (text : string) :
  isMonitoring m0 = false -> XMLHttpRequest w0 = NativeXHR -> responseText r = Some text ->
  let m := (start m0 w0).1 in
  let w := (start m0 w0).2 in
  (gate m0 w0 url = true ->
     exists record,
       dispatched (xhr_request m w method url body (Some (t, r))).2
         = dispatched w ++ [(eventType "requestCaptured", record)]
       /\ capturedRequests (xhr_request m w method url body (Some (t, r))).1
         = trim (maxStoredRequests (config m0)) (capturedRequests m0 ++ [record]))
  /\ (gate m0 w0 url = false ->
      dispatched (xhr_request m w method url body (Some (t, r))).2 = dispatched w
      /\ capturedRequests (xhr_request m w method url body (Some (t, r))).1
         = capturedRequests m0)
  /\ gate m0 w0 url
     = (JsString.nonEmpty url
        && existsb (fun p => JsString.includes url p) (targetPaths (config m0))
        && (Nat.eqb (length (allowedDomains (config m0))) 0
            || existsb (fun d => JsString.includes (domain (parseURL w0 url)) d)
                 (allowedDomains (config m0))))
  /\ (targetPaths (config m0) = [] -> gate m0 w0 url = false)
  /\ (allowedDomains (config m0) <> [] ->
      (forall d, In d (allowedDomains (config m0)) ->
         JsString.includes (domain (parseURL w0 url)) d = false) ->
      gate m0 w0 url = false).
Proof.
  intros Hm Hx Ht m w.
  destruct (start_spec m0 w0 Hm) as (Hc & Hl & _ & HX & _ & _ & Hloc & _).
  fold m w in Hc, Hl, HX, Hloc.
  destruct (xhr_request_commits m w method url body t r text Ht) as (records & Hn & Hlog & Hd).
  rewrite (gate_config m0 m w0 w url Hc Hloc), HX, Hx in Hn. cbn [recording] in Hn.
  rewrite Hc, Hl in Hlog.
  split; [| split; [| split; [| split]]].
  - intros G. rewrite G in Hn. destruct records as [|record [|]]; try discriminate.
    exists record. split; [exact Hd | exact Hlog].
  - intros G. rewrite G in Hn. destruct records; [| discriminate].
    cbn in Hd, Hlog. rewrite app_nil_r in Hd. now split.
  - reflexivity.
  - intros He. unfold gate, hasTargetPath. rewrite He. cbn [existsb].
    now rewrite andb_false_r.
  - intros Hne Hno. unfold gate, hasAllowedDomain.
    destruct (allowedDomains (config m0)) as [|d ds] eqn:E; [now elim Hne |].
    cbn [length Nat.eqb orb].
    replace (existsb _ (d :: ds)) with false; [apply andb_false_r |].
    symmetry. apply not_true_is_false. intros (d' & Hin & Hd')%existsb_exists.
    now rewrite (Hno d' Hin) in Hd'.
Qed.

(** The same for [fetch]: on a page whose [fetch] is the native one, once a
    monitor has been started, a call that resolves commits one record exactly
    when the gate passes on the URL it was given. *)
Theorem fetch_capture_iff_gate (m0 : APIMonitor) (w0 : Window) (url : string)
    (init : FetchInit) (t : Z) (r : FetchResponse) :
  isMonitoring m0 = false -> fetch w0 = NativeFetch ->
  let m := (start m0 w0).1 in
  let w := (start m0 w0).2 in
  (gate m0 w0 url = true ->
     exists record,
       dispatched (fetch_request m w url init (Some (t, r))).2
         = dispatched w ++ [(eventType "requestCaptured", record)]
       /\ capturedRequests (fetch_request m w url init (Some (t, r))).1
         = trim (maxStoredRequests (config m0)) (capturedRequests m0 ++ [record]))
  /\ (gate m0 w0 url = false ->
      dispatched (fetch_request m w url init (Some (t, r))).2 = dispatched w
      /\ capturedRequests (fetch_request m w url init (Some (t, r))).1 = capturedRequests m0).
Proof.
  intros Hm Hf m w.
  destruct (start_spec m0 w0 Hm) as (Hc & Hl & _ & _ & HF & _ & Hloc & _).
  fold m w in Hc, Hl, HF, Hloc.
  destruct (fetch_request_commits m w url init t r) as (records & Hn & Hlog & Hd).
  rewrite (gate_config m0 m w0 w url Hc Hloc), HF, Hf in Hn. cbn [recording_fetch] in Hn.
  rewrite Hc, Hl in Hlog.
  split.
  - intros G. rewrite G in Hn. destruct records as [|record [|]]; try discriminate.
    exists record. split; [exact Hd | exact Hlog].
  - intros G. rewrite G in Hn. destruct records; [| discriminate].
    cbn in Hd, Hlog. rewrite app_nil_r in Hd. now split.
Qed.

(** A second [start()] in succession installs nothing: it only logs. *)
Theorem start_twice_installs_once (m0 : APIMonitor) (w0 : Window) :
  isMonitoring m0 = false ->
  start (start m0 w0).1 (start m0 w0).2
  = ((start m0 w0).1, log (start m0 w0).1 LogAlreadyRunning (start m0 w0).2).
Proof.
  intros Hm. destruct (start_spec m0 w0 Hm) as (_ & _ & Hr & _).
  unfold start at 1. now rewrite Hr.
Qed.

(** C3 across [stop()] and [start()]: [stop] clears the running flag and
    leaves the wrappers in place, so the second [start] wraps the wrapped
    constructor, and one matched request that completes afterwards commits
    two records. *)
Theorem restart_records_twice (m0 : APIMonitor) (w0 : Window) (method url : string)
    (body : jsval) (t : Z) (r : XHRResponse) (text : string) :
  isMonitoring m0 = false -> XMLHttpRequest w0 = NativeXHR -> responseText r = Some text ->
  gate m0 w0 url = true ->
  let s1 := start m0 w0 in
  let s2 := stop s1.1 s1.2 in
  let s3 := start s2.1 s2.2 in
  XMLHttpRequest s3.2 = ListenedXHR (InterceptedXHR (ListenedXHR (InterceptedXHR NativeXHR)))
  /\ exists first second,
       dispatched (xhr_request s3.1 s3.2 method url body (Some (t, r))).2
       = dispatched s3.2
         ++ [(eventType "requestCaptured", first); (eventType "requestCaptured", second)]
       /\ capturedRequests (xhr_request s3.1 s3.2 method url body (Some (t, r))).1
       = trim (maxStoredRequests (config m0))
           (trim (maxStoredRequests (config m0)) (capturedRequests m0 ++ [first]) ++ [second]).
Proof.
  intros Hm Hx Ht G s1 s2 s3.
  destruct (start_spec m0 w0 Hm) as (Hc1 & Hl1 & Hr1 & HX1 & _ & _ & Hloc1 & _).
  fold s1 in Hc1, Hl1, Hr1, HX1, Hloc1.
  destruct (stop_spec s1.1 s1.2 Hr1) as (Hc2 & Hl2 & Hr2 & _ & Hp2).
  fold s2 in Hc2, Hl2, Hr2, Hp2.
  destruct (start_spec s2.1 s2.2 Hr2) as (Hc3 & Hl3 & _ & HX3 & _ & _ & Hloc3 & _).
  fold s3 in Hc3, Hl3, HX3, Hloc3.
  assert (XMLHttpRequest s2.2 = XMLHttpRequest s1.2) as HX2 by (now rewrite Hp2).
  assert (location s2.2 = location s1.2) as Hloc2 by (now rewrite Hp2).
  assert (XMLHttpRequest s3.2
          = ListenedXHR (InterceptedXHR (ListenedXHR (InterceptedXHR NativeXHR)))) as HX.
  { now rewrite HX3, HX2, HX1, Hx. }
  assert (config s3.1 = config m0) as Hc by (now rewrite Hc3, Hc2, Hc1).
  assert (capturedRequests s3.1 = capturedRequests m0) as Hl by (now rewrite Hl3, Hl2, Hl1).
  split; [exact HX |].
  destruct (xhr_request_commits s3.1 s3.2 method url body t r text Ht)
    as (records & Hn & Hlog & Hd).
  rewrite (gate_config m0 s3.1 w0 s3.2 url Hc) in Hn by (now rewrite Hloc3, Hloc2, Hloc1).
  rewrite G, HX in Hn. cbn [recording] in Hn.
  destruct records as [|first [|second [|]]]; try discriminate.
  exists first, second. split; [exact Hd |].
  rewrite Hlog, Hc, Hl. reflexivity.
Qed.

End Properties.

(** * More of the monitor *)

Section MoreProperties.

Context {browser : Browser}.

(** ** The fields of a record *)

(** [props[k]] on an object given as its properties in order. *)
Fixpoint get_property (k : string) (props : list (string * jsval)) : option jsval :=
  match props with
  | [] => None
  | (k', v) :: props' => if String.eqb k' k then Some v else get_property k props'
  end.

(** The names a record can have, in the order [buildRequestData] writes them. *)
Definition record_keys : list string :=
  ["id"; "type"; "method"; "url"; "request"; "requestHeaders"; "status"; "response";
   "responseHeaders"; "timestamp"; "domain"; "path"; "duration"; "initiator"].

Lemma sublist_field (c : bool) (k : string) (v : jsval) :
  sublist (List.map fst (if c then [(k, v)] else [])) [k].
Proof. destruct c; cbn; [reflexivity | apply sublist_nil_l]. Qed.

Lemma get_property_skip k k' (c : bool) v rest :
  String.eqb k' k = false ->
  get_property k ((if c then [(k', v)] else []) ++ rest) = get_property k rest.
Proof. intros H. destruct c; cbn [app get_property]; now rewrite ?H. Qed.

Lemma get_property_here k (c : bool) v rest :
  get_property k ((if c then [(k, v)] else []) ++ rest)
  = if c then Some v else get_property k rest.
Proof. destruct c; cbn [app get_property]; now rewrite ?String.eqb_refl. Qed.

Lemma get_property_last k k' (c : bool) v :
  get_property k (if c then [(k', v)] else [])
  = if c && String.eqb k' k then Some v else None.
Proof. destruct c; cbn [get_property andb]; [now destruct (String.eqb k' k) | reflexivity]. Qed.

(** The record [buildRequestData] returns, with the page it is built on. *)
Lemma buildRequestData_eq m w type data :
  buildRequestData m w type data
  = (VObj
       ([("id", VStr (JsString.ofZ (clock w) +:+ JsString.substring (Math_random36 (draws w)) 2 9));
         ("type", VStr type)]
        ++ (if captureFields (config m) request_method then [("method", data_method data)] else [])
        ++ (if captureFields (config m) request_url then [("url", VStr (data_url data))] else [])
        ++ (if captureFields (config m) request_payload
            then [("request", parseData (data_body data))] else [])
        ++ (if captureFields (config m) request_headers && truthy (data_headers data)
            then [("requestHeaders", data_headers data)] else [])
        ++ (if captureFields (config m) response_status then [("status", data_status data)] else [])
        ++ (if captureFields (config m) response_body
            then [("response", parseData (data_responseText data))] else [])
        ++ (if captureFields (config m) response_headers && truthy (data_responseHeaders data)
            then [("responseHeaders", data_responseHeaders data)] else [])
        ++ (if captureFields (config m) metadata_timestamp
            then [("timestamp", VStr (Date_toISOString (clock w)))] else [])
        ++ (if captureFields (config m) metadata_domain
            then [("domain", VStr (domain (parseURL w (data_url data))))] else [])
        ++ (if captureFields (config m) metadata_path
            then [("path", VStr (path (parseURL w (data_url data))))] else [])
        ++ (if captureFields (config m) metadata_duration
            then [("duration", data_duration data)] else [])
        ++ (if captureFields (config m) metadata_initiator
            then [("initiator", VStr type)] else [])),
     set_draws (S (draws w)) (log m (LogBuild type (data_url data)) w)).
Proof.
  unfold buildRequestData, generateId, log. destruct (enableLog (config m)); reflexivity.
Qed.

(** The properties of the record, name by name. *)
Lemma buildRequestData_fields (m : APIMonitor) (w : Window) (type : string) (data : Exchange) :
  let toggle := captureFields (config m) in
  let urlInfo := parseURL w (data_url data) in
  let given (c : bool) (v : jsval) := if c then Some v else None in
  exists props,
    (buildRequestData m w type data).1 = VObj props
    /\ get_property "id" props
       = Some (VStr (JsString.ofZ (clock w)
                     +:+ JsString.substring (Math_random36 (draws w)) 2 9))
    /\ get_property "type" props = Some (VStr type)
    /\ get_property "method" props = given (toggle request_method) (data_method data)
    /\ get_property "url" props = given (toggle request_url) (VStr (data_url data))
    /\ get_property "request" props
       = given (toggle request_payload) (parseData (data_body data))
    /\ get_property "requestHeaders" props
       = given (toggle request_headers && truthy (data_headers data)) (data_headers data)
    /\ get_property "status" props = given (toggle response_status) (data_status data)
    /\ get_property "response" props
       = given (toggle response_body) (parseData (data_responseText data))
    /\ get_property "responseHeaders" props
       = given (toggle response_headers && truthy (data_responseHeaders data))
           (data_responseHeaders data)
    /\ get_property "timestamp" props
       = given (toggle metadata_timestamp) (VStr (Date_toISOString (clock w)))
    /\ get_property "domain" props = given (toggle metadata_domain) (VStr (domain urlInfo))
    /\ get_property "path" props = given (toggle metadata_path) (VStr (path urlInfo))
    /\ get_property "duration" props = given (toggle metadata_duration) (data_duration data)
    /\ get_property "initiator" props = given (toggle metadata_initiator) (VStr type).
Proof.
  intros toggle urlInfo given. rewrite buildRequestData_eq. cbn [fst].
  eexists. split; [reflexivity |].
  subst toggle urlInfo given. cbn [app get_property String.eqb Ascii.eqb Bool.eqb].
  repeat split;
    rewrite ?get_property_skip by reflexivity;
    rewrite ?get_property_here, ?get_property_last;
    rewrite ?get_property_skip by reflexivity;
    rewrite ?get_property_last;
    cbn [String.eqb Ascii.eqb Bool.eqb andb]; rewrite ?andb_false_r, ?andb_true_r;
    try reflexivity;
    match goal with |- (if ?c then _ else _) = _ => now destruct c end.
Qed.

(** What a record holds. Its names are distinct and come in the order of
    [record_keys]; [id] and [type] are always there, the identifier being
    the clock reading followed by seven characters at most of a random
    draw; every other property is there exactly when its toggle is on and,
    for the two header properties, the value given is truthy. *)
Theorem buildRequestData_schema (m : APIMonitor) (w : Window) (type : string) (data : Exchange) :
  let toggle := captureFields (config m) in
  let present (c : bool) (k : string) (props : list (string * jsval)) :=
    if c then get_property k props <> None else get_property k props = None in
  exists props,
    (buildRequestData m w type data).1 = VObj props
    /\ sublist (List.map fst props) record_keys
    /\ NoDup (List.map fst props)
    /\ get_property "id" props
       = Some (VStr (JsString.ofZ (clock w)
                     +:+ JsString.substring (Math_random36 (draws w)) 2 9))
    /\ get_property "type" props = Some (VStr type)
    /\ present (toggle request_method) "method" props
    /\ present (toggle request_url) "url" props
    /\ present (toggle request_payload) "request" props
    /\ present (toggle request_headers && truthy (data_headers data)) "requestHeaders" props
    /\ present (toggle response_status) "status" props
    /\ present (toggle response_body) "response" props
    /\ present (toggle response_headers && truthy (data_responseHeaders data))
         "responseHeaders" props
    /\ present (toggle metadata_timestamp) "timestamp" props
    /\ present (toggle metadata_domain) "domain" props
    /\ present (toggle metadata_path) "path" props
    /\ present (toggle metadata_duration) "duration" props
    /\ present (toggle metadata_initiator) "initiator" props.
Proof.
  intros toggle present.
  destruct (buildRequestData_fields m w type data)
    as (props & Hr & Hid & Hty & Hme & Hu & Hrq & Hrh & Hst & Hrs & Hrsh & Hts & Hd & Hpa
        & Hdu & Hin).
  exists props. split; [exact Hr |].
  assert (sublist (List.map fst props) record_keys) as Hsub.
  { rewrite buildRequestData_eq in Hr. cbn [fst] in Hr. injection Hr as <-.
    cbn [List.map fst]. unfold record_keys. do 2 apply sublist_skip. rewrite !map_app.
    repeat (match goal with
            | |- sublist (_ ++ _) (?k :: ?ks) =>
                apply (sublist_app _ [k] _ ks); [apply sublist_field |]
            end).
    apply sublist_field. }
  split; [exact Hsub |]. split.
  - apply (sublist_NoDup _ record_keys); [| exact Hsub]. unfold record_keys.
    repeat (apply NoDup_cons_2; [cbn; rewrite ?elem_of_cons, elem_of_nil; intuition congruence |]).
    apply NoDup_nil_2.
  - fold toggle in Hme, Hu, Hrq, Hrh, Hst, Hrs, Hrsh, Hts, Hd, Hpa, Hdu, Hin.
    subst present. cbv beta.
    split; [exact Hid |]. split; [exact Hty |].
    repeat split;
      match goal with
      | |- if ?c then _ else _ => destruct c
      end;
      first [assumption | congruence].
Qed.

(** The two toggles [queryParams] and [timing] are read nowhere: monitors
    whose configurations differ in them alone build the same record and
    leave the same page. *)
Theorem unread_toggles_change_nothing (m m' : APIMonitor) (w : Window) (type : string)
    (data : Exchange) :
  enableLog (config m') = enableLog (config m) ->
  (forall f, f <> request_queryParams -> f <> response_timing ->
     captureFields (config m') f = captureFields (config m) f) ->
  buildRequestData m' w type data = buildRequestData m w type data.
Proof.
  intros Hlog Hf. rewrite !buildRequestData_eq. unfold log. rewrite Hlog.
  now rewrite !Hf by discriminate.
Qed.

(** ** What a started monitor records of one exchange *)

Lemma hasAllowedDomain_same_page m w w' url :
  same_page w w' -> hasAllowedDomain m w' url = hasAllowedDomain m w url.
Proof. intros H. unfold hasAllowedDomain. now rewrite (parseURL_same_page _ _ _ H). Qed.

(** The page [start] leaves: the three primitives wrapped, the rest as it was
    but for the console. *)
Lemma start_page m w :
  isMonitoring m = false ->
  clock (start m w).2 = clock w
  /\ draws (start m w).2 = draws w
  /\ localStorage (start m w).2 = localStorage w
  /\ document (start m w).2 = document w
  /\ listeners (start m w).2 = listeners w
  /\ called (start m w).2 = called w
  /\ downloads (start m w).2 = downloads w
  /\ observers (start m w).1
     = observers m
       ++ (if hasPerformanceObserver w then [TargetPerformanceObserver] else [])
       ++ [ScriptMutationObserver]
       ++ (if hasPerformanceObserver w then [GlobalPerformanceObserver] else []).
Proof.
  destruct m as [[tp ad mx cf sk ui lg au] l mon obs]. cbn [isMonitoring]. intros ->.
  unfold start, setupPerformanceObserver, interceptScriptTags, interceptAllNetworkRequests,
    interceptXHR, interceptFetch, interceptJSONP, log.
  destruct lg; cbn; destruct (hasPerformanceObserver w) eqn:E; cbn; rewrite ?E; cbn;
    rewrite <- ?app_assoc; now repeat split.
Qed.

(** One request through the wrappers that [start] puts on the native
    constructor, when the gate passes: one record, built when the request
    has loaded, from what [open] and [send] were given. *)
Lemma xhr_request_started m w method url body t r text :
  XMLHttpRequest w = ListenedXHR (InterceptedXHR NativeXHR) ->
  responseText r = Some text -> gate m w url = true ->
  exists w1,
    same_page (set_clock t w) w1
    /\ xhr_request m w method url body (Some (t, r))
       = saveRequest m
           (buildRequestData m w1 "xhr"
              {| data_method := VStr method;
                 data_url := url;
                 data_body := body;
                 data_headers := VUndefined;
                 data_status := VNum (status r);
                 data_responseText := VStr text;
                 data_responseHeaders := VStr (getAllResponseHeaders r);
                 data_duration := VNum (t - clock w) |}).2
           (buildRequestData m w1 "xhr"
              {| data_method := VStr method;
                 data_url := url;
                 data_body := body;
                 data_headers := VUndefined;
                 data_status := VNum (status r);
                 data_responseText := VStr text;
                 data_responseHeaders := VStr (getAllResponseHeaders r);
                 data_duration := VNum (t - clock w) |}).1.
Proof.
  intros HX Ht G. unfold xhr_request, xhr_exchange, new_XHR. rewrite HX.
  cbn [xhr_open xhr_send _url _method].
  set (wo := log m (LogXHROpen method url) (log m (LogGlobalXHR method url) w)).
  assert (same_page w wo) as Hwo
    by (eapply same_page_trans; apply same_page_log).
  set (ws := log m (LogXHRSend method url) wo).
  assert (same_page w ws) as Hws
    by (eapply same_page_trans; [exact Hwo | apply same_page_log]).
  rewrite (hasAllowedDomain_same_page m w ws url Hws).
  change (JsString.nonEmpty url && hasTargetPath m url && hasAllowedDomain m w url)
    with (gate m w url).
  rewrite G. cbn [xhr_load onload snd]. unfold xhr_onload. rewrite Ht.
  cbn [_method _url _body _startTime clock set_clock].
  match goal with |- context [buildRequestData m (set_clock t ?w') _ _] => set (wl := w') end.
  assert (same_page w wl) as Hwl.
  { subst wl. repeat (eapply same_page_trans; [| apply same_page_log]).
    first [exact Hws | apply same_page_refl]. }
  exists (set_clock t wl). split.
  - unfold same_page in *. rewrite Hwl at 1. reflexivity.
  - rewrite (same_page_clock _ _ Hwo).
    now destruct (buildRequestData m (set_clock t wl) "xhr" _).
Qed.

(** The record of an XHR exchange. On a page whose constructor is the
    native one, once the monitor has been started, a request on a request
    object of its own that passes the gate and loads at time [t] puts in the
    log one record with the type
    [xhr]; behind their toggles it holds the method and URL as [open] was
    given them, the parsed body given to [send], the status, the parsed
    response text, the raw text of the response headers when it is not
    empty, the time of the load, the domain and path [parseURL] gives for
    the URL, and as the duration the time from [open] to [load]. The record
    never has request headers. *)
Theorem xhr_record_fields (m0 : APIMonitor) (w0 : Window) (method url : string) (body : jsval)
    (t : Z) (r : XHRResponse) (text : string) :
  isMonitoring m0 = false -> XMLHttpRequest w0 = NativeXHR -> responseText r = Some text ->
  gate m0 w0 url = true ->
  let s := start m0 w0 in
  let toggle := captureFields (config m0) in
  let given (c : bool) (v : jsval) := if c then Some v else None in
  exists props,
    capturedRequests (xhr_request s.1 s.2 method url body (Some (t, r))).1
      = trim (maxStoredRequests (config m0)) (capturedRequests m0 ++ [VObj props])
    /\ get_property "type" props = Some (VStr "xhr")
    /\ get_property "method" props = given (toggle request_method) (VStr method)
    /\ get_property "url" props = given (toggle request_url) (VStr url)
    /\ get_property "request" props = given (toggle request_payload) (parseData body)
    /\ get_property "requestHeaders" props = None
    /\ get_property "status" props = given (toggle response_status) (VNum (status r))
    /\ get_property "response" props = given (toggle response_body) (parseData (VStr text))
    /\ get_property "responseHeaders" props
       = given (toggle response_headers && JsString.nonEmpty (getAllResponseHeaders r))
           (VStr (getAllResponseHeaders r))
    /\ get_property "timestamp" props
       = given (toggle metadata_timestamp) (VStr (Date_toISOString t))
    /\ get_property "domain" props
       = given (toggle metadata_domain) (VStr (domain (parseURL w0 url)))
    /\ get_property "path" props = given (toggle metadata_path) (VStr (path (parseURL w0 url)))
    /\ get_property "duration" props = given (toggle metadata_duration) (VNum (t - clock w0))
    /\ get_property "initiator" props = given (toggle metadata_initiator) (VStr "xhr").
Proof.
  intros Hm Hx Ht G s toggle given.
  destruct (start_spec m0 w0 Hm) as (Hc & Hl & _ & HX & _ & _ & Hloc & _).
  destruct (start_page m0 w0 Hm) as (Hclock & _).
  fold s in Hc, Hl, HX, Hloc, Hclock. rewrite Hx in HX.
  assert (gate s.1 s.2 url = true) as G' by (now rewrite (gate_config m0 s.1 w0 s.2 url Hc Hloc)).
  destruct (xhr_request_started s.1 s.2 method url body t r text HX Ht G') as (w1 & Hp & E).
  rewrite E, saveRequest_log, Hc, Hl.
  match goal with |- context [buildRequestData s.1 w1 ?ty ?d] =>
    destruct (buildRequestData_fields s.1 w1 ty d)
      as (props & Hr & _ & Hty & Hme & Hu & Hrq & Hrh & Hst & Hrs & Hrsh & Hts & Hd & Hpa
          & Hdu & Hin)
  end.
  rewrite Hr. exists props. rewrite Hc in *.
  cbn [data_method data_url data_body data_headers data_status data_responseText
       data_responseHeaders data_duration truthy] in *.
  assert (clock w1 = t) as Hc1 by (now rewrite (same_page_clock _ _ Hp)).
  assert (parseURL w1 url = parseURL w0 url) as Hu1.
  { rewrite (parseURL_same_page _ _ _ Hp). unfold parseURL. cbn [location set_clock].
    now rewrite Hloc. }
  rewrite Hc1, Hu1, Hclock, ?andb_false_r in *.
  now repeat split.
Qed.

(** The method a [fetch] call is recorded with: [init?.method || 'GET']. *)
Definition fetch_method (init : FetchInit) : string :=
  match init_method init with
  | Some s => if JsString.nonEmpty s then s else "GET"
  | None => "GET"
  end.

(** One call through the wrappers that [start] puts on the native [fetch],
    when the gate passes. *)
Lemma fetch_request_started m w url init t r :
  fetch w = ListenedFetch (InterceptedFetch NativeFetch) -> gate m w url = true ->
  exists w1,
    same_page (set_clock t w) w1
    /\ fetch_request m w url init (Some (t, r))
       = saveRequest m
           (buildRequestData m w1 "fetch"
              {| data_method := VStr (fetch_method init);
                 data_url := url;
                 data_body := init_body init;
                 data_headers := init_headers init;
                 data_status := VNum (response_status_code r);
                 data_responseText := VStr (response_text r);
                 data_responseHeaders := parseHeaders (Some (response_headers_entries r));
                 data_duration := VNum (response_time r - clock w) |}).2
           (buildRequestData m w1 "fetch"
              {| data_method := VStr (fetch_method init);
                 data_url := url;
                 data_body := init_body init;
                 data_headers := init_headers init;
                 data_status := VNum (response_status_code r);
                 data_responseText := VStr (response_text r);
                 data_responseHeaders := parseHeaders (Some (response_headers_entries r));
                 data_duration := VNum (response_time r - clock w) |}).1.
Proof.
  intros HF G. unfold fetch_request. rewrite HF. cbn [fetch_call].
  fold (fetch_method init).
  set (wf := log m (LogFetch (fetch_method init) url)
               (log m (LogGlobalFetch (fetch_method init) url) w)).
  assert (same_page w wf) as Hwf by (eapply same_page_trans; apply same_page_log).
  rewrite (hasAllowedDomain_same_page m w wf url Hwf).
  change (JsString.nonEmpty url && hasTargetPath m url && hasAllowedDomain m w url)
    with (gate m w url).
  rewrite G. cbn [fetch_resolve]. unfold fetch_then. fold (fetch_method init).
  cbn [clock set_clock].
  match goal with |- context [buildRequestData m (set_clock t ?w') _ _] => set (wl := w') end.
  assert (same_page w wl) as Hwl.
  { subst wl. repeat (eapply same_page_trans; [| apply same_page_log]).
    first [exact Hwf | apply same_page_refl]. }
  exists (set_clock t wl). split.
  - unfold same_page in *. rewrite Hwl at 1. reflexivity.
  - now destruct (buildRequestData m (set_clock t wl) "fetch" _).
Qed.

(** The record of a [fetch] exchange, likewise. The method is the one of the
    [init] argument, and [GET] without one; the request headers are those of
    [init] when it has any; the response headers are always there behind
    their toggle, as the object [parseHeaders] makes of them. The time of the
    record is the time [t] at which the text of the response has arrived,
    and its duration runs from the call to the time at which the response
    itself did, which is earlier. *)
Theorem fetch_record_fields (m0 : APIMonitor) (w0 : Window) (url : string) (init : FetchInit)
    (t : Z) (r : FetchResponse) :
  isMonitoring m0 = false -> fetch w0 = NativeFetch -> gate m0 w0 url = true ->
  let s := start m0 w0 in
  let toggle := captureFields (config m0) in
  let given (c : bool) (v : jsval) := if c then Some v else None in
  exists props,
    capturedRequests (fetch_request s.1 s.2 url init (Some (t, r))).1
      = trim (maxStoredRequests (config m0)) (capturedRequests m0 ++ [VObj props])
    /\ get_property "type" props = Some (VStr "fetch")
    /\ get_property "method" props
       = given (toggle request_method)
           (VStr match init_method init with
                 | Some s => if JsString.nonEmpty s then s else "GET"
                 | None => "GET"
                 end)
    /\ get_property "url" props = given (toggle request_url) (VStr url)
    /\ get_property "request" props = given (toggle request_payload) (parseData (init_body init))
    /\ get_property "requestHeaders" props
       = given (toggle request_headers && truthy (init_headers init)) (init_headers init)
    /\ get_property "status" props
       = given (toggle response_status) (VNum (response_status_code r))
    /\ get_property "response" props
       = given (toggle response_body) (parseData (VStr (response_text r)))
    /\ get_property "responseHeaders" props
       = given (toggle response_headers) (parseHeaders (Some (response_headers_entries r)))
    /\ get_property "timestamp" props
       = given (toggle metadata_timestamp) (VStr (Date_toISOString t))
    /\ get_property "domain" props
       = given (toggle metadata_domain) (VStr (domain (parseURL w0 url)))
    /\ get_property "path" props = given (toggle metadata_path) (VStr (path (parseURL w0 url)))
    /\ get_property "duration" props
       = given (toggle metadata_duration) (VNum (response_time r - clock w0))
    /\ get_property "initiator" props = given (toggle metadata_initiator) (VStr "fetch").
Proof.
  intros Hm Hf G s toggle given.
  destruct (start_spec m0 w0 Hm) as (Hc & Hl & _ & _ & HF & _ & Hloc & _).
  destruct (start_page m0 w0 Hm) as (Hclock & _).
  fold s in Hc, Hl, HF, Hloc, Hclock. rewrite Hf in HF.
  assert (gate s.1 s.2 url = true) as G' by (now rewrite (gate_config m0 s.1 w0 s.2 url Hc Hloc)).
  destruct (fetch_request_started s.1 s.2 url init t r HF G') as (w1 & Hp & E).
  rewrite E, saveRequest_log, Hc, Hl.
  match goal with |- context [buildRequestData s.1 w1 ?ty ?d] =>
    destruct (buildRequestData_fields s.1 w1 ty d)
      as (props & Hr & _ & Hty & Hme & Hu & Hrq & Hrh & Hst & Hrs & Hrsh & Hts & Hd & Hpa
          & Hdu & Hin)
  end.
  rewrite Hr. exists props. rewrite Hc in *.
  cbn [data_method data_url data_body data_headers data_status data_responseText
       data_responseHeaders data_duration] in *.
  assert (clock w1 = t) as Hc1 by (now rewrite (same_page_clock _ _ Hp)).
  assert (parseURL w1 url = parseURL w0 url) as Hu1.
  { rewrite (parseURL_same_page _ _ _ Hp). unfold parseURL. cbn [location set_clock].
    now rewrite Hloc. }
  assert (truthy (parseHeaders (Some (response_headers_entries r))) = true) as Hth by reflexivity.
  rewrite Hc1, Hu1, Hclock, ?Hth, ?andb_true_r in *. unfold fetch_method in *.
  now repeat split.
Qed.

(** ** Headers *)

(** The value last given for a name among the entries. *)
Fixpoint last_value (k : string) (entries : list (string * string)) : option string :=
  match entries with
  | [] => None
  | (k', v) :: rest =>
      match last_value k rest with
      | Some v' => Some v'
      | None => if String.eqb k' k then Some v else None
      end
  end.

Lemma get_property_set_property k k' v props :
  get_property k (set_property k' v props)
  = if String.eqb k' k then Some v else get_property k props.
Proof.
  induction props as [|[k0 v0] props IH]; cbn [set_property get_property].
  - reflexivity.
  - destruct (String.eqb_spec k0 k') as [->|Hne]; cbn [get_property].
    + now destruct (String.eqb k' k).
    + rewrite IH. destruct (String.eqb_spec k0 k) as [->|Hne']; [| reflexivity].
      destruct (String.eqb_spec k' k) as [->|]; [now elim Hne | reflexivity].
Qed.

Lemma set_property_names k v props :
  List.map fst (set_property k v props)
  = if existsb (String.eqb k) (List.map fst props) then List.map fst props
    else List.map fst props ++ [k].
Proof.
  induction props as [|[k0 v0] props IH]; cbn [set_property List.map fst existsb app].
  - reflexivity.
  - destruct (String.eqb_spec k0 k) as [->|Hne].
    + now rewrite String.eqb_refl.
    + cbn [List.map fst]. rewrite IH.
      destruct (String.eqb_spec k k0) as [->|_]; [now elim Hne |].
      cbn [orb]. now destruct (existsb _ _).
Qed.

Lemma set_property_NoDup k v props :
  NoDup (List.map fst props) -> NoDup (List.map fst (set_property k v props)).
Proof.
  intros Hnd. rewrite set_property_names.
  destruct (existsb _ _) eqn:E; [exact Hnd |].
  apply NoDup_app. split; [exact Hnd |]. split; [| apply NoDup_singleton].
  intros x Hx ->%list_elem_of_singleton.
  apply not_true_iff_false in E. apply E, existsb_exists.
  exists k. split; [now apply list_elem_of_In | apply String.eqb_refl].
Qed.

(** [parseHeaders]: an object with one property for every name among the
    entries but [__proto__], holding the value last given for that name; an
    entry named [__proto__] makes no property. An argument that is falsy or
    has no [forEach] gives the empty object. *)
Theorem parseHeaders_last_value_wins (entries : list (string * string)) :
  exists props,
    parseHeaders (Some entries) = VObj props
    /\ NoDup (List.map fst props)
    /\ (forall k, get_property k props
                  = if String.eqb k "__proto__" then None else VStr <$> last_value k entries)
    /\ parseHeaders None = VObj [].
Proof.
  unfold parseHeaders. eexists. split; [reflexivity |].
  assert (forall acc,
            NoDup (List.map fst acc) ->
            NoDup (List.map fst
                     (fold_left (fun result '(key, value) => assign key value result)
                        entries acc))
            /\ forall k,
                 get_property k
                   (fold_left (fun result '(key, value) => assign key value result)
                      entries acc)
                 = match last_value k entries with
                   | Some v => if String.eqb k "__proto__" then get_property k acc
                               else Some (VStr v)
                   | None => get_property k acc
                   end) as H.
  { induction entries as [|[k0 v0] entries IH]; intros acc Hnd; cbn [fold_left last_value].
    - now split.
    - assert (NoDup (List.map fst (assign k0 v0 acc))) as Hnd'.
      { unfold assign. destruct (String.eqb k0 "__proto__"); [exact Hnd |].
        now apply set_property_NoDup. }
      destruct (IH (assign k0 v0 acc) Hnd') as [Hn Hg].
      split; [exact Hn |]. intros k. rewrite Hg.
      assert (get_property k (assign k0 v0 acc)
              = if String.eqb k0 k && negb (String.eqb k "__proto__")
                then Some (VStr v0) else get_property k acc) as Ha.
      { unfold assign. destruct (String.eqb_spec k0 "__proto__") as [->|Hne].
        - destruct (String.eqb_spec "__proto__" k) as [<-|_]; reflexivity.
        - rewrite get_property_set_property.
          destruct (String.eqb_spec k0 k) as [<-|_]; [| reflexivity].
          destruct (String.eqb_spec k0 "__proto__") as [E|_]; [now elim Hne | reflexivity]. }
      rewrite Ha. destruct (last_value k entries).
      + destruct (String.eqb k "__proto__"); [| reflexivity].
        now rewrite andb_false_r.
      + destruct (String.eqb k0 k); [| reflexivity].
        now destruct (String.eqb k "__proto__"). }
  destruct (H [] (NoDup_nil_2 (A:=string))) as [Hn Hg]. split; [exact Hn |]. split; [| reflexivity].
  intros k. rewrite Hg. cbn [get_property].
  destruct (last_value k entries); now destruct (String.eqb k "__proto__").
Qed.

(** ** After [stop()] *)

(** [stop()] drops the observers and clears the running flag, and that is
    all: the wrappers stay on the page and do not look at the flag. A request
    on a request object of its own that passes the gate after [stop()] is
    recorded as before. *)
Theorem stop_keeps_recording (m0 : APIMonitor) (w0 : Window) (method url : string)
    (body : jsval) (t : Z) (r : XHRResponse) (text : string) :
  isMonitoring m0 = false -> XMLHttpRequest w0 = NativeXHR -> responseText r = Some text ->
  gate m0 w0 url = true ->
  let s1 := start m0 w0 in
  let s2 := stop s1.1 s1.2 in
  isMonitoring s2.1 = false
  /\ observers s2.1 = []
  /\ XMLHttpRequest s2.2 = XMLHttpRequest s1.2
  /\ fetch s2.2 = fetch s1.2
  /\ createElement s2.2 = createElement s1.2
  /\ exists record,
       dispatched (xhr_request s2.1 s2.2 method url body (Some (t, r))).2
         = dispatched s2.2 ++ [(eventType "requestCaptured", record)]
       /\ capturedRequests (xhr_request s2.1 s2.2 method url body (Some (t, r))).1
         = trim (maxStoredRequests (config m0)) (capturedRequests m0 ++ [record]).
Proof.
  intros Hm Hx Ht G s1 s2.
  destruct (start_spec m0 w0 Hm) as (Hc1 & Hl1 & Hr1 & HX1 & _ & _ & Hloc1 & _).
  fold s1 in Hc1, Hl1, Hr1, HX1, Hloc1.
  destruct (stop_spec s1.1 s1.2 Hr1) as (Hc2 & Hl2 & Hr2 & Ho2 & Hp2).
  fold s2 in Hc2, Hl2, Hr2, Ho2, Hp2.
  assert (XMLHttpRequest s2.2 = XMLHttpRequest s1.2) as HX2 by (now rewrite Hp2).
  split; [exact Hr2 |]. split; [exact Ho2 |]. split; [exact HX2 |].
  split; [now rewrite Hp2 |]. split; [now rewrite Hp2 |].
  destruct (xhr_request_commits s2.1 s2.2 method url body t r text Ht)
    as (records & Hn & Hlog & Hd).
  rewrite (gate_config m0 s2.1 w0 s2.2 url) in Hn
    by (rewrite ?Hc2, ?(same_page_location _ _ Hp2); assumption).
  rewrite G, HX2, HX1, Hx in Hn. cbn [recording] in Hn.
  destruct records as [|record [|]]; try discriminate.
  exists record. split; [exact Hd |]. now rewrite Hlog, Hc2, Hc1, Hl2, Hl1.
Qed.

(** ** Exchanges that do not complete *)

Lemma xhr_load_unreadable xhr r :
  responseText r = None ->
  forall n m w, (xhr_load n m w xhr r).1 = m /\ same_page w (xhr_load n m w xhr r).2.
Proof.
  intros Hr. induction n as [|n IH]; intros m w; cbn [xhr_load].
  - split; [reflexivity | apply same_page_refl].
  - unfold xhr_onload. rewrite Hr.
    destruct (IH m (log m LogXHRError w)) as [Hm Hp]. split; [exact Hm |].
    eapply same_page_trans; [apply same_page_log | exact Hp].
Qed.

(** Only the [load] of a request and the resolution of a [fetch] are
    listened for. A request that ends without [load] (an error, an abort, a
    timeout), a [fetch] that never resolves, and a request whose response
    text cannot be read leave the monitor as it was, and the page too but for
    lines on the console. *)
Theorem incomplete_exchange_not_recorded (m : APIMonitor) (w : Window) :
  (forall method url body,
     (xhr_request m w method url body None).1 = m
     /\ same_page w (xhr_request m w method url body None).2)
  /\ (forall url init,
        (fetch_request m w url init None).1 = m
        /\ same_page w (fetch_request m w url init None).2)
  /\ (forall method url body t r, responseText r = None ->
        (xhr_request m w method url body (Some (t, r))).1 = m
        /\ same_page (set_clock t w) (xhr_request m w method url body (Some (t, r))).2).
Proof.
  split; [| split].
  - intros method url body. unfold xhr_request, xhr_exchange.
    match goal with |- context [xhr_open ?c m w ?x0 method url] =>
      destruct (xhr_open_spec c m method url w x0) as (x1 & w1 & E1 & Hp1 & _) end.
    rewrite E1.
    destruct (xhr_send_spec (XMLHttpRequest w) m body w1 x1) as (x2 & w2 & E2 & Hp2 & _).
    rewrite E2. split; [reflexivity |]. eapply same_page_trans; eassumption.
  - intros url init. unfold fetch_request.
    destruct (fetch_call_spec (fetch w) m url init w) as (n & w' & E & Hp & _).
    rewrite E. now split.
  - intros method url body t r Hr. unfold xhr_request, xhr_exchange.
    match goal with |- context [xhr_open ?c m w ?x0 method url] =>
      destruct (xhr_open_spec c m method url w x0) as (x1 & w1 & E1 & Hp1 & _) end.
    rewrite E1.
    destruct (xhr_send_spec (XMLHttpRequest w) m body w1 x1) as (x2 & w2 & E2 & Hp2 & _).
    rewrite E2. cbn [snd].
    destruct (xhr_load_unreadable x2 r Hr (onload x2) m (set_clock t w2)) as [Hm Hp].
    split; [exact Hm |]. eapply same_page_trans; [| exact Hp].
    assert (same_page w w2) as H12 by (eapply same_page_trans; eassumption).
    unfold same_page in *. rewrite H12 at 1. reflexivity.
Qed.

(** ** A negative capacity *)

(** Below zero the test [length > maxStoredRequests] always passes and
    [slice(-maxStoredRequests)] drops from the front: every insert drops the
    [-maxStoredRequests] oldest records of the log with the new one at its
    end, and leaves the log empty while it is no longer than that; the event
    is dispatched all the same. *)
Theorem negative_capacity_drops_oldest (m : APIMonitor) (w : Window) (data : jsval) :
  maxStoredRequests (config m) < 0 ->
  capturedRequests (saveRequest m w data).1
    = drop (Z.to_nat (- maxStoredRequests (config m))) (capturedRequests m ++ [data])
  /\ (Z.of_nat (length (capturedRequests m)) < - maxStoredRequests (config m) ->
      capturedRequests (saveRequest m w data).1 = [])
  /\ dispatched (saveRequest m w data).2
     = dispatched w ++ [(eventType "requestCaptured", detail_of data)].
Proof.
  intros Hneg.
  assert (capturedRequests (saveRequest m w data).1
          = drop (Z.to_nat (- maxStoredRequests (config m))) (capturedRequests m ++ [data]))
    as Hlog.
  { rewrite saveRequest_log. unfold trim, slice.
    replace (Z.of_nat (length (capturedRequests m ++ [data])) >? maxStoredRequests (config m))
      with true by (symmetry; apply Z.gtb_lt; lia).
    replace (- maxStoredRequests (config m) <? 0) with false by (symmetry; apply Z.ltb_ge; lia).
    destruct (Z.le_gt_cases (- maxStoredRequests (config m))
                (Z.of_nat (length (capturedRequests m ++ [data])))) as [Hle|Hgt].
    - now rewrite Z.min_l by exact Hle.
    - rewrite Z.min_r by lia. rewrite Nat2Z.id.
      rewrite !drop_ge; [reflexivity | lia | lia]. }
  split; [exact Hlog |]. split.
  - intros Hshort. rewrite Hlog. apply drop_ge. rewrite length_app. cbn [length]. lia.
  - apply saveRequest_dispatched.
Qed.

(** ** What the operations leave alone

    A relation between the page before and the page after that every
    elementary step of a monitor with the configuration [cfg] respects is
    respected by every operation of that monitor. *)

Section Frame.

Variable cfg : Config.
Variable R : Window -> Window -> Prop.

Hypothesis R_refl : forall w, R w w.
Hypothesis R_trans : forall w1 w2 w3, R w1 w2 -> R w2 w3 -> R w1 w3.
Hypothesis R_log : forall m line w, config m = cfg -> R w (log m line w).
Hypothesis R_draws : forall n w, R w (set_draws n w).
Hypothesis R_clock : forall t w, R w (set_clock t w).
Hypothesis R_document : forall d w, R w (set_document d w).
Hypothesis R_dispatched : forall d c w, R w (set_dispatched d c w).
Hypothesis R_downloads : forall d w, R w (set_downloads d w).
Hypothesis R_storage :
  forall text w, R w (set_localStorage (<[storageKey cfg := text]> (localStorage w)) w).
Hypothesis R_XMLHttpRequest : forall x w, R w (set_XMLHttpRequest x w).
Hypothesis R_fetch : forall f w, R w (set_fetch f w).
Hypothesis R_createElement : forall c w, R w (set_createElement c w).
Hypothesis R_timers : forall t w, R w (set_timers t w).

Lemma frame_buildRequestData m w type data :
  config m = cfg -> R w (buildRequestData m w type data).2.
Proof.
  intros Hc. rewrite buildRequestData_eq. cbn [snd].
  eapply R_trans; [| apply R_draws]. apply R_log; exact Hc.
Qed.

Lemma frame_saveToStorage m w : config m = cfg -> R w (saveToStorage m w).
Proof.
  intros Hc. rewrite saveToStorage_cases. destruct (storage_takes _ _ _).
  - rewrite Hc. apply R_storage.
  - apply R_log; exact Hc.
Qed.

Lemma frame_updateBadgeCount m w : R w (updateBadgeCount m w).
Proof.
  unfold updateBadgeCount. destruct (badge (document w)); [apply R_document | apply R_refl].
Qed.

Lemma frame_renderRequestList m w w' : renderRequestList m w = Some w' -> R w w'.
Proof.
  unfold renderRequestList. destruct (content (document w)).
  - destruct (existsb _ _); [discriminate |]. intros [= <-]. apply R_document.
  - intros [= <-]. apply R_refl.
Qed.

Lemma frame_saveRequest m w data :
  config m = cfg -> R w (saveRequest m w data).2.
Proof.
  intros Hc. unfold saveRequest. cbn [snd].
  eapply R_trans; [| apply R_log; exact Hc].
  unfold triggerEvent, dispatchEvent. eapply R_trans; [| apply R_dispatched].
  assert (R w (saveToStorage
                 (set_capturedRequests
                    (trim (maxStoredRequests (config (set_capturedRequests
                                                        (capturedRequests m ++ [data]) m)))
                       (capturedRequests (set_capturedRequests (capturedRequests m ++ [data]) m)))
                    (set_capturedRequests (capturedRequests m ++ [data]) m))
                 (log m (LogCaptured (length (capturedRequests m))) (log m (LogSave data) w))))
    as Hs.
  { eapply R_trans; [| apply frame_saveToStorage; exact Hc].
    eapply R_trans; apply R_log; exact Hc. }
  destruct (enableUI _); [| exact Hs].
  eapply R_trans; [exact Hs | apply frame_updateBadgeCount].
Qed.

Lemma frame_saveRequests ds : forall m w,
  config m = cfg -> R w (saveRequests m w ds).2.
Proof.
  induction ds as [|d ds IH]; intros m w Hc; cbn [saveRequests]; [apply R_refl |].
  pose proof (frame_saveRequest m w d Hc) as H1.
  pose proof (saveRequest_config m w d) as Hc1.
  destruct (saveRequest m w d) as [m1 w1]. cbn [fst snd] in H1, Hc1.
  eapply R_trans; [exact H1 | apply IH; congruence].
Qed.

Lemma frame_clear m w s : config m = cfg -> clear m w = Some s -> R w s.2.
Proof.
  intros Hc. destruct (clear_returns m w) as (w1 & -> & Hw1). intros [= <-]. cbn [snd].
  unfold triggerEvent, dispatchEvent. eapply R_trans; [| apply R_dispatched].
  rewrite Hw1. eapply R_trans; [| apply R_document].
  apply frame_saveToStorage. exact Hc.
Qed.

Lemma frame_download m w filename : config m = cfg -> R w (download m w filename).
Proof.
  intros Hc. unfold download.
  destruct (Nat.eqb _ _); [apply R_log; exact Hc |].
  destruct (body (document w)); [| apply R_log; exact Hc].
  eapply R_trans; [apply R_downloads | apply R_log; exact Hc].
Qed.

Lemma frame_createPanel m w : config m = cfg -> R w (createPanel m w).
Proof.
  intros Hc. unfold createPanel, setTimeout.
  destruct (negb _); [eapply R_trans; [apply R_log; exact Hc | apply R_timers] |].
  destruct (content (document w)); [apply R_log; exact Hc | apply R_document].
Qed.

Lemma frame_createUI m w w' : config m = cfg -> createUI m w = Some w' -> R w w'.
Proof.
  intros Hc. unfold createUI, setTimeout.
  destruct (negb _).
  { intros [= <-]. eapply R_trans; [apply R_log; exact Hc | apply R_timers]. }
  destruct (badge (document w)); [intros [= <-]; apply R_log; exact Hc |].
  intros H. eapply R_trans; [| eapply frame_renderRequestList; exact H].
  eapply R_trans; [apply R_document | apply frame_createPanel; exact Hc].
Qed.

Lemma frame_fire_timer m w w' : config m = cfg -> fire_timer m w = Some w' -> R w w'.
Proof.
  intros Hc. unfold fire_timer. destruct (timers w) as [|[due callback] rest].
  { intros [= <-]. apply R_refl. }
  assert (R w (set_timers rest (set_clock (Z.max (clock w) due) w))) as H
    by (eapply R_trans; [apply R_clock | apply R_timers]).
  destruct callback.
  - intros H'. eapply R_trans; [exact H | eapply frame_createUI; eassumption].
  - intros [= <-]. eapply R_trans; [exact H | apply frame_createPanel; exact Hc].
Qed.

Lemma frame_stop m w : config m = cfg -> R w (stop m w).2.
Proof.
  intros Hc. unfold stop. destruct (negb _); cbn [snd]; apply R_log; exact Hc.
Qed.

Lemma frame_xhr_open c m method url :
  config m = cfg -> forall w xhr, R w (xhr_open c m w xhr method url).2.
Proof.
  intros Hc. induction c as [| c IH | c IH]; intros w xhr; cbn [xhr_open].
  - apply R_refl.
  - eapply R_trans; [| apply IH]. apply R_log; exact Hc.
  - eapply R_trans; [| apply IH]. apply R_log; exact Hc.
Qed.

Lemma frame_xhr_send c m body :
  config m = cfg -> forall w xhr, R w (xhr_send c m w xhr body).2.
Proof.
  intros Hc. induction c as [| c IH | c IH]; intros w xhr; cbn [xhr_send].
  - apply R_refl.
  - destruct (_ && _ && _).
    + eapply R_trans; [| apply IH].
      repeat (eapply R_trans; [| apply R_log; exact Hc]). apply R_refl.
    + eapply R_trans; [| apply IH].
      repeat (eapply R_trans; [| apply R_log; exact Hc]). apply R_refl.
  - apply IH.
Qed.

Lemma frame_xhr_onload m w xhr r :
  config m = cfg ->
  R w (xhr_onload m w xhr r).2 /\ config (xhr_onload m w xhr r).1 = cfg.
Proof.
  intros Hc. unfold xhr_onload. destruct (responseText r) as [text|].
  - match goal with |- context [buildRequestData m w ?ty ?d] =>
      pose proof (frame_buildRequestData m w ty d Hc) as Hb;
      destruct (buildRequestData m w ty d) as [record w1] end.
    cbn [snd] in Hb. split; [| now rewrite saveRequest_config].
    eapply R_trans; [exact Hb | apply frame_saveRequest; exact Hc].
  - cbn [fst snd]. split; [apply R_log; exact Hc | exact Hc].
Qed.

Lemma frame_xhr_load xhr r : forall n m w,
  config m = cfg -> R w (xhr_load n m w xhr r).2.
Proof.
  induction n as [|n IH]; intros m w Hc; cbn [xhr_load]; [apply R_refl |].
  destruct (frame_xhr_onload m w xhr r Hc) as [H1 Hc1].
  destruct (xhr_onload m w xhr r) as [m1 w1]. cbn [fst snd] in H1, Hc1.
  eapply R_trans; [exact H1 | apply IH; exact Hc1].
Qed.

Lemma frame_xhr_exchange c m w xhr method url body completion :
  config m = cfg -> R w (xhr_exchange c m w xhr method url body completion).2.2.
Proof.
  intros Hc. unfold xhr_exchange.
  pose proof (frame_xhr_open c m method url Hc w xhr) as H1.
  destruct (xhr_open c m w xhr method url) as [x1 w1]. cbn [snd] in H1.
  pose proof (frame_xhr_send c m body Hc w1 x1) as H2.
  destruct (xhr_send c m w1 x1 body) as [x2 w2]. cbn [snd] in H2.
  destruct completion as [[t r]|]; cbn [snd].
  - eapply R_trans; [exact H1 |]. eapply R_trans; [exact H2 |].
    eapply R_trans; [apply R_clock | apply frame_xhr_load; exact Hc].
  - eapply R_trans; eassumption.
Qed.

Lemma frame_xhr_request m w method url body completion :
  config m = cfg -> R w (xhr_request m w method url body completion).2.
Proof. intros Hc. unfold xhr_request. now apply frame_xhr_exchange. Qed.

Lemma frame_fetch_call f m url init :
  config m = cfg -> forall w, R w (fetch_call f m w url init).2.
Proof.
  intros Hc. induction f as [| f IH | f IH]; intros w; cbn [fetch_call].
  - apply R_refl.
  - destruct (_ && _ && _).
    + match goal with |- context [fetch_call f m ?w' url init] =>
        pose proof (IH w') as H1; destruct (fetch_call f m w' url init) as [n w1] end.
      cbn [snd] in *. eapply R_trans; [| exact H1].
      repeat (eapply R_trans; [| apply R_log; exact Hc]). apply R_refl.
    + eapply R_trans; [| apply IH].
      repeat (eapply R_trans; [| apply R_log; exact Hc]). apply R_refl.
  - eapply R_trans; [| apply IH]. apply R_log; exact Hc.
Qed.

Lemma frame_fetch_resolve url init startTime r : forall n m w,
  config m = cfg -> R w (fetch_resolve n m w url init startTime r).2.
Proof.
  induction n as [|n IH]; intros m w Hc; cbn [fetch_resolve]; [apply R_refl |].
  unfold fetch_then.
  match goal with |- context [buildRequestData m w ?ty ?d] =>
    pose proof (frame_buildRequestData m w ty d Hc) as Hb;
    destruct (buildRequestData m w ty d) as [record w1] end.
  cbn [snd] in Hb.
  pose proof (frame_saveRequest m w1 record Hc) as Hs.
  pose proof (saveRequest_config m w1 record) as Hc1.
  destruct (saveRequest m w1 record) as [m2 w2]. cbn [fst snd] in Hs, Hc1.
  eapply R_trans; [exact Hb |]. eapply R_trans; [exact Hs | apply IH; congruence].
Qed.

Lemma frame_fetch_request m w url init completion :
  config m = cfg -> R w (fetch_request m w url init completion).2.
Proof.
  intros Hc. unfold fetch_request.
  pose proof (frame_fetch_call (fetch w) m url init Hc w) as H1.
  destruct (fetch_call (fetch w) m w url init) as [n w1]. cbn [snd] in H1.
  destruct completion as [[t r]|]; [| exact H1].
  eapply R_trans; [exact H1 |].
  eapply R_trans; [apply R_clock | apply frame_fetch_resolve; exact Hc].
Qed.

Lemma frame_script_load : forall ls m w,
  config m = cfg -> R w (script_load ls m w).2.
Proof.
  induction ls as [|l ls IH]; intros m w Hc; cbn [script_load]; [apply R_refl |].
  unfold script_onload.
  match goal with |- context [buildRequestData m w ?ty ?d] =>
    pose proof (frame_buildRequestData m w ty d Hc) as Hb;
    destruct (buildRequestData m w ty d) as [record w1] end.
  cbn [snd] in Hb.
  pose proof (frame_saveRequest m w1 record Hc) as Hs.
  pose proof (saveRequest_config m w1 record) as Hc1.
  destruct (saveRequest m w1 record) as [m2 w2]. cbn [fst snd] in Hs, Hc1.
  eapply R_trans; [exact Hb |]. eapply R_trans; [exact Hs | apply IH; congruence].
Qed.

Lemma frame_script_request m w originalSrc how value src completion m' w' lines :
  config m = cfg ->
  script_request m w originalSrc how value src completion = Some (m', w', lines) ->
  R w w'.
Proof.
  intros Hc. unfold script_request.
  destruct (createElement_call _ _ _ _) as [element|]; [| discriminate].
  destruct (match how with
            | BySetAttribute => _
            | ByProperty => _
            end) as [element1 lines1].
  destruct (mutation _ _ _ _ _) as [element2 lines2].
  destruct completion as [t|].
  - pose proof (frame_script_load (load_listeners element2) m (set_clock t w) Hc) as H.
    destruct (script_load _ _ _) as [m2 w2]. intros [= <- <- <-].
    eapply R_trans; [apply R_clock | exact H].
  - intros [= <- <- <-]. apply R_refl.
Qed.

Lemma frame_interceptXHR m w : config m = cfg -> R w (interceptXHR m w).
Proof.
  intros Hc. unfold interceptXHR. eapply R_trans; [| apply R_XMLHttpRequest].
  apply R_log; exact Hc.
Qed.

Lemma frame_interceptFetch m w : config m = cfg -> R w (interceptFetch m w).
Proof.
  intros Hc. unfold interceptFetch. eapply R_trans; [| apply R_fetch].
  apply R_log; exact Hc.
Qed.

Lemma frame_setupPerformanceObserver m w :
  config m = cfg ->
  R w (setupPerformanceObserver m w).2 /\ config (setupPerformanceObserver m w).1 = cfg.
Proof.
  intros Hc. unfold setupPerformanceObserver. destruct (hasPerformanceObserver w); cbn [fst snd].
  - split; [apply R_log |]; exact Hc.
  - split; [apply R_refl | exact Hc].
Qed.

Lemma frame_interceptJSONP m w : config m = cfg -> R w (interceptJSONP m w).
Proof.
  intros Hc. unfold interceptJSONP. eapply R_trans; [| apply R_createElement].
  apply R_log; exact Hc.
Qed.

Lemma frame_interceptScriptTags m w :
  config m = cfg ->
  R w (interceptScriptTags m w).2 /\ config (interceptScriptTags m w).1 = cfg.
Proof.
  intros Hc. unfold interceptScriptTags. cbn [fst snd]. split; [apply R_log |]; exact Hc.
Qed.

Lemma frame_interceptAllNetworkRequests m w :
  config m = cfg ->
  R w (interceptAllNetworkRequests m w).2 /\ config (interceptAllNetworkRequests m w).1 = cfg.
Proof.
  intros Hc. unfold interceptAllNetworkRequests.
  assert (R w (set_XMLHttpRequest
                 (ListenedXHR
                    (XMLHttpRequest
                       (set_fetch (ListenedFetch (fetch (log m LogInterceptAll w)))
                          (log m LogInterceptAll w))))
                 (set_fetch (ListenedFetch (fetch (log m LogInterceptAll w)))
                    (log m LogInterceptAll w)))) as H.
  { eapply R_trans; [| apply R_XMLHttpRequest]. eapply R_trans; [| apply R_fetch].
    apply R_log; exact Hc. }
  destruct (hasPerformanceObserver _); cbn [fst snd]; split; assumption.
Qed.

Lemma frame_start m w : config m = cfg -> R w (start m w).2.
Proof.
  intros Hc. unfold start. destruct (isMonitoring m); cbn [snd]; [apply R_log; exact Hc |].
  pose proof (frame_interceptXHR m w Hc) as H1.
  pose proof (frame_interceptFetch m (interceptXHR m w) Hc) as H2.
  destruct (frame_setupPerformanceObserver m (interceptFetch m (interceptXHR m w)) Hc)
    as [H3 Hc3].
  destruct (setupPerformanceObserver m _) as [m3 w3]. cbn [fst snd] in H3, Hc3.
  pose proof (frame_interceptJSONP m3 w3 Hc3) as H4.
  destruct (frame_interceptScriptTags m3 (interceptJSONP m3 w3) Hc3) as [H5 Hc5].
  destruct (interceptScriptTags m3 _) as [m5 w5]. cbn [fst snd] in H5, Hc5.
  destruct (frame_interceptAllNetworkRequests m5 w5 Hc5) as [H6 Hc6].
  destruct (interceptAllNetworkRequests m5 w5) as [m6 w6]. cbn [fst snd] in H6, Hc6 |- *.
  eapply R_trans; [| apply R_log; exact Hc6].
  eapply R_trans; [| exact H6]. eapply R_trans; [| exact H5]. eapply R_trans; [| exact H4].
  eapply R_trans; [| exact H3]. eapply R_trans; [exact H1 | exact H2].
Qed.

Lemma frame_init m w s : config m = cfg -> init m w = Some s -> R w s.2.
Proof.
  intros Hc. unfold init.
  set (w3 := log m (LogAllowedDomains _) (log m (LogTargetPaths _) (log m LogInit w))).
  assert (R w w3) as H3.
  { subst w3. repeat (eapply R_trans; [| apply R_log; exact Hc]). apply R_refl. }
  assert (exists m1 w4,
            (if autoStart (config m) then start m w3 else (m, w3)) = (m1, w4)
            /\ config m1 = cfg /\ R w w4) as (m1 & w4 & -> & Hc1 & H4).
  { destruct (autoStart (config m)).
    - pose proof (frame_start m w3 Hc) as Hs.
      destruct (start_log_config m w3) as [_ Hc'].
      destruct (start m w3) as [m1 w4]. cbn [fst snd] in *.
      exists m1, w4. split; [reflexivity |]. split; [congruence |].
      eapply R_trans; eassumption.
    - now exists m, w3. }
  destruct (enableUI (config m1)).
  - destruct (createUI m1 w4) as [w5|] eqn:E; [| discriminate].
    intros [= <-]. cbn [snd]. eapply R_trans; [exact H4 | eapply frame_createUI; eassumption].
  - intros [= <-]. exact H4.
Qed.

Lemma frame_loadFromStorage m w m1 w1 :
  config m = cfg -> loadFromStorage m w = Some (m1, w1) -> config m1 = cfg /\ R w w1.
Proof.
  intros Hc. unfold loadFromStorage.
  destruct (getItem _ w) as [[stored|]|].
  - destruct (JsString.nonEmpty stored).
    + destruct (JSON_parse stored) as [[| | | | | |records| |]|]; try discriminate;
        intros [= <- <-]; (split; [exact Hc |]); [apply R_refl | now apply R_log].
    + intros [= <- <-]. split; [exact Hc | apply R_refl].
  - intros [= <- <-]. split; [exact Hc | apply R_refl].
  - intros [= <- <-]. split; [exact Hc | now apply R_log].
Qed.

Lemma frame_constructor userConfig w m' w' :
  mergeConfig DEFAULT_CONFIG userConfig = cfg ->
  constructor userConfig w = Some (m', w') -> R w w'.
Proof.
  intros Hc. unfold constructor.
  destruct (loadFromStorage _ w) as [[m1 w1]|] eqn:E; [| discriminate].
  match type of E with loadFromStorage ?m0 w = _ =>
    destruct (frame_loadFromStorage m0 w m1 w1 Hc E) as [Hc1 H1] end.
  intros H. eapply R_trans; [exact H1 |]. apply (frame_init m1 w1 (m', w') Hc1 H).
Qed.

End Frame.

(** With [enableLog] off the script channels write no line. *)
Lemma say_disabled m lines : enableLog (config m) = false -> say m lines = [].
Proof. unfold say. now intros ->. Qed.

Lemma script_request_lines_disabled m w originalSrc how value src completion m' w' lines :
  enableLog (config m) = false ->
  script_request m w originalSrc how value src completion = Some (m', w', lines) ->
  lines = [].
Proof.
  intros Hoff. unfold script_request.
  destruct (createElement_call _ _ _) as [element|]; [| discriminate].
  assert (forall e v, (jsonp_src m w e v).2 = []) as Hj.
  { intros e v. unfold jsonp_src. destruct (_ && _); cbn [snd]; now apply say_disabled. }
  assert (forall n e name v, (script_setAttribute n m w e name v).2 = []) as Hs.
  { induction n as [|n IH]; intros e name v; cbn [script_setAttribute]; [reflexivity |].
    destruct (String.eqb name "src").
    - pose proof (Hj e v) as H1. destruct (jsonp_src m w e v) as [e1 l1].
      pose proof (IH e1 name v) as H2. destruct (script_setAttribute n m w e1 name v) as [e2 l2].
      cbn [snd] in *. now subst.
    - pose proof (IH e name v) as H2. destruct (script_setAttribute n m w e name v) as [e2 l2].
      cbn [snd] in *. now subst. }
  assert (forall obs e s, (mutation obs m w e s).2 = []) as Hm.
  { induction obs as [|o obs IH]; intros e s; cbn [mutation]; [reflexivity |].
    destruct o; try apply IH.
    assert ((script_added m w e s).2 = []) as H1.
    { unfold script_added. destruct (String.eqb _ _); [| reflexivity].
      destruct (JsString.nonEmpty s); [| reflexivity].
      destruct (_ && _); cbn [snd]; now apply say_disabled. }
    destruct (script_added m w e s) as [e1 l1].
    pose proof (IH e1 s) as H2. destruct (mutation obs m w e1 s) as [e2 l2].
    cbn [snd] in *. now subst. }
  assert ((match how with
           | BySetAttribute =>
               script_setAttribute (setAttribute_wrappers element) m w element "src" value
           | ByProperty => script_set_src m w element value
           end).2 = []) as H1.
  { destruct how; [apply Hs |]. unfold script_set_src.
    destruct (src_accessor element); [apply Hj | reflexivity]. }
  destruct (match how with
            | BySetAttribute => _
            | ByProperty => _
            end) as [element1 lines1].
  pose proof (Hm (observers m) element1 src) as H2.
  destruct (mutation _ _ _ _ _) as [element2 lines2]. cbn [snd] in *. subst.
  destruct completion as [t|]; [destruct (script_load _ _ _) |]; now intros [= _ _ <-].
Qed.

(** With [enableLog] off the monitor writes nothing on the console, whatever
    it is asked to do and whatever the page requests. *)
Theorem nothing_logged_when_log_disabled (m : APIMonitor) (w : Window) :
  enableLog (config m) = false ->
  console (start m w).2 = console w
  /\ console (stop m w).2 = console w
  /\ (forall method url body completion,
        console (xhr_request m w method url body completion).2 = console w)
  /\ (forall url init completion,
        console (fetch_request m w url init completion).2 = console w)
  /\ (forall completions, console (saveRequests m w completions).2 = console w)
  /\ (exists s, clear m w = Some s /\ console s.2 = console w)
  /\ (forall filename, console (download m w filename) = console w)
  /\ (forall w', createUI m w = Some w' -> console w' = console w)
  /\ (forall originalSrc how value src completion m' w' lines,
        script_request m w originalSrc how value src completion = Some (m', w', lines) ->
        console w' = console w /\ lines = []).
Proof.
  intros Hoff.
  assert (forall (m' : APIMonitor) (line : LogLine) (w' : Window),
            config m' = config m -> console (log m' line w') = console w') as Hlog.
  { intros m' line w' Hc. unfold log. now rewrite Hc, Hoff. }
  assert (forall w1 w2 w3 : Window,
            console w2 = console w1 -> console w3 = console w2 -> console w3 = console w1)
    as Htrans by (intros; congruence).
  split; [| split; [| split; [| split; [| split; [| split; [| split; [| split]]]]]]]; intros.
  - now apply (frame_start (config m) (fun w w' => console w' = console w)).
  - now apply (frame_stop (config m) (fun w w' => console w' = console w)).
  - now apply (frame_xhr_request (config m) (fun w w' => console w' = console w)).
  - now apply (frame_fetch_request (config m) (fun w w' => console w' = console w)).
  - now apply (frame_saveRequests (config m) (fun w w' => console w' = console w)).
  - destruct (clear_returns m w) as (w1 & E & _). eexists. split; [exact E |].
    eapply (frame_clear (config m) (fun w w' => console w' = console w));
      first [exact E | reflexivity | assumption | now intros].
  - now apply (frame_download (config m) (fun w w' => console w' = console w)).
  - eapply (frame_createUI (config m) (fun w w' => console w' = console w));
      first [eassumption | reflexivity | now intros].
  - split.
    + eapply (frame_script_request (config m) (fun w w' => console w' = console w));
        first [eassumption | reflexivity | now intros].
    + eapply script_request_lines_disabled; eassumption.
Qed.

(** The monitor writes to one key of the storage, its own: every other key
    holds after an operation what it held before. *)
Theorem other_storage_keys_untouched (m : APIMonitor) (w : Window) (k : string) :
  k <> storageKey (config m) ->
  localStorage (start m w).2 !! k = localStorage w !! k
  /\ localStorage (stop m w).2 !! k = localStorage w !! k
  /\ (forall method url body completion,
        localStorage (xhr_request m w method url body completion).2 !! k = localStorage w !! k)
  /\ (forall url init completion,
        localStorage (fetch_request m w url init completion).2 !! k = localStorage w !! k)
  /\ (forall completions,
        localStorage (saveRequests m w completions).2 !! k = localStorage w !! k)
  /\ (exists s, clear m w = Some s /\ localStorage s.2 !! k = localStorage w !! k)
  /\ (forall filename, localStorage (download m w filename) !! k = localStorage w !! k)
  /\ (forall w', createUI m w = Some w' -> localStorage w' !! k = localStorage w !! k)
  /\ (forall originalSrc how value src completion m' w' lines,
        script_request m w originalSrc how value src completion = Some (m', w', lines) ->
        localStorage w' !! k = localStorage w !! k).
Proof.
  intros Hk.
  assert (forall (m' : APIMonitor) (line : LogLine) (w' : Window),
            config m' = config m -> localStorage (log m' line w') !! k = localStorage w' !! k)
    as Hlog by (intros; now rewrite log_localStorage).
  assert (forall w1 w2 w3 : Window,
            localStorage w2 !! k = localStorage w1 !! k ->
            localStorage w3 !! k = localStorage w2 !! k ->
            localStorage w3 !! k = localStorage w1 !! k)
    as Htrans by (intros; congruence).
  assert (forall (text : string) (w' : Window),
            localStorage (set_localStorage (<[storageKey (config m) := text]> (localStorage w')) w')
              !! k = localStorage w' !! k) as Hst.
  { intros text w'. cbn [localStorage set_localStorage]. now apply lookup_insert_ne. }
  split; [| split; [| split; [| split; [| split; [| split; [| split; [| split]]]]]]]; intros.
  - now apply (frame_start (config m) (fun w w' => localStorage w' !! k = localStorage w !! k)).
  - now apply (frame_stop (config m) (fun w w' => localStorage w' !! k = localStorage w !! k)).
  - now apply (frame_xhr_request (config m)
                 (fun w w' => localStorage w' !! k = localStorage w !! k)).
  - now apply (frame_fetch_request (config m)
                 (fun w w' => localStorage w' !! k = localStorage w !! k)).
  - now apply (frame_saveRequests (config m)
                 (fun w w' => localStorage w' !! k = localStorage w !! k)).
  - destruct (clear_returns m w) as (w1 & E & _). eexists. split; [exact E |].
    eapply (frame_clear (config m) (fun w w' => localStorage w' !! k = localStorage w !! k));
      first [exact E | reflexivity | assumption | now intros].
  - now apply (frame_download (config m)
                 (fun w w' => localStorage w' !! k = localStorage w !! k)).
  - eapply (frame_createUI (config m)
              (fun w w' => localStorage w' !! k = localStorage w !! k));
      first [eassumption | reflexivity | now intros].
  - eapply (frame_script_request (config m)
              (fun w w' => localStorage w' !! k = localStorage w !! k));
      first [eassumption | reflexivity | now intros].
Qed.

(** ** Construction *)

(** The constructor reads the storage and writes nothing to it; it
    dispatches no event, calls no listener and offers no file. *)
Lemma constructor_reads_only userConfig w m' w' :
  constructor userConfig w = Some (m', w') ->
  localStorage w' = localStorage w
  /\ dispatched w' = dispatched w
  /\ called w' = called w
  /\ downloads w' = downloads w
  /\ listeners w' = listeners w.
Proof.
  intros H.
  apply (frame_constructor (mergeConfig DEFAULT_CONFIG userConfig)
           (fun w w' => localStorage w' = localStorage w /\ dispatched w' = dispatched w
                        /\ called w' = called w /\ downloads w' = downloads w
                        /\ listeners w' = listeners w)) with userConfig m';
    try reflexivity; try exact H; try (now intros).
  - intros w1 w2 w3 (? & ? & ? & ? & ?) (? & ? & ? & ? & ?). repeat split; congruence.
  - intros m line w1 _. unfold log. now destruct (enableLog _).
Qed.

(** Storage the constructor cannot use does not stop it: without the key,
    with the empty string under it, or with text under it that does not
    parse, the monitor is constructed with an empty log, and the storage is
    left as it was. *)
Theorem constructor_survives_unreadable_storage (userConfig : UserConfig) (w : Window) :
  let key := storageKey (mergeConfig DEFAULT_CONFIG userConfig) in
  (localStorage w !! key = None
   \/ localStorage w !! key = Some ""
   \/ exists stored, localStorage w !! key = Some stored /\ JSON_parse stored = None) ->
  exists m w',
    constructor userConfig w = Some (m, w')
    /\ capturedRequests m = []
    /\ localStorage w' = localStorage w
    /\ dispatched w' = dispatched w.
Proof.
  intros key Hs.
  assert (exists m1 w1,
            loadFromStorage
              {| config := mergeConfig DEFAULT_CONFIG userConfig; capturedRequests := [];
                 isMonitoring := false; observers := [] |} w = Some (m1, w1)
            /\ capturedRequests m1 = []) as (m1 & w1 & E & Hl).
  { unfold loadFromStorage, getItem. cbn [config]. fold key.
    destruct (storageLimit w); [| eexists _, _; now split].
    destruct Hs as [-> | [-> | (stored & -> & Hp)]].
    - eexists _, _. now split.
    - eexists _, _. now split.
    - rewrite Hp. destruct (JsString.nonEmpty stored); eexists _, _; now split. }
  pose proof (init_cases m1 w1) as Hi.
  destruct (init m1 w1) as [[m w']|] eqn:Ei;
    [| destruct Hi as (_ & _ & Hi); now rewrite Hl in Hi].
  assert (constructor userConfig w = Some (m, w')) as Hc
    by (unfold constructor; now rewrite E).
  exists m, w'. split; [exact Hc |]. split; [destruct Hi as [-> _]; exact Hl |].
  destruct (constructor_reads_only _ _ _ _ Hc) as (H1 & H2 & _). now split.
Qed.

Lemma loadFromStorage_new userConfig w m1 w1 :
  loadFromStorage
    {| config := mergeConfig DEFAULT_CONFIG userConfig; capturedRequests := [];
       isMonitoring := false; observers := [] |} w = Some (m1, w1) ->
  config m1 = mergeConfig DEFAULT_CONFIG userConfig
  /\ isMonitoring m1 = false
  /\ observers m1 = []
  /\ same_page w w1.
Proof.
  unfold loadFromStorage. cbn [config]. intros E.
  destruct (getItem _ w) as [[stored|]|].
  - destruct (JsString.nonEmpty stored).
    + destruct (JSON_parse stored) as [[| | | | | |records| |]|]; try discriminate;
        injection E as <- <-; repeat split;
        first [apply same_page_refl | apply same_page_log].
    + injection E as <- <-. repeat split. apply same_page_refl.
  - injection E as <- <-. repeat split. apply same_page_refl.
  - injection E as <- <-. repeat split. apply same_page_log.
Qed.

(** [init()] on a monitor that is not running, when it returns: with
    [autoStart] each primitive is wrapped; without it they are left alone. *)
Lemma init_primitives m1 w1 m' w' :
  isMonitoring m1 = false -> init m1 w1 = Some (m', w') ->
  if autoStart (config m1)
  then isMonitoring m' = true
       /\ XMLHttpRequest w' = ListenedXHR (InterceptedXHR (XMLHttpRequest w1))
       /\ fetch w' = ListenedFetch (InterceptedFetch (fetch w1))
       /\ createElement w' = InterceptedCreateElement (createElement w1)
  else isMonitoring m' = false
       /\ observers m' = observers m1
       /\ XMLHttpRequest w' = XMLHttpRequest w1
       /\ fetch w' = fetch w1
       /\ createElement w' = createElement w1.
Proof.
  intros Hm1.
  assert (forall m2 w2 w5, createUI m2 w2 = Some w5 ->
            XMLHttpRequest w5 = XMLHttpRequest w2
            /\ fetch w5 = fetch w2
            /\ createElement w5 = createElement w2) as Hui.
  { intros m2 w2 w5 E.
    apply (frame_createUI (config m2)
             (fun w w' => XMLHttpRequest w' = XMLHttpRequest w /\ fetch w' = fetch w
                          /\ createElement w' = createElement w)) with m2;
      try reflexivity; try exact E; try (now intros).
    - intros ? ? ? (? & ? & ?) (? & ? & ?). repeat split; congruence.
    - intros m3 line w3 _. unfold log. now destruct (enableLog _). }
  unfold init.
  set (w3 := log m1 (LogAllowedDomains _) (log m1 (LogTargetPaths _) (log m1 LogInit w1))).
  assert (same_page w1 w3) as Hp3.
  { subst w3. repeat (eapply same_page_trans; [| apply same_page_log]). apply same_page_refl. }
  assert (XMLHttpRequest w3 = XMLHttpRequest w1 /\ fetch w3 = fetch w1
          /\ createElement w3 = createElement w1) as (HX3 & HF3 & HC3)
    by (rewrite Hp3; now repeat split).
  destruct (autoStart (config m1)).
  - destruct (start_spec m1 w3 Hm1) as (_ & _ & Hr & HX & HF & HC & _).
    destruct (start m1 w3) as [m4 w4]. cbn [fst snd] in *.
    destruct (enableUI (config m4)).
    + destruct (createUI m4 w4) as [w5|] eqn:E; [| discriminate]. intros [= <- <-].
      destruct (Hui m4 w4 w5 E) as (HX5 & HF5 & HC5).
      rewrite HX5, HF5, HC5, HX, HF, HC, HX3, HF3, HC3. now repeat split.
    + intros [= <- <-]. rewrite HX, HF, HC, HX3, HF3, HC3. now repeat split.
  - destruct (enableUI (config m1)).
    + destruct (createUI m1 w3) as [w5|] eqn:E; [| discriminate]. intros [= <- <-].
      destruct (Hui m1 w3 w5 E) as (HX5 & HF5 & HC5).
      rewrite HX5, HF5, HC5, HX3, HF3, HC3. now repeat split.
    + intros [= <- <-]. now repeat split.
Qed.

(** Whether the constructor touches the page's primitives is decided by
    [autoStart]: when it is on (the default), the monitor is running and each
    primitive is wrapped; when it is off, the monitor is not running, keeps
    no observer, and the primitives are those of the page. *)
Theorem constructor_installs_iff_autoStart (userConfig : UserConfig) (w : Window)
    (m : APIMonitor) (w' : Window) :
  constructor userConfig w = Some (m, w') ->
  if autoStart (mergeConfig DEFAULT_CONFIG userConfig)
  then isMonitoring m = true
       /\ XMLHttpRequest w' = ListenedXHR (InterceptedXHR (XMLHttpRequest w))
       /\ fetch w' = ListenedFetch (InterceptedFetch (fetch w))
       /\ createElement w' = InterceptedCreateElement (createElement w)
  else isMonitoring m = false
       /\ observers m = []
       /\ XMLHttpRequest w' = XMLHttpRequest w
       /\ fetch w' = fetch w
       /\ createElement w' = createElement w.
Proof.
  unfold constructor. destruct (loadFromStorage _ w) as [[m1 w1]|] eqn:E; [| discriminate].
  destruct (loadFromStorage_new userConfig w m1 w1 E) as (Hc1 & Hm1 & Ho1 & Hp1).
  intros H. pose proof (init_primitives m1 w1 m w' Hm1 H) as Hi.
  rewrite Hc1, Ho1 in Hi.
  assert (XMLHttpRequest w1 = XMLHttpRequest w /\ fetch w1 = fetch w
          /\ createElement w1 = createElement w) as (HX & HF & HC)
    by (rewrite Hp1; now repeat split).
  now rewrite HX, HF, HC in Hi.
Qed.

(** A second monitor constructed on the page, as a launcher that calls
    [startAPIMonitor] again does, wraps what the first one wrapped: every
    primitive then carries the wrappers of both, and, where script elements
    have a [src] descriptor on their prototype, creating a script element
    throws, whatever the options it is created with. *)
Theorem second_monitor_breaks_script_creation (first second : UserConfig) (w0 w1 w2 : Window)
    (m1 m2 : APIMonitor) :
  createElement w0 = NativeCreateElement ->
  autoStart (mergeConfig DEFAULT_CONFIG first) = true ->
  autoStart (mergeConfig DEFAULT_CONFIG second) = true ->
  constructor first w0 = Some (m1, w1) ->
  constructor second w1 = Some (m2, w2) ->
  XMLHttpRequest w2
    = ListenedXHR (InterceptedXHR (ListenedXHR (InterceptedXHR (XMLHttpRequest w0))))
  /\ fetch w2 = ListenedFetch (InterceptedFetch (ListenedFetch (InterceptedFetch (fetch w0))))
  /\ createElement w2 = InterceptedCreateElement (InterceptedCreateElement NativeCreateElement)
  /\ (forall tagName options, toLowerCase tagName = "script" ->
        createElement_call (createElement w2) true (TagString tagName) options = None).
Proof.
  intros Hce Ha1 Ha2. unfold constructor.
  destruct (loadFromStorage _ w0) as [[n1 v1]|] eqn:E1; [| discriminate].
  destruct (loadFromStorage_new first w0 n1 v1 E1) as (Hc1 & Hm1 & _ & Hp1).
  intros H1. pose proof (init_primitives n1 v1 m1 w1 Hm1 H1) as Hi1.
  rewrite Hc1, Ha1 in Hi1. destruct Hi1 as (_ & HX1 & HF1 & HC1).
  destruct (loadFromStorage _ w1) as [[n2 v2]|] eqn:E2; [| discriminate].
  destruct (loadFromStorage_new second w1 n2 v2 E2) as (Hc2 & Hm2 & _ & Hp2).
  intros H2. pose proof (init_primitives n2 v2 m2 w2 Hm2 H2) as Hi2.
  rewrite Hc2, Ha2 in Hi2. destruct Hi2 as (_ & HX2 & HF2 & HC2).
  assert (XMLHttpRequest v1 = XMLHttpRequest w0 /\ fetch v1 = fetch w0
          /\ createElement v1 = createElement w0) as (HXa & HFa & HCa)
    by (rewrite Hp1; now repeat split).
  assert (XMLHttpRequest v2 = XMLHttpRequest w1 /\ fetch v2 = fetch w1
          /\ createElement v2 = createElement w1) as (HXb & HFb & HCb)
    by (rewrite Hp2; now repeat split).
  rewrite HXb, HX1, HXa in HX2. rewrite HFb, HF1, HFa in HF2.
  rewrite HCb, HC1, HCa, Hce in HC2.
  split; [exact HX2 |]. split; [exact HF2 |]. split; [exact HC2 |].
  intros tagName options Ht. rewrite HC2. cbn [createElement_call]. now rewrite Ht.
Qed.

(** ** The button and the panel *)








(** ** Handlers *)

(** A run of registrations, in order. *)
Definition ons (registrations : list (string * nat)) (w : Window) : Window :=
  fold_left (fun w '(eventName, callback) => on eventName callback w) registrations w.

(** The callbacks registered for an event, in order, as often as registered. *)
Definition handlers (eventName : string) (registrations : list (string * nat)) : list nat :=
  List.map snd (List.filter (fun r => String.eqb r.1 eventName) registrations).

Lemma eqb_append (p a b : string) : String.eqb (p +:+ a) (p +:+ b) = String.eqb a b.
Proof.
  induction p as [|c p IH]; [reflexivity |].
  change (String.eqb (String c (p +:+ a)) (String c (p +:+ b)) = String.eqb a b).
  cbn [String.eqb]. now rewrite Ascii.eqb_refl.
Qed.

Lemma eventType_eqb (a b : string) : String.eqb (eventType a) (eventType b) = String.eqb a b.
Proof. apply eqb_append. Qed.

Lemma calls_of_app type detail l1 l2 :
  calls_of type detail (l1 ++ l2) = calls_of type detail l1 ++ calls_of type detail l2.
Proof. unfold calls_of. apply flat_map_app. Qed.

(** No listener of the page carries an identity not yet given out. *)
Definition fresh_listeners (w : Window) : Prop :=
  Forall (fun tl => (listener_fn tl.2 < next_fn w)%nat) (listeners w).

Lemma on_fresh eventName callback w :
  fresh_listeners w ->
  listeners (on eventName callback w)
    = listeners w ++ [(eventType eventName, Forwarding (next_fn w) callback)]
  /\ called (on eventName callback w) = called w
  /\ fresh_listeners (on eventName callback w).
Proof.
  intros Hf. unfold on, addEventListener. cbn [listeners set_listeners next_fn listener_fn].
  destruct (existsb _ (listeners w)) eqn:E.
  - apply existsb_exists in E as ([t l] & Hin & Hx).
    apply andb_true_iff in Hx as [_ Hx]. apply Nat.eqb_eq in Hx.
    unfold fresh_listeners in Hf. rewrite Forall_forall in Hf.
    apply list_elem_of_In, Hf in Hin.
    cbn in Hin. lia.
  - cbn [listeners set_listeners called next_fn]. split; [reflexivity |].
    split; [reflexivity |]. unfold fresh_listeners. cbn [listeners set_listeners next_fn].
    apply Forall_app. split.
    + eapply Forall_impl; [exact Hf |]. cbn. intros; lia.
    + apply Forall_singleton. cbn. lia.
Qed.

Lemma ons_calls type detail registrations : forall w,
  fresh_listeners w ->
  called (ons registrations w) = called w
  /\ calls_of (eventType type) detail (listeners (ons registrations w))
     = calls_of (eventType type) detail (listeners w)
       ++ List.map (fun callback => CallWithDetail callback detail) (handlers type registrations).
Proof.
  induction registrations as [|[e cb] rs IH]; intros w Hf.
  - cbn. now rewrite app_nil_r.
  - cbn [ons fold_left]. destruct (on_fresh e cb w Hf) as (Hl & Hc & Hf').
    destruct (IH (on e cb w) Hf') as [Hc' Hl']. unfold ons in Hc', Hl'.
    rewrite Hc', Hl', Hc, Hl, calls_of_app. split; [reflexivity |].
    rewrite <- app_assoc. f_equal. unfold handlers. cbn [List.filter fst].
    unfold calls_of at 1. cbn [flat_map]. rewrite eventType_eqb, app_nil_r.
    now destruct (String.eqb e type).
Qed.

Lemma log_called m line w : called (log m line w) = called w.
Proof. unfold log. now destruct (enableLog _). Qed.

Lemma saveRequest_called m w data :
  called (saveRequest m w data).2
  = called w ++ calls_of (eventType "requestCaptured") (detail_of data) (listeners w).
Proof.
  unfold saveRequest. cbn [snd]. rewrite log_called.
  unfold triggerEvent, dispatchEvent. cbn [called set_dispatched].
  assert (forall m' w', called (updateBadgeCount m' w') = called w'
                        /\ listeners (updateBadgeCount m' w') = listeners w') as Hu.
  { intros m' w'. unfold updateBadgeCount. now destruct (badge (document w')). }
  unfold detail_of.
  destruct (enableUI _); rewrite ?(proj1 (Hu _ _)), ?(proj2 (Hu _ _));
    rewrite (proj1 (proj2 (saveToStorage_page _ _))),
      (proj1 (proj2 (proj2 (saveToStorage_page _ _))));
    now rewrite ?log_called, ?log_listeners.
Qed.

Lemma clear_called m w :
  exists s, clear m w = Some s
    /\ called s.2 = called w ++ calls_of (eventType "dataCleared") VNull (listeners w).
Proof.
  destruct (clear_returns m w) as (w1 & E & Hw1). eexists. split; [exact E |].
  cbn [snd]. unfold triggerEvent, dispatchEvent. cbn [called set_dispatched].
  rewrite Hw1. cbn [called listeners set_document].
  now rewrite (proj1 (proj2 (saveToStorage_page _ _))),
    (proj1 (proj2 (proj2 (saveToStorage_page _ _)))).
Qed.

(** Every registration through [on] makes a listener of its own. A record
    inserted is handed to each callback registered for [requestCaptured],
    once per registration and in the order of registration, after the
    listeners the page had before; [clear()] does the same for
    [dataCleared], with [null]. Callbacks registered for another event are
    not called. *)
Theorem handlers_called_in_registration_order (m : APIMonitor) (w : Window)
    (registrations : list (string * nat)) (data : jsval) :
  Forall (fun tl => (listener_fn tl.2 < next_fn w)%nat) (listeners w) ->
  called (saveRequest m (ons registrations w) data).2
    = called w
      ++ calls_of (eventType "requestCaptured") (detail_of data) (listeners w)
      ++ List.map (fun callback => CallWithDetail callback (detail_of data))
           (handlers "requestCaptured" registrations)
  /\ exists s, clear m (ons registrations w) = Some s
       /\ called s.2
          = called w
            ++ calls_of (eventType "dataCleared") VNull (listeners w)
            ++ List.map (fun callback => CallWithDetail callback VNull)
                 (handlers "dataCleared" registrations).
Proof.
  intros Hf. split.
  - rewrite saveRequest_called.
    destruct (ons_calls "requestCaptured" (detail_of data) registrations w Hf) as [-> ->].
    reflexivity.
  - destruct (clear_called m (ons registrations w)) as (s & E & Hc). exists s.
    split; [exact E |]. rewrite Hc.
    destruct (ons_calls "dataCleared" VNull registrations w Hf) as [-> ->]. reflexivity.
Qed.

(** ** The name of the file *)





(** ** The script channels *)

(** The record a [load] listener of a script builds at time [t]: of the
    channel's type, with the method [GET], the status 200 and the URL the
    listener closed over; the payload and the response are [null], and there
    are no headers. *)
Definition script_record (cfg : Config) (t : Z) (l : LoadListener) (record : jsval) : Prop :=
  let given (c : bool) (v : jsval) := if c then Some v else None in
  exists props,
    record = VObj props
    /\ get_property "type" props = Some (VStr (listener_type l))
    /\ get_property "method" props = given (captureFields cfg request_method) (VStr "GET")
    /\ get_property "url" props = given (captureFields cfg request_url) (VStr (listener_url l))
    /\ get_property "request" props = given (captureFields cfg request_payload) VNull
    /\ get_property "requestHeaders" props = None
    /\ get_property "status" props = given (captureFields cfg response_status) (VNum 200)
    /\ get_property "response" props = given (captureFields cfg response_body) VNull
    /\ get_property "responseHeaders" props = None
    /\ get_property "duration" props
       = given (captureFields cfg metadata_duration) (VNum (t - listener_startTime l)).

Lemma buildRequestData_clock m w type data :
  clock (buildRequestData m w type data).2 = clock w.
Proof. rewrite buildRequestData_eq. cbn [snd clock set_draws]. apply log_clock. Qed.

Lemma saveRequest_clock m w data : clock (saveRequest m w data).2 = clock w.
Proof.
  apply (frame_saveRequest (config m) (fun w w' => clock w' = clock w));
    try reflexivity; try (now intros); try (intros; congruence).
  intros. apply log_clock.
Qed.

Lemma script_load_commits : forall ls m w,
  exists records,
    config (script_load ls m w).1 = config m
    /\ capturedRequests (script_load ls m w).1
       = fold_left (fun l record => trim (maxStoredRequests (config m)) (l ++ [record]))
           records (capturedRequests m)
    /\ dispatched (script_load ls m w).2
       = dispatched w ++ List.map (fun record => (eventType "requestCaptured", record)) records
    /\ Forall2 (script_record (config m) (clock w)) ls records.
Proof.
  induction ls as [|l ls IH]; intros m w; cbn [script_load].
  - exists []. cbn. rewrite app_nil_r. repeat split. constructor.
  - unfold script_onload.
    match goal with |- context [buildRequestData m w ?ty ?d] =>
      destruct (buildRequestData_fields m w ty d)
        as (props & Hr & _ & Hty & Hme & Hu & Hrq & Hrh & Hst & Hrs & Hrsh & _ & _ & _
            & Hdu & _);
      pose proof (buildRequestData_object m w ty d) as (props' & _ & Hd);
      pose proof (buildRequestData_clock m w ty d) as Hck;
      destruct (buildRequestData m w ty d) as [record w1]
    end.
    cbn [fst snd] in Hr, Hd, Hck. subst record.
    pose proof (saveRequest_log m w1 (VObj props)) as Hl.
    pose proof (saveRequest_config m w1 (VObj props)) as Hc.
    pose proof (saveRequest_dispatched m w1 (VObj props)) as Hd1.
    pose proof (saveRequest_clock m w1 (VObj props)) as Hck1.
    destruct (saveRequest m w1 (VObj props)) as [m2 w2]. cbn [fst snd] in Hl, Hc, Hd1, Hck1.
    destruct (IH m2 w2) as (records & Hc' & Hl' & Hd' & Hf).
    exists (VObj props :: records). cbn [fold_left List.map].
    rewrite Hc', Hl', Hd', Hc, Hl, Hd1, Hd, <- app_assoc.
    repeat split. constructor.
    + exists props.
      cbn [data_method data_url data_body data_headers data_status data_responseText
           data_responseHeaders data_duration truthy] in *.
      rewrite ?andb_false_r in *.
      change (parseData VUndefined) with VNull in *.
      now repeat split.
    + rewrite Hc, Hck1, Hck in Hf. exact Hf.
Qed.

(** The mutation observers among the observers a monitor keeps. *)
Definition script_observers (connected : list Observer) : nat :=
  length (List.filter (fun o => match o with ScriptMutationObserver => true | _ => false end)
            connected).

Lemma script_added_listeners m w node src :
  localName node = "script" ->
  localName (script_added m w node src).1 = "script"
  /\ load_listeners (script_added m w node src).1
     = load_listeners node
       ++ (if JsString.nonEmpty src && hasTargetPath m src && hasAllowedDomain m w src
           then [{| listener_type := "script"; listener_url := src;
                    listener_startTime := clock w |}]
           else []).
Proof.
  intros Hn. unfold script_added. rewrite Hn. cbn [String.eqb Ascii.eqb Bool.eqb].
  destruct (JsString.nonEmpty src), (hasTargetPath m src), (hasAllowedDomain m w src);
    cbn [andb fst localName load_listeners addLoadListener];
    rewrite ?app_nil_r; now split.
Qed.

Lemma mutation_listeners m w src : forall connected node,
  localName node = "script" ->
  load_listeners (mutation connected m w node src).1
  = load_listeners node
    ++ (if JsString.nonEmpty src && hasTargetPath m src && hasAllowedDomain m w src
        then repeat {| listener_type := "script"; listener_url := src;
                       listener_startTime := clock w |} (script_observers connected)
        else []).
Proof.
  induction connected as [|o connected IH]; intros node Hn; cbn [mutation].
  - cbn. destruct (_ && _ && _); now rewrite app_nil_r.
  - destruct o; try (rewrite (IH node Hn); reflexivity).
    destruct (script_added_listeners m w node src Hn) as [Hn1 Hl1].
    destruct (script_added m w node src) as [node1 lines1]. cbn [fst] in Hn1, Hl1.
    pose proof (IH node1 Hn1) as H. destruct (mutation connected m w node1 src) as [n' l'].
    cbn [fst] in *. rewrite H, Hl1, <- app_assoc. f_equal.
    unfold script_observers. cbn [List.filter length]. fold (script_observers connected).
    now destruct (_ && _ && _).
Qed.

(** A script of the page on which [createElement] carries one wrapper: the
    listeners on the element when it loads are the one of the wrapper, when
    the source passes the gate, followed by one per mutation observer, when
    the resolved source is not empty and passes the gate. *)
Lemma script_request_listeners m w originalSrc how value src t :
  createElement w = InterceptedCreateElement NativeCreateElement ->
  exists lines,
    script_request m w originalSrc how value src (Some t)
    = Some
        (script_load
           ((if match how with BySetAttribute => true | ByProperty => originalSrc end
                && hasTargetPath m value && hasAllowedDomain m w value
             then [{| listener_type := "jsonp"; listener_url := value;
                      listener_startTime := clock w |}]
             else [])
            ++ (if JsString.nonEmpty src && hasTargetPath m src && hasAllowedDomain m w src
                then repeat {| listener_type := "script"; listener_url := src;
                               listener_startTime := clock w |}
                       (script_observers (observers m))
                else []))
           m (set_clock t w),
         lines).
Proof.
  intros Hc. unfold script_request. rewrite Hc.
  assert (createElement_call (InterceptedCreateElement NativeCreateElement) originalSrc
            (TagString "script") None
          = Some {| localName := "script"; is_value := None; setAttribute_wrappers := 1;
                    src_accessor := originalSrc; load_listeners := [] |}) as ->
    by (now destruct originalSrc).
  cbn [setAttribute_wrappers script_setAttribute String.eqb Ascii.eqb Bool.eqb].
  unfold script_set_src. cbn [src_accessor].
  assert (exists element lines,
            match how with
            | BySetAttribute =>
                let '(element, lines) :=
                  jsonp_src m w {| localName := "script"; is_value := None; setAttribute_wrappers := 1;
                                   src_accessor := originalSrc; load_listeners := [] |} value in
                (element, lines ++ [])
            | ByProperty =>
                if originalSrc
                then jsonp_src m w {| localName := "script"; is_value := None; setAttribute_wrappers := 1;
                                      src_accessor := originalSrc; load_listeners := [] |} value
                else ({| localName := "script"; is_value := None; setAttribute_wrappers := 1;
                         src_accessor := originalSrc; load_listeners := [] |}, [])
            end = (element, lines)
            /\ localName element = "script"
            /\ load_listeners element
               = if match how with BySetAttribute => true | ByProperty => originalSrc end
                    && hasTargetPath m value && hasAllowedDomain m w value
                 then [{| listener_type := "jsonp"; listener_url := value;
                          listener_startTime := clock w |}]
                 else []) as (element & lines & -> & Hn & Hl).
  { unfold jsonp_src.
    destruct how, originalSrc, (hasTargetPath m value && hasAllowedDomain m w value) eqn:G;
      cbn [andb]; rewrite ?G; eexists _, _; (split; [reflexivity |]); now split. }
  pose proof (mutation_listeners m w src (observers m) element Hn) as Hm.
  destruct (mutation (observers m) m w element src) as [element' more]. cbn [fst] in Hm.
  rewrite Hm, Hl. destruct (script_load _ m (set_clock t w)). eexists. reflexivity.
Qed.

(** One script, two channels. Once the monitor has been started on a page
    whose [createElement] is the native one, a script the page creates, gives
    a source, appends and loads is recorded by the wrapper of
    [createElement] when the source as written passes the gate, as a
    [jsonp] record, and again by the mutation observer when the resolved
    source is not empty and passes the gate, as a [script] record: two
    records for one script when both do. A source written through the
    property is seen by the wrapper only where the prototype of script
    elements has a [src] descriptor. *)
Theorem script_recorded_by_both_channels (m0 : APIMonitor) (w0 : Window) (originalSrc : bool)
    (how : SrcWrite) (value src : string) (t : Z) :
  isMonitoring m0 = false -> observers m0 = [] -> createElement w0 = NativeCreateElement ->
  let s := start m0 w0 in
  let seen := match how with BySetAttribute => true | ByProperty => originalSrc end in
  let jsonp := seen && hasTargetPath m0 value && hasAllowedDomain m0 w0 value in
  let script := JsString.nonEmpty src && hasTargetPath m0 src && hasAllowedDomain m0 w0 src in
  exists m' w' lines records,
    script_request s.1 s.2 originalSrc how value src (Some t) = Some (m', w', lines)
    /\ capturedRequests m'
       = fold_left (fun l record => trim (maxStoredRequests (config m0)) (l ++ [record]))
           records (capturedRequests m0)
    /\ dispatched w'
       = dispatched s.2 ++ List.map (fun record => (eventType "requestCaptured", record)) records
    /\ Forall2 (script_record (config m0) t)
         ((if jsonp
           then [{| listener_type := "jsonp"; listener_url := value;
                    listener_startTime := clock w0 |}]
           else [])
          ++ (if script
              then [{| listener_type := "script"; listener_url := src;
                       listener_startTime := clock w0 |}]
              else []))
         records.
Proof.
  intros Hm Ho Hce s seen jsonp script.
  destruct (start_spec m0 w0 Hm) as (Hc & Hl & _ & _ & _ & HC & Hloc & _).
  destruct (start_page m0 w0 Hm) as (Hclock & _ & _ & _ & _ & _ & _ & Hobs).
  fold s in Hc, Hl, HC, Hloc, Hclock, Hobs. rewrite Hce in HC.
  destruct (script_request_listeners s.1 s.2 originalSrc how value src t HC) as (lines & E).
  assert (forall url, hasTargetPath s.1 url = hasTargetPath m0 url) as Htp
    by (intros; unfold hasTargetPath; now rewrite Hc).
  assert (forall url, hasAllowedDomain s.1 s.2 url = hasAllowedDomain m0 w0 url) as Had
    by (intros; unfold hasAllowedDomain, parseURL; now rewrite Hc, Hloc).
  assert (script_observers (observers s.1) = 1%nat) as Hn.
  { rewrite Hobs, Ho. now destruct (hasPerformanceObserver w0). }
  rewrite !Htp, !Had, Hn, Hclock in E. cbn [repeat] in E.
  fold seen jsonp script in E.
  match type of E with _ = Some (script_load ?ls _ ?w1, _) =>
    destruct (script_load_commits ls s.1 w1) as (records & _ & Hlog & Hd & Hf);
    destruct (script_load ls s.1 w1) as [m' w'] eqn:E'
  end.
  exists m', w', lines, records. cbn [fst snd clock set_clock dispatched] in *.
  rewrite Hc, Hl in *. now repeat split.
Qed.

(** [stop()] ends one of the two channels. The mutation observer is
    disconnected, so a script added afterwards is not recorded as a
    [script]; the wrapper of [createElement] stays, so the same script is
    still recorded as [jsonp] when its source passes the gate. *)
Theorem stop_ends_script_channel_only (m0 : APIMonitor) (w0 : Window) (originalSrc : bool)
    (how : SrcWrite) (value src : string) (t : Z) :
  isMonitoring m0 = false -> createElement w0 = NativeCreateElement ->
  let s1 := start m0 w0 in
  let s2 := stop s1.1 s1.2 in
  let seen := match how with BySetAttribute => true | ByProperty => originalSrc end in
  let jsonp := seen && hasTargetPath m0 value && hasAllowedDomain m0 w0 value in
  exists m' w' lines records,
    script_request s2.1 s2.2 originalSrc how value src (Some t) = Some (m', w', lines)
    /\ capturedRequests m'
       = fold_left (fun l record => trim (maxStoredRequests (config m0)) (l ++ [record]))
           records (capturedRequests m0)
    /\ Forall2 (script_record (config m0) t)
         (if jsonp
          then [{| listener_type := "jsonp"; listener_url := value;
                   listener_startTime := clock w0 |}]
          else [])
         records.
Proof.
  intros Hm Hce s1 s2 seen jsonp.
  destruct (start_spec m0 w0 Hm) as (Hc1 & Hl1 & Hr1 & _ & _ & HC1 & Hloc1 & _).
  destruct (start_page m0 w0 Hm) as (Hclock1 & _).
  fold s1 in Hc1, Hl1, Hr1, HC1, Hloc1, Hclock1. rewrite Hce in HC1.
  destruct (stop_spec s1.1 s1.2 Hr1) as (Hc2 & Hl2 & _ & Ho2 & Hp2).
  fold s2 in Hc2, Hl2, Ho2, Hp2.
  assert (createElement s2.2 = InterceptedCreateElement NativeCreateElement) as HC2
    by (rewrite Hp2; exact HC1).
  destruct (script_request_listeners s2.1 s2.2 originalSrc how value src t HC2) as (lines & E).
  assert (forall url, hasTargetPath s2.1 url = hasTargetPath m0 url) as Htp
    by (intros; unfold hasTargetPath; now rewrite Hc2, Hc1).
  assert (forall url, hasAllowedDomain s2.1 s2.2 url = hasAllowedDomain m0 w0 url) as Had.
  { intros. unfold hasAllowedDomain, parseURL.
    now rewrite Hc2, Hc1, (same_page_location _ _ Hp2), Hloc1. }
  rewrite !Htp, !Had, Ho2, (same_page_clock _ _ Hp2), Hclock1 in E.
  change (script_observers []) with 0%nat in E. cbn [repeat] in E.
  fold seen jsonp in E.
  replace (if JsString.nonEmpty src && hasTargetPath m0 src && hasAllowedDomain m0 w0 src
           then [] else @nil LoadListener) with (@nil LoadListener) in E
    by (destruct (JsString.nonEmpty src && hasTargetPath m0 src && hasAllowedDomain m0 w0 src);
        reflexivity).
  rewrite app_nil_r in E.
  match type of E with _ = Some (script_load ?ls _ ?w1, _) =>
    destruct (script_load_commits ls s2.1 w1) as (records & _ & Hlog & _ & Hf);
    destruct (script_load ls s2.1 w1) as [m' w'] eqn:E'
  end.
  exists m', w', lines, records. cbn [fst snd clock set_clock] in *.
  rewrite Hc2, Hc1, Hl2, Hl1 in *. now repeat split.
Qed.

(** After [start()], [stop()] and [start()] the page's [createElement]
    carries two wrappers. Where script elements have a [src] descriptor on
    their prototype, the first wrapper has defined the accessor [src] on the
    new element and the second cannot define it again: creating a script
    element throws, with any spelling of the tag name, and no script of the
    page gets as far as its source. Another element is created when its
    name is given as a string, without the options the page gave; a name
    that is no string throws, where [createElement] itself takes it. *)
Theorem restart_breaks_script_creation (m0 : APIMonitor) (w0 : Window) :
  isMonitoring m0 = false -> createElement w0 = NativeCreateElement ->
  let s1 := start m0 w0 in
  let s2 := stop s1.1 s1.2 in
  let s3 := start s2.1 s2.2 in
  createElement s3.2 = InterceptedCreateElement (InterceptedCreateElement NativeCreateElement)
  /\ (forall tagName options, toLowerCase tagName = "script" ->
        createElement_call (createElement s3.2) true (TagString tagName) options = None)
  /\ (forall tagName options, toLowerCase tagName <> "script" ->
        createElement_call (createElement s3.2) true (TagString tagName) options
        = createElement_call NativeCreateElement true (TagString tagName) None)
  /\ (forall converted options,
        createElement_call (createElement s3.2) true (TagOther converted) options = None
        /\ createElement_call NativeCreateElement true (TagOther converted) options <> None)
  /\ (forall how value src completion,
        script_request s3.1 s3.2 true how value src completion = None).
Proof.
  intros Hm Hce s1 s2 s3.
  destruct (start_spec m0 w0 Hm) as (_ & _ & Hr1 & _ & _ & HC1 & _).
  fold s1 in Hr1, HC1. rewrite Hce in HC1.
  destruct (stop_spec s1.1 s1.2 Hr1) as (_ & _ & Hr2 & _ & Hp2).
  fold s2 in Hr2, Hp2.
  destruct (start_spec s2.1 s2.2 Hr2) as (_ & _ & _ & _ & _ & HC3 & _).
  fold s3 in HC3.
  assert (createElement s3.2
          = InterceptedCreateElement (InterceptedCreateElement NativeCreateElement)) as HC.
  { rewrite HC3, Hp2. cbn [createElement set_console]. now rewrite HC1. }
  split; [exact HC |]. rewrite HC. split; [| split; [| split]].
  - intros tagName options Ht. cbn [createElement_call]. now rewrite Ht.
  - intros tagName options Ht. cbn [createElement_call].
    destruct (String.eqb_spec (toLowerCase tagName) "script") as [E|_]; [now elim Ht |].
    reflexivity.
  - intros converted options. split; [reflexivity | discriminate].
  - intros how value src completion. unfold script_request. now rewrite HC.
Qed.

(** ** A request object used again *)

(** What every record of a [load] event says of the request: the type
    [xhr], and the method and the URL the object holds at that time. *)
Definition xhr_record (cfg : Config) (xhr : XHR) (record : jsval) : Prop :=
  let given (c : bool) (v : jsval) := if c then Some v else None in
  exists props,
    record = VObj props
    /\ get_property "type" props = Some (VStr "xhr")
    /\ get_property "method" props = given (captureFields cfg request_method) (VStr (_method xhr))
    /\ get_property "url" props = given (captureFields cfg request_url) (VStr (_url xhr)).

Lemma xhr_load_records xhr r text :
  responseText r = Some text ->
  forall n m w, exists records,
    length records = n
    /\ capturedRequests (xhr_load n m w xhr r).1
       = fold_left (fun l record => trim (maxStoredRequests (config m)) (l ++ [record]))
           records (capturedRequests m)
    /\ dispatched (xhr_load n m w xhr r).2
       = dispatched w ++ List.map (fun record => (eventType "requestCaptured", record)) records
    /\ Forall (xhr_record (config m) xhr) records.
Proof.
  intros Ht. induction n as [|n IH]; intros m w.
  - exists []. cbn. rewrite app_nil_r. repeat split. constructor.
  - cbn [xhr_load]. unfold xhr_onload. rewrite Ht.
    match goal with |- context [buildRequestData m w ?ty ?d] =>
      destruct (buildRequestData_fields m w ty d)
        as (props & Hr & _ & Hty & Hme & Hu & _);
      pose proof (buildRequestData_object m w ty d) as (props' & _ & Hd);
      destruct (buildRequestData m w ty d) as [record w1]
    end.
    cbn [fst snd] in Hr, Hd. subst record.
    pose proof (saveRequest_log m w1 (VObj props)) as Hl.
    pose proof (saveRequest_config m w1 (VObj props)) as Hc.
    pose proof (saveRequest_dispatched m w1 (VObj props)) as Hd1.
    destruct (saveRequest m w1 (VObj props)) as [m2 w2]. cbn [fst snd] in Hl, Hc, Hd1.
    destruct (IH m2 w2) as (records & Hn & Hl' & Hd' & Hf).
    exists (VObj props :: records). cbn [length fold_left List.map].
    rewrite Hl', Hd', Hc, Hl, Hd1, Hd, <- app_assoc, Hn.
    repeat split. constructor.
    + exists props. cbn [data_method data_url] in *. now repeat split.
    + now rewrite Hc in Hf.
Qed.

(** A listener stays on the object it was added to. Once the monitor has
    been started on a page whose [XMLHttpRequest] is the native one, an
    exchange on an object that carries the listeners of earlier exchanges
    calls them all: it commits one record per listener carried, and one more
    when it passes the gate itself; every one of them has the method and
    the URL of this exchange. So on an object used again, a request that
    fails the gate is recorded, and one that passes it more than once. *)
Theorem reused_request_object_records_again (m0 : APIMonitor) (w0 : Window) (xhr : XHR)
    (method url : string) (body : jsval) (t : Z) (r : XHRResponse) (text : string) :
  isMonitoring m0 = false -> XMLHttpRequest w0 = NativeXHR -> responseText r = Some text ->
  let s := start m0 w0 in
  let after := xhr_exchange (XMLHttpRequest s.2) s.1 s.2 xhr method url body (Some (t, r)) in
  let given (c : bool) (v : jsval) := if c then Some v else None in
  exists records,
    length records = (onload xhr + if gate m0 w0 url then 1 else 0)%nat
    /\ onload after.1 = length records
    /\ capturedRequests after.2.1
       = fold_left (fun l record => trim (maxStoredRequests (config m0)) (l ++ [record]))
           records (capturedRequests m0)
    /\ dispatched after.2.2
       = dispatched s.2 ++ List.map (fun record => (eventType "requestCaptured", record)) records
    /\ Forall (fun record =>
                 exists props,
                   record = VObj props
                   /\ get_property "method" props
                      = given (captureFields (config m0) request_method) (VStr method)
                   /\ get_property "url" props
                      = given (captureFields (config m0) request_url) (VStr url))
         records.
Proof.
  intros Hm Hx Ht s after given.
  destruct (start_spec m0 w0 Hm) as (Hc & Hl & _ & HX & _ & _ & Hloc & _).
  fold s in Hc, Hl, HX, Hloc. rewrite Hx in HX.
  subst after. unfold xhr_exchange. rewrite HX. cbn [xhr_open xhr_send _url _method].
  set (wo := log s.1 (LogXHROpen method url) (log s.1 (LogGlobalXHR method url) s.2)).
  assert (same_page s.2 wo) as Hwo by (eapply same_page_trans; apply same_page_log).
  set (ws := log s.1 (LogXHRSend method url) wo).
  assert (same_page s.2 ws) as Hws
    by (eapply same_page_trans; [exact Hwo | apply same_page_log]).
  rewrite (hasAllowedDomain_same_page s.1 s.2 ws url Hws).
  change (JsString.nonEmpty url && hasTargetPath s.1 url && hasAllowedDomain s.1 s.2 url)
    with (gate s.1 s.2 url).
  rewrite (gate_config m0 s.1 w0 s.2 url Hc Hloc).
  destruct (gate m0 w0 url); cbn [fst snd onload];
    match goal with |- context [xhr_load ?n s.1 (set_clock t ?w2) ?x2 r] =>
      destruct (xhr_load_records x2 r text Ht n s.1 (set_clock t w2))
        as (records & Hn & Hlog & Hd & Hf);
      assert (same_page s.2 w2) as Hw2
        by (repeat (eapply same_page_trans; [| apply same_page_log]);
            first [exact Hws | apply same_page_refl]);
      exists records
    end;
    rewrite Hlog, Hd, Hn, Hc, Hl; cbn [dispatched set_clock];
    rewrite (same_page_dispatched _ _ Hw2);
    (split; [lia |]); (split; [reflexivity |]); (split; [reflexivity |]);
    (split; [reflexivity |]);
    (eapply Forall_impl; [exact Hf |]);
    intros record (props & -> & _ & Hme & Hu); exists props; rewrite Hc in Hme, Hu;
    now repeat split.
Qed.

(** ** Changing the configuration of a running monitor *)

(** [updateConfig] takes effect on the wrappers already installed, which
    read the configuration when they are called: after it, a request on a
    request object of its own is recorded exactly when it passes the gate of
    the new configuration, and
    the insert trims the log with the new capacity. Nothing is wrapped
    again. *)
Theorem updateConfig_applies_to_installed_wrappers (m0 : APIMonitor) (w0 : Window)
    (newConfig : ConfigUpdate) (method url : string) (body : jsval) (t : Z) (r : XHRResponse)
    (text : string) :
  isMonitoring m0 = false -> XMLHttpRequest w0 = NativeXHR -> responseText r = Some text ->
  let s := start m0 w0 in
  let m := updateConfig newConfig s.1 in
  isMonitoring m = true
  /\ (gate m w0 url = true ->
      exists record,
        capturedRequests (xhr_request m s.2 method url body (Some (t, r))).1
        = trim (maxStoredRequests (config m)) (capturedRequests m0 ++ [record]))
  /\ (gate m w0 url = false ->
      capturedRequests (xhr_request m s.2 method url body (Some (t, r))).1
      = capturedRequests m0).
Proof.
  intros Hm Hx Ht s m.
  destruct (start_spec m0 w0 Hm) as (_ & Hl & Hr & HX & _ & _ & Hloc & _).
  fold s in Hl, Hr, HX, Hloc.
  split; [exact Hr |].
  destruct (xhr_request_commits m s.2 method url body t r text Ht) as (records & Hn & Hlog & _).
  rewrite (gate_config m m w0 s.2 url eq_refl Hloc), HX, Hx in Hn. cbn [recording] in Hn.
  change (capturedRequests m) with (capturedRequests s.1) in Hlog. rewrite Hl in Hlog.
  split; intros G; rewrite G in Hn.
  - destruct records as [|record [|]]; try discriminate. now exists record.
  - destruct records; [exact Hlog | discriminate].
Qed.

(** [updateConfig] moves no data. The log is what it was, even when it is
    longer than a new capacity. After a change of the storage key the next
    insert writes the whole log under the new key, when the store takes it,
    and leaves the old key holding what it held. *)
Theorem updateConfig_moves_no_data (m : APIMonitor) (w : Window) (newConfig : ConfigUpdate)
    (data : jsval) :
  let m' := updateConfig newConfig m in
  capturedRequests m' = capturedRequests m
  /\ localStorage (saveRequest m' w data).2 !! storageKey (config m')
     = (if storage_takes w (storageKey (config m'))
             (JSON_print 0 (array_to_json (capturedRequests (saveRequest m' w data).1)))
        then Some (JSON_print 0 (array_to_json (capturedRequests (saveRequest m' w data).1)))
        else localStorage w !! storageKey (config m'))
  /\ (storageKey (config m') <> storageKey (config m) ->
      localStorage (saveRequest m' w data).2 !! storageKey (config m)
      = localStorage w !! storageKey (config m)).
Proof.
  intros m'. split; [reflexivity |]. split; [apply saveRequest_mirrored |].
  intros Hk.
  apply (frame_saveRequests (config m')
           (fun w w' => localStorage w' !! storageKey (config m)
                        = localStorage w !! storageKey (config m))) with (ds := [data]);
    try reflexivity; try (now intros); try (intros; congruence).
  - intros. now rewrite log_localStorage.
  - intros text w1. cbn [localStorage set_localStorage]. apply lookup_insert_ne. exact Hk.
Qed.

(** ** URLs that are not strings *)

Lemma fetch_call_input_object f m init : forall w,
  match fetch_call_input f m w InputObject init with
  | Some (n, w') => n = O /\ same_page w w' /\ (targetPaths (config m) = [] \/ recording_fetch f = O)
  | None => targetPaths (config m) <> [] /\ recording_fetch f <> O
  end.
Proof.
  induction f as [| f IH | f IH]; intros w; cbn [fetch_call_input input_url recording_fetch].
  - repeat split; [apply same_page_refl | now right].
  - destruct (targetPaths (config m)) as [|p ps] eqn:E; [| now split].
    match goal with |- context [fetch_call_input f m ?w1 _ _] =>
      specialize (IH w1); destruct (fetch_call_input f m w1 InputObject init) as [[n w']|];
      assert (same_page w w1) as H1
        by (repeat (eapply same_page_trans; [| apply same_page_log]); apply same_page_refl)
    end.
    + destruct IH as (-> & Hp & _). repeat split; [| now left].
      eapply same_page_trans; eassumption.
    + now destruct IH.
  - match goal with |- context [fetch_call_input f m ?w1 _ _] =>
      specialize (IH w1); destruct (fetch_call_input f m w1 InputObject init) as [[n w']|];
      assert (same_page w w1) as H1 by apply same_page_log
    end.
    + destruct IH as (-> & Hp & Ho). repeat split; [| exact Ho].
      eapply same_page_trans; eassumption.
    + exact IH.
Qed.

(** [fetch] of an object without a [url], as a [URL] is: a recording wrapper
    throws as soon as the monitor has one target path, before [fetch] is
    reached, so that the page's call fails on a started monitor; with no
    target path the call goes through and nothing is recorded. A [Request]
    is treated as the string of its [url]. *)
Theorem fetch_without_url_throws (m0 : APIMonitor) (w0 : Window) (init : FetchInit) :
  isMonitoring m0 = false -> fetch w0 = NativeFetch ->
  let s := start m0 w0 in
  (forall f m w,
     fetch_call_input f m w InputObject init = None
     <-> targetPaths (config m) <> [] /\ recording_fetch f <> O)
  /\ (targetPaths (config m0) <> [] ->
      fetch_call_input (fetch s.2) s.1 s.2 InputObject init = None)
  /\ (targetPaths (config m0) = [] ->
      exists w', fetch_call_input (fetch s.2) s.1 s.2 InputObject init = Some (O, w')
                 /\ same_page s.2 w')
  /\ (forall url,
        fetch_call_input (fetch s.2) s.1 s.2 (InputRequest url) init
        = Some (fetch_call (fetch s.2) s.1 s.2 url init)).
Proof.
  intros Hm Hf s.
  assert (forall f m w,
            fetch_call_input f m w InputObject init = None
            <-> targetPaths (config m) <> [] /\ recording_fetch f <> O) as Hiff.
  { intros f m w. pose proof (fetch_call_input_object f m init w) as H.
    destruct (fetch_call_input f m w InputObject init) as [[n w']|].
    - destruct H as (_ & _ & [H|H]); split; try discriminate; intros [H1 H2]; contradiction.
    - now split. }
  destruct (start_spec m0 w0 Hm) as (Hc & _ & _ & _ & HF & _).
  fold s in Hc, HF. rewrite Hf in HF.
  split; [exact Hiff |]. split; [| split].
  - intros Hne. apply Hiff. rewrite Hc, HF. split; [exact Hne | discriminate].
  - intros He. pose proof (fetch_call_input_object (fetch s.2) s.1 init s.2) as H.
    destruct (fetch_call_input (fetch s.2) s.1 s.2 InputObject init) as [[n w']|].
    + destruct H as (-> & Hp & _). now exists w'.
    + destruct H as [H _]. rewrite Hc in H. contradiction.
  - intros url. now destruct (fetch s.2).
Qed.

Lemma xhr_send_object_spec c m method href : forall w,
  match xhr_send_object c m w method href with
  | Some w' => same_page w w' /\ (targetPaths (config m) = [] \/ recording c = O)
  | None => targetPaths (config m) <> [] /\ recording c <> O
  end.
Proof.
  induction c as [| c IH | c IH]; intros w; cbn [xhr_send_object recording].
  - split; [apply same_page_refl | now right].
  - destruct (targetPaths (config m)) as [|p ps] eqn:E; [| now split].
    match goal with |- context [xhr_send_object c m ?w1 _ _] =>
      specialize (IH w1); destruct (xhr_send_object c m w1 method href) as [w'|];
      assert (same_page w w1) as H1
        by (repeat (eapply same_page_trans; [| apply same_page_log]); apply same_page_refl)
    end.
    + destruct IH as (Hp & _). split; [| now left]. eapply same_page_trans; eassumption.
    + now destruct IH.
  - apply IH.
Qed.

Lemma xhr_open_object_same_page c m method href : forall w,
  same_page w (xhr_open_object c m w method href).
Proof.
  induction c as [| c IH | c IH]; intros w; cbn [xhr_open_object].
  - apply same_page_refl.
  - eapply same_page_trans; [apply same_page_log | apply IH].
  - eapply same_page_trans; [apply same_page_log | apply IH].
Qed.

(** A request opened with an object for its URL, as a [URL] is: [open] goes
    through, and [send] throws in a recording wrapper as soon as the monitor
    has one target path, before the request is sent; with no target path the
    request is sent and nothing is recorded. *)
Theorem send_after_open_with_object_throws (m0 : APIMonitor) (w0 : Window)
    (method href : string) :
  isMonitoring m0 = false -> XMLHttpRequest w0 = NativeXHR ->
  let s := start m0 w0 in
  let opened := xhr_open_object (XMLHttpRequest s.2) s.1 s.2 method href in
  same_page s.2 opened
  /\ (forall c m w,
        xhr_send_object c m w method href = None
        <-> targetPaths (config m) <> [] /\ recording c <> O)
  /\ (targetPaths (config m0) <> [] ->
      xhr_send_object (XMLHttpRequest s.2) s.1 opened method href = None)
  /\ (targetPaths (config m0) = [] ->
      exists w', xhr_send_object (XMLHttpRequest s.2) s.1 opened method href = Some w'
                 /\ same_page opened w').
Proof.
  intros Hm Hx s opened.
  assert (forall c m w,
            xhr_send_object c m w method href = None
            <-> targetPaths (config m) <> [] /\ recording c <> O) as Hiff.
  { intros c m w. pose proof (xhr_send_object_spec c m method href w) as H.
    destruct (xhr_send_object c m w method href) as [w'|].
    - destruct H as (_ & [H|H]); split; try discriminate; intros [H1 H2]; contradiction.
    - now split. }
  destruct (start_spec m0 w0 Hm) as (Hc & _ & _ & HX & _).
  fold s in Hc, HX. rewrite Hx in HX.
  split; [apply xhr_open_object_same_page |]. split; [exact Hiff |]. split.
  - intros Hne. apply Hiff. rewrite Hc, HX. split; [exact Hne | discriminate].
  - intros He. pose proof (xhr_send_object_spec (XMLHttpRequest s.2) s.1 method href opened) as H.
    destruct (xhr_send_object (XMLHttpRequest s.2) s.1 opened method href) as [w'|].
    + destruct H as (Hp & _). now exists w'.
    + destruct H as [H _]. rewrite Hc in H. contradiction.
Qed.

End MoreProperties.

(** * Concrete runs

    The theorems above at explicit inputs, in the concrete browser. *)
Module Example.

Import MiniBrowser.

(** A page of [air.1688.com] before any script has touched it, with the
    given limit on its storage and with or without a body. *)
Definition page_with (limit : option Z) (has_body : bool) : Window := {|
  location := {| hostname := "air.1688.com"; pathname := "/api/list/index.html" |};
  XMLHttpRequest := NativeXHR;
  fetch := NativeFetch;
  createElement := NativeCreateElement;
  hasPerformanceObserver := true;
  localStorage := ∅;
  listeners := [];
  next_fn := 1;
  clock := 1000;
  draws := 0;
  console := [];
  document := {| body := has_body; badge := None; content := None |};
  downloads := [];
  dispatched := [];
  called := [];
  storageLimit := limit;
  timers := []
|}.

(** The page once its document is there, with five million characters of
    storage. *)
Definition page : Window := page_with (Some 5000000) true.

(** The same page in a window whose store takes nothing. *)
Definition private : Window := page_with (Some 0) true.

(** The same page while its document has no body yet. *)
Definition early : Window := page_with (Some 5000000) false.

(** [{ targetPaths: ['/api/'], maxStoredRequests: max, enableLog: false }] *)
Definition options (max : Z) : UserConfig := {|
  user_targetPaths := Some ["/api/"];
  user_allowedDomains := None;
  user_maxStoredRequests := Some max;
  user_captureFields := fun _ => None;
  user_storageKey := None;
  user_enableUI := None;
  user_enableLog := Some false;
  user_autoStart := None
|}.

(** A monitor that has not been started, with the given capacity and log. *)
Definition idle (max : Z) (records : list jsval) : APIMonitor := {|
  config := mergeConfig DEFAULT_CONFIG (options max);
  capturedRequests := records;
  isMonitoring := false;
  observers := []
|}.

Definition ok (text : string) : XHRResponse :=
  {| status := 200; responseText := Some text; getAllResponseHeaders := "" |}.

(** The monitor of the specification's scenario: with target path
    [/api/search] and allowed domain [example.com], a [fetch] of
    [https://example.com/api/search?q=1] answered with status 200 and body
    [{"ok":true}] yields one record, and a request to [other.com] none. *)
Definition search_only : APIMonitor := {|
  config := mergeConfig DEFAULT_CONFIG
    {| user_targetPaths := Some ["/api/search"];
       user_allowedDomains := Some ["example.com"];
       user_maxStoredRequests := None; user_captureFields := fun _ => None;
       user_storageKey := None; user_enableUI := None;
       user_enableLog := Some false; user_autoStart := None |};
  capturedRequests := [];
  isMonitoring := false;
  observers := []
|}.

(** The property [k] of an object. *)
Definition property (k : string) (v : jsval) : option jsval :=
  match v with
  | VObj props => snd <$> List.find (fun kv => String.eqb (fst kv) k) props
  | _ => None
  end.




(** C1, refuted as stated. The page's own path contains [/api/], so the
    relative URL [data.json] resolves to a path that matches, and yet the
    request is not captured; the path of the second URL is [/other], which
    does not match, and yet the request is captured, because the target
    occurs in its query string. And on a request object used a second time,
    for [/static/logo.png], which passes the gate in neither reading, the
    listener of the first request is called again and records the second. *)
Lemma capture_by_path_counterexample :
  let s := start (idle 100 []) page in
  let first :=
    xhr_exchange (XMLHttpRequest s.2) s.1 s.2 new_XHR "GET" "/api/items" VUndefined
      (Some (1500, ok "{}")) in
  let second :=
    xhr_exchange (XMLHttpRequest s.2) first.2.1 first.2.2 first.1 "GET" "/static/logo.png"
      VUndefined (Some (2000, ok "")) in
  Spec.gate s.1 s.2 "data.json" = true
  /\ getRequests (xhr_request s.1 s.2 "GET" "data.json" VUndefined (Some (1500, ok "{}"))).1 = []
  /\ Spec.gate s.1 s.2 "https://example.com/other?next=/api/" = false
  /\ length (getRequests
               (xhr_request s.1 s.2 "GET" "https://example.com/other?next=/api/" VUndefined
                  (Some (1500, ok "{}"))).1) = 1%nat
  /\ Spec.gate s.1 s.2 "/static/logo.png" = false
  /\ gate s.1 s.2 "/static/logo.png" = false
  /\ List.map (property "url") (getRequests second.2.1)
     = [Some (VStr "/api/items"); Some (VStr "/static/logo.png")].
Proof. vm_compute. repeat split. Qed.

Lemma capture_iff_gate_witness :
  gate (idle 100 []) page "/api/items" = true
  /\ exists record,
       dispatched (xhr_request (start (idle 100 []) page).1 (start (idle 100 []) page).2
                     "GET" "/api/items" VUndefined (Some (1500, ok "{}"))).2
         = dispatched (start (idle 100 []) page).2 ++ [(eventType "requestCaptured", record)]
       /\ capturedRequests
            (xhr_request (start (idle 100 []) page).1 (start (idle 100 []) page).2
               "GET" "/api/items" VUndefined (Some (1500, ok "{}"))).1
         = trim (maxStoredRequests (config (idle 100 []))) (capturedRequests (idle 100 []) ++ [record]).
Proof.
  assert (gate (idle 100 []) page "/api/items" = true) as G by reflexivity.
  split; [exact G |].
  exact (proj1 (capture_iff_gate (idle 100 []) page "GET" "/api/items" VUndefined 1500
                  (ok "{}") "{}" eq_refl eq_refl eq_refl) G).
Defined.

Lemma fetch_capture_iff_gate_witness :
  isMonitoring search_only = false /\ fetch page = NativeFetch
  /\ gate search_only page "https://other.com/api/search" = false
  /\ capturedRequests
       (fetch_request (start search_only page).1 (start search_only page).2
          "https://other.com/api/search"
          {| init_method := None; init_body := VUndefined; init_headers := VUndefined |}
          (Some (1500, {| response_time := 1400; response_status_code := 200;
                          response_text := "{}"; response_headers_entries := [] |}))).1
     = capturedRequests search_only.
Proof.
  assert (gate search_only page "https://other.com/api/search" = false) as G by reflexivity.
  split; [reflexivity |]. split; [reflexivity |]. split; [exact G |].
  exact (proj2 (proj2 (fetch_capture_iff_gate search_only page "https://other.com/api/search"
                         {| init_method := None; init_body := VUndefined;
                            init_headers := VUndefined |}
                         1500 {| response_time := 1400; response_status_code := 200;
                                 response_text := "{}"; response_headers_entries := [] |}
                         eq_refl eq_refl) G)).
Defined.

(** The scenario of the specification, run. *)
Lemma search_scenario :
  let s := start search_only page in
  let get := {| init_method := None; init_body := VUndefined; init_headers := VUndefined |} in
  let answer :=
    {| response_time := 1400;
       response_status_code := 200;
       response_text := String "{" (String "034" "ok") +:+ String "034" ":true}";
       response_headers_entries := [] |} in
  getRequests (fetch_request s.1 s.2 "https://example.com/api/search?q=1" get
                 (Some (1500, answer))).1
  = [VObj [("id", VStr "1500r0zzzzz"); ("type", VStr "fetch"); ("method", VStr "GET");
           ("url", VStr "https://example.com/api/search?q=1"); ("request", VNull);
           ("status", VNum 200); ("response", VObj [("ok", VBool true)]);
           ("responseHeaders", VObj []);
           ("timestamp", VStr "1970-01-01T00:00:01.500Z");
           ("domain", VStr "example.com"); ("path", VStr "/api/search");
           ("duration", VNum 400); ("initiator", VStr "fetch")]]
  /\ getRequests (fetch_request s.1 s.2 "https://other.com/api/search" get
                    (Some (1500, answer))).1 = [].
Proof. vm_compute. split; reflexivity. Qed.

(** Three completions, as records. *)
Definition A : jsval := VObj [("id", VStr "A")].
Definition B : jsval := VObj [("id", VStr "B")].
Definition C : jsval := VObj [("id", VStr "C")].

(** The scenario of the specification: capacity two, completions A, B, C. *)
Lemma capacity_two_keeps_last_two :
  getRequests (saveRequests (idle 2 []) page [A; B; C]).1 = [B; C].
Proof. reflexivity. Qed.

Lemma saveRequests_bounded_fifo_witness :
  1 <= maxStoredRequests (config (idle 2 [])) /\ [A; B; C] <> []
  /\ capturedRequests (saveRequests (idle 2 []) page [A; B; C]).1
       = lastN (Z.to_nat (maxStoredRequests (config (idle 2 [])))) (capturedRequests (idle 2 []) ++ [A; B; C])
  /\ Z.of_nat (length (capturedRequests (saveRequests (idle 2 []) page [A; B; C]).1))
       <= maxStoredRequests (config (idle 2 [])).
Proof.
  assert (1 <= maxStoredRequests (config (idle 2 []))) as H1 by (vm_compute; discriminate).
  assert ([A; B; C] <> []) as H2 by discriminate.
  split; [exact H1 |]. split; [exact H2 |].
  exact (saveRequests_bounded_fifo (idle 2 []) page [A; B; C] H1 H2).
Defined.

Lemma saveRequests_unbounded_at_zero_witness :
  maxStoredRequests (config (idle 0 [])) = 0
  /\ capturedRequests (saveRequests (idle 0 []) page [A; B; C]).1
     = capturedRequests (idle 0 []) ++ [A; B; C].
Proof.
  split; [reflexivity |].
  exact (saveRequests_unbounded_at_zero (idle 0 []) page [A; B; C] eq_refl).
Defined.



(** A page whose storage holds [null] for a record. The interface is on by
    default and the page has a body: the constructor throws in
    [renderRequestList]. With the interface off it returns the monitor. *)
Definition stocked_null : Window :=
  set_localStorage {[ "api_monitor_requests" := JSON_print 0 (JArray [JNull]) ]} page.

Definition headless : UserConfig := {|
  user_targetPaths := Some ["/api/"];
  user_allowedDomains := None;
  user_maxStoredRequests := None;
  user_captureFields := fun _ => None;
  user_storageKey := None;
  user_enableUI := Some false;
  user_enableLog := Some false;
  user_autoStart := None
|}.

Lemma stored_null_run :
  constructor (options 100) stocked_null = None
  /\ (fun s => getRequests s.1) <$> constructor headless stocked_null = Some [VNull].
Proof. split; reflexivity. Qed.


Lemma start_twice_installs_once_witness :
  isMonitoring (idle 100 []) = false
  /\ start (start (idle 100 []) page).1 (start (idle 100 []) page).2
     = ((start (idle 100 []) page).1,
        log (start (idle 100 []) page).1 LogAlreadyRunning (start (idle 100 []) page).2).
Proof.
  split; [reflexivity |]. exact (start_twice_installs_once (idle 100 []) page eq_refl).
Defined.

Lemma restart_records_twice_witness :
  isMonitoring (idle 100 []) = false /\ XMLHttpRequest page = NativeXHR
  /\ responseText (ok "{}") = Some "{}" /\ gate (idle 100 []) page "/api/items" = true
  /\ exists first second,
       dispatched
         (xhr_request
            (start (stop (start (idle 100 []) page).1 (start (idle 100 []) page).2).1
               (stop (start (idle 100 []) page).1 (start (idle 100 []) page).2).2).1
            (start (stop (start (idle 100 []) page).1 (start (idle 100 []) page).2).1
               (stop (start (idle 100 []) page).1 (start (idle 100 []) page).2).2).2
            "GET" "/api/items" VUndefined (Some (1500, ok "{}"))).2
       = dispatched
           (start (stop (start (idle 100 []) page).1 (start (idle 100 []) page).2).1
              (stop (start (idle 100 []) page).1 (start (idle 100 []) page).2).2).2
         ++ [(eventType "requestCaptured", first); (eventType "requestCaptured", second)].
Proof.
  repeat (split; [reflexivity |]).
  destruct (proj2 (restart_records_twice (idle 100 []) page "GET" "/api/items" VUndefined 1500
                     (ok "{}") "{}" eq_refl eq_refl eq_refl eq_refl))
    as (first & second & Hd & _).
  exists first, second. exact Hd.
Defined.

(** The same run, evaluated: one request, two records in the log, which
    differ in their identifier only. *)
Lemma one_request_two_records_run :
  let s1 := start (idle 100 []) page in
  let s2 := stop s1.1 s1.2 in
  let s3 := start s2.1 s2.2 in
  List.map (property "id")
    (getRequests (xhr_request s3.1 s3.2 "GET" "/api/items" VUndefined (Some (1500, ok "{}"))).1)
  = [Some (VStr "1500r0zzzzz"); Some (VStr "1500r1zzzzz")].
Proof. reflexivity. Qed.

(** C4, refuted as stated. [ws://example.com/socket] has a scheme and a
    host, and the code resolves it against the page as if it were relative;
    [httpdocs/x.json] is relative and does not start with a slash, and the
    code returns it raw, without the page's directory, because it starts
    with [http] and fails to parse. *)
Lemma parseURL_counterexample :
  Spec.parseURL page "ws://example.com/socket"
    = {| domain := "example.com"; path := "/socket" |}
  /\ parseURL page "ws://example.com/socket"
    = {| domain := "air.1688.com"; path := "/api/list/ws://example.com/socket" |}
  /\ Spec.parseURL page "httpdocs/x.json"
    = {| domain := "air.1688.com"; path := "/api/list/httpdocs/x.json" |}
  /\ parseURL page "httpdocs/x.json"
    = {| domain := "air.1688.com"; path := "httpdocs/x.json" |}.
Proof. vm_compute. repeat split. Qed.

Lemma parseURL_cases_witness :
  JsString.startsWith "https://example.com/api/search?q=1" "http" = true
  /\ URL_new "https://example.com/api/search?q=1"
     = Some {| URL_hostname := "example.com"; URL_pathname := "/api/search" |}
  /\ parseURL page "https://example.com/api/search?q=1"
     = {| domain := "example.com"; path := "/api/search" |}.
Proof.
  split; [reflexivity |]. split; [reflexivity |].
  exact (proj1 (parseURL_cases page "https://example.com/api/search?q=1")
           {| URL_hostname := "example.com"; URL_pathname := "/api/search" |} eq_refl eq_refl).
Defined.

(** C5, refuted as stated. The number [0], [false] and [undefined] are not
    strings and do not pass through unchanged; the empty string does not
    parse as JSON and is not returned unchanged. All four yield [null]. *)
Lemma parseData_counterexample :
  Spec.parseData (VNum 0) = VNum 0 /\ parseData (VNum 0) = VNull
  /\ Spec.parseData (VBool false) = VBool false /\ parseData (VBool false) = VNull
  /\ Spec.parseData VUndefined = VUndefined /\ parseData VUndefined = VNull
  /\ JSON_parse "" = None
  /\ Spec.parseData (VStr "") = VStr "" /\ parseData (VStr "") = VNull.
Proof. vm_compute. repeat split. Qed.

Lemma parseData_cases_witness :
  JsString.nonEmpty "[1,2]" = true
  /\ JSON_parse "[1,2]" = Some (VArr [VNum 1; VNum 2])
  /\ parseData (VStr "[1,2]") = VArr [VNum 1; VNum 2]
  /\ JSON_parse "1,2" = None
  /\ parseData (VStr "1,2") = VStr "1,2".
Proof.
  split; [reflexivity |]. split; [reflexivity |].
  split; [exact (proj1 (proj2 parseData_cases) "[1,2]" _ eq_refl eq_refl) |].
  split; [reflexivity |].
  exact (proj1 (proj2 (proj2 parseData_cases)) "1,2" eq_refl eq_refl).
Defined.






(** C8, refuted as stated. In a window whose store takes nothing, [clear()]
    on a log of one record empties the log and dispatches the event, and the
    empty state is not in the storage: [setItem] threw, and the key holds
    nothing. *)
Lemma clear_counterexample :
  getRequests (idle 100 [A]) = [A]
  /\ exists m w,
       clear (idle 100 [A]) private = Some (m, w)
       /\ getRequests m = []
       /\ dispatched w = [(eventType "dataCleared", VNull)]
       /\ storage_takes private (storageKey (config m)) (JSON_print 0 (JArray [])) = false
       /\ localStorage w !! storageKey (config m) = None.
Proof.
  split; [reflexivity |].
  destruct (clear (idle 100 [A]) private) as [[m w]|] eqn:E; [| vm_compute in E; discriminate].
  exists m, w. split; [reflexivity |].
  vm_compute in E. injection E as <- <-. vm_compute. repeat split.
Qed.

(** The same call on the page whose store has room. *)
Lemma clear_run :
  (fun s => (getRequests s.1, localStorage s.2 !! "api_monitor_requests", dispatched s.2))
    <$> clear (idle 100 [A]) page
  = Some ([], Some "[]", [(eventType "dataCleared", VNull)]).
Proof. vm_compute. reflexivity. Qed.

(** A handler the page holds, registered and then handed to [off], and two
    emissions. *)
Lemma off_does_not_unregister_witness :
  (0 < next_fn page)%nat
  /\ Forall (fun tl => (listener_fn tl.2 < next_fn page)%nat) (listeners page)
  /\ In (eventType "dataCleared", Forwarding (next_fn page) 0%nat)
       (listeners (off "dataCleared" 0%nat (on "dataCleared" 0%nat page)))
  /\ exists calls,
       called (triggerEvents [("dataCleared", VUndefined); ("dataCleared", VUndefined)]
                 (off "dataCleared" 0%nat (on "dataCleared" 0%nat page)))
         = called page ++ calls
       /\ forall data,
            In ("dataCleared", data) [("dataCleared", VUndefined); ("dataCleared", VUndefined)] ->
            In (CallWithDetail 0%nat (detail_of data)) calls.
Proof.
  assert (0 < next_fn page)%nat as H1 by (vm_compute; lia).
  assert (Forall (fun tl => (listener_fn tl.2 < next_fn page)%nat) (listeners page)) as H2
    by constructor.
  split; [exact H1 |]. split; [exact H2 |].
  exact (off_does_not_unregister page "dataCleared" 0%nat
           [("dataCleared", VUndefined); ("dataCleared", VUndefined)] H1 H2).
Defined.

(** The same run, evaluated: after [off], one emission, one call. *)
Lemma emission_after_off_run :
  called (triggerEvent "dataCleared" VUndefined
            (off "dataCleared" 0%nat (on "dataCleared" 0%nat page)))
  = [CallWithDetail 0%nat VNull].
Proof. reflexivity. Qed.

(** ** More runs *)

(** A monitor like [idle], with the two toggles that are read nowhere off. *)
Definition idle_without_unread (max : Z) (records : list jsval) : APIMonitor := {|
  config := mergeConfig DEFAULT_CONFIG
    {| user_targetPaths := Some ["/api/"];
       user_allowedDomains := None;
       user_maxStoredRequests := Some max;
       user_captureFields :=
         fun f => match f with
                  | request_queryParams | response_timing => Some false
                  | _ => None
                  end;
       user_storageKey := None; user_enableUI := None;
       user_enableLog := Some false; user_autoStart := None |};
  capturedRequests := records;
  isMonitoring := false;
  observers := []
|}.

(** What an XHR listener hands to [buildRequestData]. *)
Definition exchange : Exchange :=
  {| data_method := VStr "GET"; data_url := "/api/items"; data_body := VUndefined;
     data_headers := VUndefined; data_status := VNum 200; data_responseText := VStr "{}";
     data_responseHeaders := VStr ""; data_duration := VNum 500 |}.

Lemma unread_toggles_change_nothing_witness :
  enableLog (config (idle_without_unread 100 [])) = enableLog (config (idle 100 []))
  /\ buildRequestData (idle_without_unread 100 []) page "xhr" exchange
     = buildRequestData (idle 100 []) page "xhr" exchange.
Proof.
  split; [reflexivity |].
  apply (unread_toggles_change_nothing (idle 100 []) (idle_without_unread 100 []) page "xhr"
           exchange eq_refl).
  intros f H1 H2. destruct f; try reflexivity; [now elim H1 | now elim H2].
Defined.

Lemma xhr_record_fields_witness :
  gate (idle 100 []) page "/api/items" = true
  /\ exists props,
       capturedRequests
         (xhr_request (start (idle 100 []) page).1 (start (idle 100 []) page).2
            "GET" "/api/items" VUndefined (Some (1500, ok "{}"))).1
       = trim (maxStoredRequests (config (idle 100 [])))
           (capturedRequests (idle 100 []) ++ [VObj props])
       /\ get_property "requestHeaders" props = None
       /\ get_property "duration" props = Some (VNum (1500 - clock page)).
Proof.
  split; [reflexivity |].
  destruct (xhr_record_fields (idle 100 []) page "GET" "/api/items" VUndefined 1500 (ok "{}")
              "{}" eq_refl eq_refl eq_refl eq_refl)
    as (props & Hl & _ & _ & _ & _ & Hrh & _ & _ & _ & _ & _ & _ & Hd & _).
  exists props. split; [exact Hl |]. split; [exact Hrh | exact Hd].
Defined.

(** The record of that request, evaluated. *)
Lemma xhr_record_run :
  getRequests
    (xhr_request (start (idle 100 []) page).1 (start (idle 100 []) page).2
       "GET" "/api/items" VUndefined (Some (1500, ok "{}"))).1
  = [VObj [("id", VStr "1500r0zzzzz"); ("type", VStr "xhr"); ("method", VStr "GET");
           ("url", VStr "/api/items"); ("request", VNull); ("status", VNum 200);
           ("response", VObj []); ("timestamp", VStr "1970-01-01T00:00:01.500Z");
           ("domain", VStr "air.1688.com"); ("path", VStr "/api/items");
           ("duration", VNum 500); ("initiator", VStr "xhr")]].
Proof. reflexivity. Qed.

Definition post : FetchInit :=
  {| init_method := Some "POST"; init_body := VStr "[1,2]";
     init_headers := VObj [("Accept", VStr "application/json")] |}.

Definition answer : FetchResponse :=
  {| response_time := 1400; response_status_code := 201; response_text := "{}";
     response_headers_entries :=
       [("content-type", "text/plain"); ("content-type", "application/json")] |}.

Lemma fetch_record_fields_witness :
  gate (idle 100 []) page "/api/items" = true
  /\ exists props,
       capturedRequests
         (fetch_request (start (idle 100 []) page).1 (start (idle 100 []) page).2
            "/api/items" post (Some (1500, answer))).1
       = trim (maxStoredRequests (config (idle 100 [])))
           (capturedRequests (idle 100 []) ++ [VObj props])
       /\ get_property "method" props = Some (VStr "POST")
       /\ get_property "request" props = Some (VArr [VNum 1; VNum 2])
       /\ get_property "responseHeaders" props
          = Some (VObj [("content-type", VStr "application/json")]).
Proof.
  split; [reflexivity |].
  destruct (fetch_record_fields (idle 100 []) page "/api/items" post 1500 answer
              eq_refl eq_refl eq_refl)
    as (props & Hl & _ & Hme & _ & Hrq & _ & _ & _ & Hrsh & _).
  exists props. split; [exact Hl |]. split; [exact Hme |]. split; [exact Hrq | exact Hrsh].
Defined.

Lemma stop_keeps_recording_witness :
  gate (idle 100 []) page "/api/items" = true
  /\ exists record,
       capturedRequests
         (xhr_request
            (stop (start (idle 100 []) page).1 (start (idle 100 []) page).2).1
            (stop (start (idle 100 []) page).1 (start (idle 100 []) page).2).2
            "GET" "/api/items" VUndefined (Some (1500, ok "{}"))).1
       = trim (maxStoredRequests (config (idle 100 [])))
           (capturedRequests (idle 100 []) ++ [record]).
Proof.
  split; [reflexivity |].
  destruct (stop_keeps_recording (idle 100 []) page "GET" "/api/items" VUndefined 1500 (ok "{}")
              "{}" eq_refl eq_refl eq_refl eq_refl)
    as (_ & _ & _ & _ & _ & record & _ & Hl).
  exists record. exact Hl.
Defined.

Lemma negative_capacity_drops_oldest_witness :
  maxStoredRequests (config (idle (-2) [A])) < 0
  /\ capturedRequests (saveRequest (idle (-2) [A]) page B).1 = []
  /\ dispatched (saveRequest (idle (-2) [A]) page B).2
     = dispatched page ++ [(eventType "requestCaptured", detail_of B)].
Proof.
  assert (maxStoredRequests (config (idle (-2) [A])) < 0) as H by (vm_compute; reflexivity).
  split; [exact H |].
  destruct (negative_capacity_drops_oldest (idle (-2) [A]) page B H) as (_ & Hl & Hd).
  split; [apply Hl; vm_compute; reflexivity | exact Hd].
Defined.

Lemma nothing_logged_when_log_disabled_witness :
  enableLog (config (idle 100 [])) = false
  /\ console (start (idle 100 []) page).2 = console page
  /\ exists s, clear (idle 100 []) page = Some s /\ console s.2 = console page.
Proof.
  split; [reflexivity |].
  destruct (nothing_logged_when_log_disabled (idle 100 []) page eq_refl)
    as (H1 & _ & _ & _ & _ & H2 & _).
  split; [exact H1 | exact H2].
Defined.

Lemma other_storage_keys_untouched_witness :
  "cart" <> storageKey (config (idle 100 []))
  /\ localStorage (saveRequests (idle 100 []) page [A; B]).2 !! "cart"
     = localStorage page !! "cart"
  /\ exists s, clear (idle 100 []) page = Some s
       /\ localStorage s.2 !! "cart" = localStorage page !! "cart".
Proof.
  assert ("cart" <> storageKey (config (idle 100 []))) as H by (vm_compute; discriminate).
  split; [exact H |].
  destruct (other_storage_keys_untouched (idle 100 []) page "cart" H)
    as (_ & _ & _ & _ & H1 & H2 & _).
  split; [exact (H1 [A; B]) | exact H2].
Defined.

(** A page whose storage holds text that is not JSON under the key. *)
Definition spoiled : Window :=
  set_localStorage {[ "api_monitor_requests" := "[1," ]} page.

Lemma constructor_survives_unreadable_storage_witness :
  localStorage spoiled !! storageKey (mergeConfig DEFAULT_CONFIG (options 100)) = Some "[1,"
  /\ JSON_parse "[1," = None
  /\ exists m w',
       constructor (options 100) spoiled = Some (m, w')
       /\ capturedRequests m = []
       /\ localStorage w' = localStorage spoiled.
Proof.
  assert (localStorage spoiled !! storageKey (mergeConfig DEFAULT_CONFIG (options 100))
          = Some "[1,") as H1 by reflexivity.
  assert (JSON_parse "[1," = None) as H2 by reflexivity.
  split; [exact H1 |]. split; [exact H2 |].
  destruct (constructor_survives_unreadable_storage (options 100) spoiled
              (or_intror (or_intror (ex_intro _ "[1," (conj H1 H2)))))
    as (m & w' & Hc & Hl & Hs & _).
  exists m, w'. split; [exact Hc |]. split; [exact Hl | exact Hs].
Defined.

(** [{ targetPaths: ['/api/'], autoStart: false, enableLog: false }] *)
Definition manual : UserConfig := {|
  user_targetPaths := Some ["/api/"];
  user_allowedDomains := None;
  user_maxStoredRequests := None;
  user_captureFields := fun _ => None;
  user_storageKey := None;
  user_enableUI := None;
  user_enableLog := Some false;
  user_autoStart := Some false
|}.

Lemma constructor_installs_iff_autoStart_witness :
  exists m w',
    constructor manual page = Some (m, w')
    /\ isMonitoring m = false
    /\ XMLHttpRequest w' = XMLHttpRequest page
    /\ fetch w' = fetch page.
Proof.
  destruct (constructor manual page) as [[m w']|] eqn:E; [| vm_compute in E; discriminate].
  exists m, w'. split; [reflexivity |].
  destruct (constructor_installs_iff_autoStart manual page m w' E) as (H1 & _ & H2 & H3 & _).
  split; [exact H1 |]. split; [exact H2 | exact H3].
Defined.

Lemma second_monitor_breaks_script_creation_witness :
  createElement page = NativeCreateElement
  /\ autoStart (mergeConfig DEFAULT_CONFIG (options 100)) = true
  /\ exists m1 w1 m2 w2,
       constructor (options 100) page = Some (m1, w1)
       /\ constructor (options 100) w1 = Some (m2, w2)
       /\ createElement_call (createElement w2) true (TagString "script") None = None.
Proof.
  split; [reflexivity |]. split; [reflexivity |].
  destruct (constructor (options 100) page) as [[m1 w1]|] eqn:E1;
    [| vm_compute in E1; discriminate].
  destruct (constructor (options 100) w1) as [[m2 w2]|] eqn:E2.
  - exists m1, w1, m2, w2. split; [reflexivity |]. split; [exact E2 |].
    exact (proj2 (proj2 (proj2 (second_monitor_breaks_script_creation (options 100)
                                  (options 100) page w1 w2 m1 m2 eq_refl eq_refl eq_refl
                                  E1 E2))) "script" None eq_refl).
  - vm_compute in E1. injection E1 as <- <-. vm_compute in E2. discriminate.
Defined.

(** The page once the button and the panel are there. *)
Definition with_button : Window := default page (createUI (idle 100 [A]) page).

Lemma with_button_run :
  createUI (idle 100 [A]) page = Some with_button
  /\ badge (document with_button) = Some 1%nat
  /\ content (document with_button) = Some [A].
Proof. vm_compute. repeat split. Qed.


(** The same run, evaluated: three records on the badge, one in the list. *)
Lemma badge_and_list_run :
  badge (document (saveRequests (idle 100 [A]) with_button [B; C]).2) = Some 3%nat
  /\ content (document (saveRequests (idle 100 [A]) with_button [B; C]).2) = Some [A].
Proof. split; reflexivity. Qed.


Lemma handlers_called_in_registration_order_witness :
  Forall (fun tl => (listener_fn tl.2 < next_fn page)%nat) (listeners page)
  /\ called (saveRequest (idle 100 [])
               (ons [("requestCaptured", 7%nat); ("dataCleared", 8%nat);
                     ("requestCaptured", 7%nat)] page) A).2
     = [CallWithDetail 7%nat A; CallWithDetail 7%nat A]
  /\ exists s,
       clear (idle 100 [])
         (ons [("requestCaptured", 7%nat); ("dataCleared", 8%nat);
               ("requestCaptured", 7%nat)] page) = Some s
       /\ called s.2 = [CallWithDetail 8%nat VNull].
Proof.
  assert (Forall (fun tl => (listener_fn tl.2 < next_fn page)%nat) (listeners page)) as H
    by constructor.
  split; [exact H |].
  exact (handlers_called_in_registration_order (idle 100 []) page
           [("requestCaptured", 7%nat); ("dataCleared", 8%nat); ("requestCaptured", 7%nat)] A H).
Defined.


(** A script source that passes the gate as written and as resolved. *)
Definition jsonp_url : string := "https://air.1688.com/api/list?callback=cb".

Lemma script_recorded_by_both_channels_witness :
  isMonitoring (idle 100 []) = false /\ observers (idle 100 []) = []
  /\ createElement page = NativeCreateElement
  /\ exists m' w' lines first second,
       script_request (start (idle 100 []) page).1 (start (idle 100 []) page).2 true
         ByProperty jsonp_url jsonp_url (Some 1500) = Some (m', w', lines)
       /\ capturedRequests m'
          = trim (maxStoredRequests (config (idle 100 [])))
              (trim (maxStoredRequests (config (idle 100 [])))
                 (capturedRequests (idle 100 []) ++ [first]) ++ [second])
       /\ script_record (config (idle 100 [])) 1500
            {| listener_type := "jsonp"; listener_url := jsonp_url;
               listener_startTime := clock page |} first
       /\ script_record (config (idle 100 [])) 1500
            {| listener_type := "script"; listener_url := jsonp_url;
               listener_startTime := clock page |} second.
Proof.
  repeat (split; [reflexivity |]).
  destruct (script_recorded_by_both_channels (idle 100 []) page true ByProperty jsonp_url
              jsonp_url 1500 eq_refl eq_refl eq_refl)
    as (m' & w' & lines & records & E & Hl & _ & Hf).
  apply Forall2_cons_inv_l in Hf as (first & rest & H1 & Hf & ->).
  apply Forall2_cons_inv_l in Hf as (second & rest' & H2 & Hf & ->).
  apply Forall2_nil_inv_l in Hf as ->.
  exists m', w', lines, first, second.
  split; [exact E |]. split; [exact Hl |]. split; [exact H1 | exact H2].
Defined.

(** The same script, evaluated: one load, two records. *)
Lemma one_script_two_records_run :
  let s := start (idle 100 []) page in
  (fun r => List.map (property "type") (getRequests r.1.1))
    <$> script_request s.1 s.2 true ByProperty jsonp_url jsonp_url (Some 1500)
  = Some [Some (VStr "jsonp"); Some (VStr "script")].
Proof. reflexivity. Qed.

Lemma stop_ends_script_channel_only_witness :
  isMonitoring (idle 100 []) = false /\ createElement page = NativeCreateElement
  /\ exists m' w' lines record,
       script_request
         (stop (start (idle 100 []) page).1 (start (idle 100 []) page).2).1
         (stop (start (idle 100 []) page).1 (start (idle 100 []) page).2).2
         true BySetAttribute jsonp_url jsonp_url (Some 1500) = Some (m', w', lines)
       /\ capturedRequests m'
          = trim (maxStoredRequests (config (idle 100 [])))
              (capturedRequests (idle 100 []) ++ [record])
       /\ script_record (config (idle 100 [])) 1500
            {| listener_type := "jsonp"; listener_url := jsonp_url;
               listener_startTime := clock page |} record.
Proof.
  repeat (split; [reflexivity |]).
  destruct (stop_ends_script_channel_only (idle 100 []) page true BySetAttribute jsonp_url
              jsonp_url 1500 eq_refl eq_refl)
    as (m' & w' & lines & records & E & Hl & Hf).
  apply Forall2_cons_inv_l in Hf as (record & rest & H1 & Hf & ->).
  apply Forall2_nil_inv_l in Hf as ->.
  exists m', w', lines, record. split; [exact E |]. split; [exact Hl | exact H1].
Defined.

Lemma restart_breaks_script_creation_witness :
  isMonitoring (idle 100 []) = false /\ createElement page = NativeCreateElement
  /\ createElement_call
       (createElement
          (start (stop (start (idle 100 []) page).1 (start (idle 100 []) page).2).1
             (stop (start (idle 100 []) page).1 (start (idle 100 []) page).2).2).2)
       true (TagString "SCRIPT") None = None
  /\ createElement_call
       (createElement
          (start (stop (start (idle 100 []) page).1 (start (idle 100 []) page).2).1
             (stop (start (idle 100 []) page).1 (start (idle 100 []) page).2).2).2)
       true (TagString "div") (Some "x-card")
     = Some {| localName := "div"; is_value := None; setAttribute_wrappers := 0;
               src_accessor := false; load_listeners := [] |}
  /\ createElement_call NativeCreateElement true (TagString "div") (Some "x-card")
     = Some {| localName := "div"; is_value := Some "x-card"; setAttribute_wrappers := 0;
               src_accessor := false; load_listeners := [] |}.
Proof.
  split; [reflexivity |]. split; [reflexivity |].
  destruct (restart_breaks_script_creation (idle 100 []) page eq_refl eq_refl)
    as (_ & H1 & H2 & _).
  split; [exact (H1 "SCRIPT" None eq_refl) |].
  split; [exact (H2 "div" (Some "x-card") ltac:(discriminate)) | reflexivity].
Defined.

(** Before the document has a body, [createUI] draws nothing and sets a
    timer; when it fires and there is a body by then, the button and the
    list are drawn. *)
Lemma createUI_retry_run :
  exists w1 w2,
    createUI (idle 100 [A]) early = Some w1
    /\ document w1 = document early
    /\ timers w1 = [(1100, RetryCreateUI)]
    /\ fire_timer (idle 100 [A])
         (set_document {| body := true; badge := None; content := None |} w1) = Some w2
    /\ clock w2 = 1100
    /\ timers w2 = []
    /\ badge (document w2) = Some 1%nat
    /\ content (document w2) = Some [A].
Proof.
  destruct (createUI (idle 100 [A]) early) as [w1|] eqn:E1; [| vm_compute in E1; discriminate].
  destruct (fire_timer (idle 100 [A])
              (set_document {| body := true; badge := None; content := None |} w1))
    as [w2|] eqn:E2;
    [| vm_compute in E1; injection E1 as <-; vm_compute in E2; discriminate].
  exists w1, w2. split; [reflexivity |].
  vm_compute in E1. injection E1 as <-. vm_compute in E2. injection E2 as <-.
  vm_compute. repeat split.
Qed.

(** A request object that carries the listener of an earlier exchange. *)
Definition used : XHR :=
  {| _url := "/api/items"; _method := "GET"; _startTime := 1000; _body := VUndefined;
     onload := 1 |}.

Lemma reused_request_object_records_again_witness :
  isMonitoring (idle 100 []) = false /\ XMLHttpRequest page = NativeXHR
  /\ responseText (ok "") = Some ""
  /\ gate (idle 100 []) page "/static/logo.png" = false
  /\ exists record,
       dispatched
         (xhr_exchange (XMLHttpRequest (start (idle 100 []) page).2)
            (start (idle 100 []) page).1 (start (idle 100 []) page).2 used
            "GET" "/static/logo.png" VUndefined (Some (2000, ok ""))).2.2
       = dispatched (start (idle 100 []) page).2 ++ [(eventType "requestCaptured", record)]
       /\ property "url" record = Some (VStr "/static/logo.png").
Proof.
  repeat (split; [reflexivity |]).
  destruct (reused_request_object_records_again (idle 100 []) page used "GET"
              "/static/logo.png" VUndefined 2000 (ok "") "" eq_refl eq_refl eq_refl)
    as (records & Hn & _ & _ & Hd & Hf).
  destruct records as [|record [|]]; try discriminate Hn.
  exists record. split; [exact Hd |].
  apply Forall_cons in Hf as [(props & -> & _ & Hu) _].
  revert Hu. clear. induction props as [|[k v] props IH]; cbn; [discriminate |].
  destruct (String.eqb k "url"); [now intros [= ->] | exact IH].
Defined.

(** [updateConfig({ targetPaths: ['/v2/'], maxStoredRequests: 1 })] *)
Definition retarget : ConfigUpdate := {|
  new_targetPaths := Some ["/v2/"];
  new_allowedDomains := None;
  new_maxStoredRequests := Some 1;
  new_storageKey := None;
  new_enableUI := None;
  new_enableLog := None;
  new_autoStart := None
|}.

Lemma updateConfig_applies_to_installed_wrappers_witness :
  gate (updateConfig retarget (start (idle 100 [A; B]) page).1) page "/v2/items" = true
  /\ gate (updateConfig retarget (start (idle 100 [A; B]) page).1) page "/api/items" = false
  /\ (exists record,
        capturedRequests
          (xhr_request (updateConfig retarget (start (idle 100 [A; B]) page).1)
             (start (idle 100 [A; B]) page).2 "GET" "/v2/items" VUndefined
             (Some (1500, ok "{}"))).1
        = [record])
  /\ capturedRequests
       (xhr_request (updateConfig retarget (start (idle 100 [A; B]) page).1)
          (start (idle 100 [A; B]) page).2 "GET" "/api/items" VUndefined
          (Some (1500, ok "{}"))).1
     = [A; B].
Proof.
  split; [reflexivity |]. split; [reflexivity |].
  destruct (updateConfig_applies_to_installed_wrappers (idle 100 [A; B]) page retarget "GET"
              "/v2/items" VUndefined 1500 (ok "{}") "{}" eq_refl eq_refl eq_refl)
    as (_ & H1 & _).
  destruct (H1 eq_refl) as (record & Hr).
  split; [exists record; exact Hr |].
  exact (proj2 (proj2 (updateConfig_applies_to_installed_wrappers (idle 100 [A; B]) page
                         retarget "GET" "/api/items" VUndefined 1500 (ok "{}") "{}"
                         eq_refl eq_refl eq_refl)) eq_refl).
Defined.


Lemma fetch_without_url_throws_witness :
  targetPaths (config (idle 100 [])) <> []
  /\ fetch_call_input (fetch (start (idle 100 []) page).2) (start (idle 100 []) page).1
       (start (idle 100 []) page).2 InputObject post = None
  /\ fetch_call_input (fetch (start (idle 100 []) page).2) (start (idle 100 []) page).1
       (start (idle 100 []) page).2 (InputRequest "/api/items") post
     = Some (fetch_call (fetch (start (idle 100 []) page).2) (start (idle 100 []) page).1
               (start (idle 100 []) page).2 "/api/items" post).
Proof.
  assert (targetPaths (config (idle 100 [])) <> []) as H by (vm_compute; discriminate).
  split; [exact H |].
  destruct (fetch_without_url_throws (idle 100 []) page post eq_refl eq_refl)
    as (_ & Hthrow & _ & Hrequest).
  split; [exact (Hthrow H) | exact (Hrequest "/api/items")].
Defined.

Lemma send_after_open_with_object_throws_witness :
  targetPaths (config (idle 100 [])) <> []
  /\ xhr_send_object (XMLHttpRequest (start (idle 100 []) page).2) (start (idle 100 []) page).1
       (xhr_open_object (XMLHttpRequest (start (idle 100 []) page).2)
          (start (idle 100 []) page).1 (start (idle 100 []) page).2
          "GET" "https://air.1688.com/api/items")
       "GET" "https://air.1688.com/api/items" = None.
Proof.
  assert (targetPaths (config (idle 100 [])) <> []) as H by (vm_compute; discriminate).
  split; [exact H |].
  destruct (send_after_open_with_object_throws (idle 100 []) page "GET"
              "https://air.1688.com/api/items" eq_refl eq_refl)
    as (_ & _ & Hthrow & _).
  exact (Hthrow H).
Defined.
End Example.
